(** * Verification of the STIG configuration-compliance engine

    Shallow embedding of the STIG application of NetNynjaEnterprise
    ([apps/stig/src/stig]): the configuration checker
    ([services/config_checker.py]), the pfSense configuration parser
    ([collectors/config_analyzer.py]), the XCCDF extractor
    ([library/parser.py]), the compliance score ([services/audit.py],
    [api/routes.py]) and the audit-job status updates
    ([db/repository.py], [services/audit.py]).

    Python strings are modelled as Rocq [string]s (the UTF-8 bytes of the
    text); Python exceptions as the [Raise] branch of [Result]. *)

From Stdlib Require Import String Ascii List Bool Arith Lia ZArith QArith.
From Stdlib Require Import Qround Qabs Qpower Lqa.
Import ListNotations.
Open Scope string_scope.
Set Warnings "-register-all".

(* ------------------------------------------------------------------ *)
(** ** Python runtime fragments *)

(** Exceptions that the modelled code raises or catches. *)
Inductive PyExc :=
| ValueError (msg : string)
| ValidationError (msg : string)       (* pydantic.ValidationError *)
| ParseError (msg : string)            (* xml.etree.ElementTree.ParseError *)
| EntitiesForbidden (msg : string)     (* defusedxml.EntitiesForbidden *)
| BadZipFile
| OtherError (msg : string).

Definition exc_str (e : PyExc) : string :=
  match e with
  | ValueError m | ValidationError m | ParseError m | OtherError m
  | EntitiesForbidden m => m
  | BadZipFile => "File is not a zip file"
  end.

(** A Python [str] is held as its UTF-8 encoding. [len] counts the code
    points: the bytes that do not continue a multi-byte sequence. *)
Definition is_utf8_cont (c : ascii) : bool :=
  (128 <=? nat_of_ascii c)%nat && (nat_of_ascii c <? 192)%nat.

Fixpoint py_len (s : string) : nat :=
  match s with
  | EmptyString => 0
  | String c r => if is_utf8_cont c then py_len r else S (py_len r)
  end.

(** [s[:n]]: the first [n] code points. *)
Fixpoint py_prefix (n : nat) (s : string) : string :=
  match s with
  | EmptyString => EmptyString
  | String c r =>
    if is_utf8_cont c then String c (py_prefix n r)
    else match n with
         | O => EmptyString
         | S m => String c (py_prefix m r)
         end
  end.

(** A computation that returns a value or raises. *)
Inductive Result (A : Type) :=
| Ok (a : A)
| Raise (e : PyExc).
Arguments Ok {A} a.
Arguments Raise {A} e.

Definition bind {A B} (m : Result A) (k : A -> Result B) : Result B :=
  match m with Ok a => k a | Raise e => Raise e end.

Notation "x <- m ;; k" := (bind m (fun x => k))
  (at level 61, m at next level, right associativity).

(** [str.lower()] on ASCII. *)
Definition lower_ascii (c : ascii) : ascii :=
  let n := nat_of_ascii c in
  if ((65 <=? n) && (n <=? 90))%nat then ascii_of_nat (n + 32)%nat else c.

Fixpoint lower (s : string) : string :=
  match s with
  | EmptyString => EmptyString
  | String c r => String (lower_ascii c) (lower r)
  end.

(** [sub in s]. *)
Fixpoint contains (sub s : string) : bool :=
  if String.prefix sub s then true
  else match s with
       | EmptyString => false
       | String _ r => contains sub r
       end.

Fixpoint join (sep : string) (l : list string) : string :=
  match l with
  | [] => ""
  | [x] => x
  | x :: r => x ++ sep ++ join sep r
  end.

(** Python values stored in the [dict[str, Any]] fields of a
    [ParsedConfig]. *)
Inductive PyVal :=
| PNone
| PBool (b : bool)
| PStr (s : string)
| PList (l : list PyVal).

(** A Python dict with string keys, in insertion order. *)
Definition dict (V : Type) := list (string * V).

Fixpoint dict_get {V} (d : dict V) (k : string) : option V :=
  match d with
  | [] => None
  | (k', v) :: r => if String.eqb k k' then Some v else dict_get r k
  end.

(** [bool(v)] *)
Definition truthy (v : PyVal) : bool :=
  match v with
  | PNone => false
  | PBool b => b
  | PStr s => negb (String.eqb s "")
  | PList l => negb (match l with [] => true | _ => false end)
  end.

Definition opt_truthy (o : option PyVal) : bool :=
  match o with None => false | Some v => truthy v end.

(** [repr] of a value (strings are shown in single quotes). *)
Fixpoint py_repr (v : PyVal) : string :=
  match v with
  | PNone => "None"
  | PBool true => "True"
  | PBool false => "False"
  | PStr s => "'" ++ s ++ "'"
  | PList l => "[" ++ join ", " (map py_repr l) ++ "]"
  end.

(** [str(v)] *)
Definition py_str (v : PyVal) : string :=
  match v with PStr s => s | _ => py_repr v end.

(** [str(d)] of a dict. *)
Definition dict_str (d : dict PyVal) : string :=
  "{" ++ join ", " (map (fun kv => "'" ++ fst kv ++ "': " ++ py_repr (snd kv)) d) ++ "}".

(** [str.strip()] and [str.split()] whitespace: the characters
    [Py_UNICODE_ISSPACE] accepts in the ASCII range. The white space above
    U+007F (U+0085, U+00A0, U+2000 and the like) is not modelled, so the
    properties of the Arista and Red Hat parsers about interface names,
    setting names and values are stated for ASCII ones. *)
Definition is_py_space (c : ascii) : bool :=
  let n := nat_of_ascii c in
  ((n =? 32) || ((9 <=? n) && (n <=? 13)) || ((28 <=? n) && (n <=? 31)))%nat.

Fixpoint lstrip (s : string) : string :=
  match s with
  | String c r => if is_py_space c then lstrip r else s
  | EmptyString => EmptyString
  end.

Definition rstrip (s : string) : string :=
  string_of_list_ascii
    (rev (list_ascii_of_string (lstrip (string_of_list_ascii (rev (list_ascii_of_string s)))))).

Definition strip (s : string) : string := rstrip (lstrip s).

Definition digit_val (c : ascii) : option Z :=
  let n := nat_of_ascii c in
  if ((48 <=? n) && (n <=? 57))%nat then Some (Z.of_nat (n - 48)) else None.

(** The code points of a UTF-8 string. A byte that does not start a
    well-formed sequence stands for U+FFFD; the text of a Python [str]
    has none. *)
Definition utf8_cont (c : ascii) : option Z :=
  let b := Z.of_nat (nat_of_ascii c) in
  if ((128 <=? b) && (b <? 192))%Z then Some (b - 128)%Z else None.

Fixpoint utf8_decode (s : string) : list Z :=
  match s with
  | EmptyString => []
  | String c r =>
    let b := Z.of_nat (nat_of_ascii c) in
    if (b <? 128)%Z then b :: utf8_decode r
    else if ((192 <=? b) && (b <? 224))%Z then
      match r with
      | String c2 r2 =>
        match utf8_cont c2 with
        | Some x2 => ((b - 192) * 64 + x2)%Z :: utf8_decode r2
        | None => 65533%Z :: utf8_decode r
        end
      | EmptyString => [65533%Z]
      end
    else if ((224 <=? b) && (b <? 240))%Z then
      match r with
      | String c2 (String c3 r3) =>
        match utf8_cont c2, utf8_cont c3 with
        | Some x2, Some x3 => ((b - 224) * 4096 + x2 * 64 + x3)%Z :: utf8_decode r3
        | _, _ => 65533%Z :: utf8_decode r
        end
      | _ => 65533%Z :: utf8_decode r
      end
    else if ((240 <=? b) && (b <? 248))%Z then
      match r with
      | String c2 (String c3 (String c4 r4)) =>
        match utf8_cont c2, utf8_cont c3, utf8_cont c4 with
        | Some x2, Some x3, Some x4 =>
            ((b - 240) * 262144 + x2 * 4096 + x3 * 64 + x4)%Z :: utf8_decode r4
        | _, _, _ => 65533%Z :: utf8_decode r
        end
      | _ => 65533%Z :: utf8_decode r
      end
    else 65533%Z :: utf8_decode r
  end.

(** The code points of digit zero of the 66 blocks of decimal digits
    (general category Nd) of the Unicode 14.0 database of CPython 3.11;
    each block holds the digits 0 to 9 in order. *)
Definition unicode_decimal_zeros : list Z :=
  [48; 1632; 1776; 1984; 2406; 2534; 2662; 2790; 2918; 3046; 3174; 3302;
   3430; 3558; 3664; 3792; 3872; 4160; 4240; 6112; 6160; 6470; 6608; 6784;
   6800; 6992; 7088; 7232; 7248; 42528; 43216; 43264; 43472; 43504; 43600;
   44016; 65296; 66720; 68912; 69734; 69872; 69942; 70096; 70384; 70736;
   70864; 71248; 71360; 71472; 71904; 72016; 72784; 73040; 73120; 92768;
   92864; 93008; 120782; 120792; 120802; 120812; 120822; 123200; 123632;
   125264; 130032]%Z.

(** [Py_UNICODE_TODECIMAL] *)
Definition unicode_decimal (cp : Z) : option Z :=
  match find (fun z => ((z <=? cp) && (cp <? z + 10))%Z) unicode_decimal_zeros with
  | Some z => Some (cp - z)%Z
  | None => None
  end.

(** [Py_UNICODE_ISSPACE] above U+007E *)
Definition unicode_space_above_ascii (cp : Z) : bool :=
  ((cp =? 133) || (cp =? 160) || (cp =? 5760) || ((8192 <=? cp) && (cp <=? 8202))
   || (cp =? 8232) || (cp =? 8233) || (cp =? 8239) || (cp =? 8287) || (cp =? 12288))%Z.

(** [_PyUnicode_TransformDecimalAndSpaceToASCII]: an ASCII string is kept;
    otherwise characters below U+007F are kept, white space becomes a
    space, a decimal digit its ASCII digit, and the first other character
    becomes [?], which ends the text. *)
Fixpoint transform_to_ascii (cps : list Z) : list Z :=
  match cps with
  | [] => []
  | cp :: r =>
    if (cp <? 127)%Z then cp :: transform_to_ascii r
    else if unicode_space_above_ascii cp then 32%Z :: transform_to_ascii r
    else match unicode_decimal cp with
         | Some d => (48 + d)%Z :: transform_to_ascii r
         | None => [63%Z]
         end
  end.

Definition decimal_and_space_to_ascii (cps : list Z) : list Z :=
  if forallb (fun cp => (cp <? 128)%Z) cps then cps else transform_to_ascii cps.

(** [Py_ISSPACE] *)
Definition ascii_isspace (c : Z) : bool := ((c =? 32) || ((9 <=? c) && (c <=? 13)))%Z.

Fixpoint skip_isspace (l : list Z) : list Z :=
  match l with
  | c :: r => if ascii_isspace c then skip_isspace r else l
  | [] => []
  end.

(** The digit loop of [PyLong_FromString] in base 10: digits, where a
    single [_] may stand between two digits; [prev_us] says that the
    previous character was [_] (initially true, so that a leading [_] is
    refused). Gives the value, the number of digits and the rest, or
    [None] for a misplaced [_] or no digit at all. *)
Fixpoint scan_digits (l : list Z) (acc nd : Z) (prev_us : bool) : option (Z * Z * list Z) :=
  match l with
  | c :: r =>
    if ((48 <=? c) && (c <=? 57))%Z then scan_digits r (acc * 10 + (c - 48)) (nd + 1) false
    else if (c =? 95)%Z then (if prev_us then None else scan_digits r acc nd true)
    else if prev_us then None else Some (acc, nd, l)
  | [] => if prev_us then None else Some (acc, nd, [])
  end.

(** [str(n)] of a natural number *)
Fixpoint dec_str_aux (fuel : nat) (n : Z) (acc : string) : string :=
  match fuel with
  | O => acc
  | S f =>
    let acc' := String (ascii_of_nat (48 + Z.to_nat (n mod 10))) acc in
    if (n <? 10)%Z then acc' else dec_str_aux f (n / 10)%Z acc'
  end.

Definition dec_str (n : Z) : string := dec_str_aux (S (Z.to_nat (Z.log2 n))) n "".

(** [sys.get_int_max_str_digits()] by default *)
Definition int_max_str_digits : Z := 4300.

(** [int(s)] for a [str] [s] in base 10 ([PyLong_FromUnicodeObject]):
    Unicode digits and white space are first made ASCII; then white space,
    an optional sign, the digits and white space; more than 4300 digits
    raise [ValueError] before the end of the text is looked at. *)
Definition py_int_parse (s : string) : Result Z :=
  let invalid := Raise (ValueError ("invalid literal for int() with base 10: '" ++ s ++ "'")) in
  let l1 := skip_isspace (decimal_and_space_to_ascii (utf8_decode s)) in
  let '(sign, l2) := match l1 with
                     | 43%Z :: r => (1%Z, r)
                     | 45%Z :: r => ((-1)%Z, r)
                     | _ => (1%Z, l1)
                     end in
  match scan_digits l2 0 0 true with
  | None => invalid
  | Some (v, nd, rest) =>
    if (int_max_str_digits <? nd)%Z
    then Raise (ValueError ("Exceeds the limit (4300 digits) for integer string conversion: value has "
                            ++ dec_str nd ++ " digits; use sys.set_int_max_str_digits() to increase the limit"))
    else match skip_isspace rest with
         | [] => Ok (sign * v)%Z
         | _ => invalid
         end
  end.

(** The integer [int(s)] gives, if any. *)
Definition py_int_str (s : string) : option Z :=
  match py_int_parse s with Ok z => Some z | Raise _ => None end.

(** [int(v)]: [ValueError] for a string that is not an integer literal,
    [TypeError] for [None] and lists. *)
Definition py_int (v : PyVal) : Result Z :=
  match v with
  | PStr s => py_int_parse s
  | PBool b => Ok (if b then 1%Z else 0%Z)
  | PNone => Raise (OtherError "int() argument must be a string, a bytes-like object or a real number, not 'NoneType'")
  | PList _ => Raise (OtherError "int() argument must be a string, a bytes-like object or a real number, not 'list'")
  end.

(* ------------------------------------------------------------------ *)
(** ** Data model ([models/audit.py], [collectors/config_analyzer.py]) *)

Inductive CheckStatus := PASS | FAIL | NOT_APPLICABLE | NOT_REVIEWED | ERROR.

Inductive STIGSeverity := HIGH | MEDIUM | LOW.

Inductive AuditStatus := PENDING | RUNNING | COMPLETED | FAILED | CANCELLED.

Definition CheckStatus_eqb (a b : CheckStatus) : bool :=
  match a, b with
  | PASS, PASS | FAIL, FAIL | NOT_APPLICABLE, NOT_APPLICABLE
  | NOT_REVIEWED, NOT_REVIEWED | ERROR, ERROR => true
  | _, _ => false
  end.

(** Modelled from the spec: the [Platform] enum is declared in
    [models/target.py], which is not part of the sources at hand. The
    members named by the checker and the parser registry are listed;
    [OTHER_PLATFORM] stands for any further member (a platform with no
    registered parser). *)
Inductive Platform :=
| ARISTA_EOS | HPE_ARUBA_CX | JUNIPER_JUNOS | JUNIPER_SRX
| PFSENSE | MELLANOX | REDHAT | LINUX
| OTHER_PLATFORM (value : string).

(** [ParsedConfig] *)
Record ParsedConfig := {
  platform : Platform;
  hostname : option string;
  version : option string;
  raw_content : string;
  sections : dict PyVal;
  settings : dict PyVal;
  interfaces : list (dict PyVal);
  users : list (dict PyVal);
  acls : list (dict PyVal);
  routing : dict PyVal;
  services : dict PyVal;
  ntp_servers : list string;
  dns_servers : list string;
  syslog_servers : list string;
  snmp_config : dict PyVal;
  aaa_config : dict PyVal;
  ssh_config : dict PyVal;
  banner : option string
}.

(** [ParsedConfig(platform=p, raw_content=content)]: every other field at
    its default. *)
Definition new_config (p : Platform) (content : string) : ParsedConfig :=
  {| platform := p; hostname := None; version := None; raw_content := content;
     sections := []; settings := []; interfaces := []; users := []; acls := [];
     routing := []; services := []; ntp_servers := []; dns_servers := [];
     syslog_servers := []; snmp_config := []; aaa_config := [];
     ssh_config := []; banner := None |}.

(** [AuditResultCreate] *)
Record AuditResultCreate := {
  job_id : string;
  rule_id : string;
  title : option string;
  severity : option STIGSeverity;
  status : CheckStatus;
  finding_details : option string;
  comments : option string
}.

(** Construction of an [AuditResultCreate]: pydantic validates
    [rule_id: Annotated[str, Field(min_length=1, max_length=100)]] and
    raises [ValidationError] otherwise. *)
Definition mk_AuditResultCreate (jid rid : string) (t : string)
    (sev : STIGSeverity) (st : CheckStatus) (fd : string) : Result AuditResultCreate :=
  if (1 <=? py_len rid)%nat && (py_len rid <=? 100)%nat then
    Ok {| job_id := jid; rule_id := rid; title := Some t; severity := Some sev;
          status := st; finding_details := Some fd; comments := None |}
  else Raise (ValidationError "rule_id: String should have at least 1 character and at most 100 characters").

Definition valid_rule_id (rid : string) : bool :=
  (1 <=? py_len rid)%nat && (py_len rid <=? 100)%nat.

(* ------------------------------------------------------------------ *)
(** ** Built-in rules ([services/config_checker.py]) *)

(** [ConfigCheckRule] *)
Module ConfigCheckRule.
Record t := {
  rule_id : string;
  vuln_id : string;
  title : string;
  severity : STIGSeverity;
  check_type : string;
  check_key : option string;
  expected_value : option string;
  pattern : option string;
  negate : bool;
  description : string
}.
End ConfigCheckRule.

Definition ccr rid vid ttl sev ctype key exp pat neg desc : ConfigCheckRule.t :=
  {| ConfigCheckRule.rule_id := rid; ConfigCheckRule.vuln_id := vid;
     ConfigCheckRule.title := ttl; ConfigCheckRule.severity := sev;
     ConfigCheckRule.check_type := ctype; ConfigCheckRule.check_key := key;
     ConfigCheckRule.expected_value := exp; ConfigCheckRule.pattern := pat;
     ConfigCheckRule.negate := neg; ConfigCheckRule.description := desc |}.

Definition ARISTA_CHECKS : list ConfigCheckRule.t := [
  ccr "ARST-L2-000010" "V-215845"
      "Arista MLS must enforce approved authorizations"
      HIGH "aaa" (Some "enabled") (Some "true") None false "";
  ccr "ARST-L2-000020" "V-215846"
      "Arista MLS must authenticate SNMP messages using a FIPS-validated hash"
      HIGH "snmp" (Some "version") (Some "v3") None false "";
  ccr "ARST-L2-000030" "V-215847"
      "Arista MLS must have STP enabled"
      MEDIUM "pattern" None None (Some "spanning-tree mode") false "";
  ccr "ARST-L2-000040" "V-215848"
      "Arista MLS must have BPDU guard enabled"
      MEDIUM "pattern" None None (Some "spanning-tree.*(bpduguard|portfast bpduguard)") false "";
  ccr "ARST-L2-000050" "V-215849"
      "Arista MLS must have Root Guard enabled"
      MEDIUM "pattern" None None (Some "spanning-tree guard root") false "";
  ccr "ARST-L2-000060" "V-215850"
      "Arista MLS must not have CDP enabled on external interfaces"
      LOW "pattern" None None (Some "no cdp enable|no lldp transmit") false "";
  ccr "ARST-ND-000010" "V-215851"
      "Arista must limit SSH sessions"
      MEDIUM "ssh" (Some "enabled") (Some "true") None false "";
  ccr "ARST-ND-000020" "V-215852"
      "Arista must configure NTP"
      MEDIUM "ntp" (Some "configured") (Some "true") None false "";
  ccr "ARST-ND-000030" "V-215853"
      "Arista must configure logging"
      MEDIUM "syslog" (Some "configured") (Some "true") None false "";
  ccr "ARST-ND-000040" "V-215854"
      "Arista must display a login banner"
      MEDIUM "banner" (Some "configured") (Some "true") None false "" ].

Definition HPE_ARUBA_CX_CHECKS : list ConfigCheckRule.t := [
  ccr "ARBA-CX-000010" "V-260001"
      "Aruba CX must enforce AAA authentication"
      HIGH "aaa" (Some "enabled") (Some "true") None false "";
  ccr "ARBA-CX-000020" "V-260002"
      "Aruba CX must use SNMPv3 with authentication"
      HIGH "snmp" (Some "version") (Some "v3") None false "";
  ccr "ARBA-CX-000030" "V-260003"
      "Aruba CX must configure SSH for management"
      MEDIUM "ssh" (Some "server_enabled") (Some "true") None false "";
  ccr "ARBA-CX-000040" "V-260004"
      "Aruba CX must configure NTP"
      MEDIUM "ntp" (Some "configured") (Some "true") None false "";
  ccr "ARBA-CX-000050" "V-260005"
      "Aruba CX must configure remote logging"
      MEDIUM "syslog" (Some "configured") (Some "true") None false "";
  ccr "ARBA-CX-000060" "V-260006"
      "Aruba CX must display a DoD-approved banner"
      MEDIUM "banner" (Some "configured") (Some "true") None false "";
  ccr "ARBA-CX-000070" "V-260007"
      "Aruba CX must disable unnecessary services"
      LOW "pattern" None None (Some "no telnet-server") false "" ].

Definition JUNIPER_CHECKS : list ConfigCheckRule.t := [
  ccr "JUSX-AG-000010" "V-251010"
      "Juniper must authenticate NTP sources"
      MEDIUM "ntp" (Some "configured") (Some "true") None false "";
  ccr "JUSX-AG-000020" "V-251011"
      "Juniper must use SSH version 2"
      HIGH "ssh" (Some "protocol_version") (Some "v2") None false "";
  ccr "JUSX-AG-000030" "V-251012"
      "Juniper must disable root login"
      HIGH "pattern" None None (Some "root-login\s+deny") false "";
  ccr "JUSX-AG-000040" "V-251013"
      "Juniper must configure system logging"
      MEDIUM "syslog" (Some "configured") (Some "true") None false "";
  ccr "JUSX-AG-000050" "V-251014"
      "Juniper must protect against password brute force"
      MEDIUM "pattern" None None (Some "login.*(retry|lockout)") false "";
  ccr "JUSX-AG-000060" "V-251015"
      "Juniper must implement replay-resistant authentication"
      HIGH "pattern" None None (Some "authentication-order.*(radius|tacplus)") false "" ].

Definition PFSENSE_CHECKS : list ConfigCheckRule.t := [
  ccr "PFSS-FW-000010" "V-270001"
      "pfSense must enforce access restrictions"
      HIGH "pattern" None None (Some "<rule>.*<type>pass</type>.*</rule>") false "";
  ccr "PFSS-FW-000020" "V-270002"
      "pfSense must configure SSH securely"
      HIGH "ssh" (Some "enabled") (Some "true") None false "";
  ccr "PFSS-FW-000030" "V-270003"
      "pfSense must configure NTP"
      MEDIUM "ntp" (Some "configured") (Some "true") None false "";
  ccr "PFSS-FW-000040" "V-270004"
      "pfSense must configure remote syslog"
      MEDIUM "syslog" (Some "configured") (Some "true") None false "";
  ccr "PFSS-FW-000050" "V-270005"
      "pfSense must use secure DNS servers"
      MEDIUM "dns" (Some "configured") (Some "true") None false "" ].

Definition MELLANOX_CHECKS : list ConfigCheckRule.t := [
  ccr "MLNX-SW-000010" "V-280001"
      "Mellanox must enable SSH server"
      HIGH "ssh" (Some "server_enabled") (Some "true") None false "";
  ccr "MLNX-SW-000020" "V-280002"
      "Mellanox must configure AAA"
      HIGH "aaa" (Some "enabled") (Some "true") None false "";
  ccr "MLNX-SW-000030" "V-280003"
      "Mellanox must configure NTP"
      MEDIUM "ntp" (Some "configured") (Some "true") None false "";
  ccr "MLNX-SW-000040" "V-280004"
      "Mellanox must configure syslog"
      MEDIUM "syslog" (Some "configured") (Some "true") None false "" ].

Definition REDHAT_CHECKS : list ConfigCheckRule.t := [
  ccr "RHEL-09-211010" "V-257777"
      "RHEL 9 must enable FIPS mode"
      HIGH "setting" (Some "fips_enabled") (Some "1") None false "";
  ccr "RHEL-09-211015" "V-257778"
      "RHEL 9 must implement DOD-approved TLS encryption"
      HIGH "setting" (Some "crypto_policy") (Some "FIPS") None false "";
  ccr "RHEL-09-212010" "V-257779"
      "RHEL 9 must enforce SELinux"
      HIGH "setting" (Some "SELINUX") (Some "enforcing") None false "";
  ccr "RHEL-09-411010" "V-257780"
      "RHEL 9 must set password maximum lifetime"
      MEDIUM "setting" (Some "PASS_MAX_DAYS") (Some "60") None false "PASS_MAX_DAYS must be 60 or less";
  ccr "RHEL-09-411015" "V-257781"
      "RHEL 9 must set password minimum lifetime"
      MEDIUM "setting" (Some "PASS_MIN_DAYS") (Some "1") None false "PASS_MIN_DAYS must be 1 or greater";
  ccr "RHEL-09-255010" "V-257782"
      "RHEL 9 must use SSHv2"
      HIGH "ssh" (Some "Protocol") (Some "2") None false "";
  ccr "RHEL-09-255015" "V-257783"
      "RHEL 9 must disable SSH root login"
      HIGH "ssh" (Some "PermitRootLogin") (Some "no") None false "";
  ccr "RHEL-09-255020" "V-257784"
      "RHEL 9 must disable SSH password authentication"
      MEDIUM "ssh" (Some "PasswordAuthentication") (Some "no") None false "" ].

(** [PLATFORM_CHECKS.get(platform, [])] *)
Definition PLATFORM_CHECKS (p : Platform) : option (list ConfigCheckRule.t) :=
  match p with
  | ARISTA_EOS => Some ARISTA_CHECKS
  | HPE_ARUBA_CX => Some HPE_ARUBA_CX_CHECKS
  | JUNIPER_JUNOS | JUNIPER_SRX => Some JUNIPER_CHECKS
  | PFSENSE => Some PFSENSE_CHECKS
  | MELLANOX => Some MELLANOX_CHECKS
  | REDHAT | LINUX => Some REDHAT_CHECKS
  | OTHER_PLATFORM _ => None
  end.

Definition platform_checks_or (p : Platform) (d : list ConfigCheckRule.t) :=
  match PLATFORM_CHECKS p with Some l => l | None => d end.

(* ------------------------------------------------------------------ *)
(** ** Typed checks *)

(** Outcome of Python's [re] search (pattern compiled with [IGNORECASE],
    and [MULTILINE] when the flag is set): the matched text, no match,
    [re.error] for an invalid pattern, or another exception raised by the
    compilation or the search (such as the [OverflowError] of a repeat
    count beyond the engine's limit). *)
Inductive ReResult :=
| ReMatch (group0 : string)
| ReNoMatch
| ReErr (msg : string)
| ReRaise (e : PyExc).

(** [not s] for an [str | None] *)
Definition falsy_str (o : option string) : bool :=
  match o with None => true | Some s => String.eqb s "" end.

(** [d.get(k)] seen through [is None]: absent keys and stored [None]. *)
Definition get_not_none (d : dict PyVal) (k : string) : option PyVal :=
  match dict_get d k with Some PNone | None => None | Some v => Some v end.

(** [o == s] for an [str | None] *)
Definition opt_str_is (o : option string) (s : string) : bool :=
  match o with Some t => String.eqb t s | None => false end.

Definition nonempty {A} (l : list A) : bool :=
  match l with [] => false | _ => true end.

(** [_check_setting] *)
Definition _check_setting (check : ConfigCheckRule.t) (config : ParsedConfig)
    : Result (CheckStatus * string) :=
  match ConfigCheckRule.check_key check with
  | None => Ok (ERROR, "No check key specified")
  | Some key =>
    if String.eqb key "" then Ok (ERROR, "No check key specified") else
    match get_not_none (settings config) key with
    | None => Ok (FAIL, "Setting '" ++ key ++ "' not found in configuration")
    | Some actual_value =>
      match ConfigCheckRule.expected_value check with
      | Some exp =>
        if String.eqb exp "" then
          Ok (PASS, "Setting '" ++ key ++ "' is present: " ++ py_str actual_value)
        else
        let invalid := Ok (ERROR, "Invalid numeric value: " ++ py_str actual_value) in
        if String.eqb key "PASS_MAX_DAYS" then
          match py_int actual_value with
          | Raise (ValueError _) => invalid
          | Raise e => Raise e
          | Ok a =>
            match py_int (PStr exp) with
            | Raise (ValueError _) => invalid
            | Raise e => Raise e
            | Ok x =>
              if (a <=? x)%Z
              then Ok (PASS, "PASS_MAX_DAYS is " ++ py_str actual_value ++ " (expected <= " ++ exp ++ ")")
              else Ok (FAIL, "PASS_MAX_DAYS is " ++ py_str actual_value ++ " (expected <= " ++ exp ++ ")")
            end
          end
        else if String.eqb key "PASS_MIN_DAYS" then
          match py_int actual_value with
          | Raise (ValueError _) => invalid
          | Raise e => Raise e
          | Ok a =>
            match py_int (PStr exp) with
            | Raise (ValueError _) => invalid
            | Raise e => Raise e
            | Ok x =>
              if (x <=? a)%Z
              then Ok (PASS, "PASS_MIN_DAYS is " ++ py_str actual_value ++ " (expected >= " ++ exp ++ ")")
              else Ok (FAIL, "PASS_MIN_DAYS is " ++ py_str actual_value ++ " (expected >= " ++ exp ++ ")")
            end
          end
        else if String.eqb (lower (py_str actual_value)) (lower exp)
        then Ok (PASS, "Setting '" ++ key ++ "' is '" ++ py_str actual_value ++ "' (expected: " ++ exp ++ ")")
        else Ok (FAIL, "Setting '" ++ key ++ "' is '" ++ py_str actual_value ++ "' (expected: " ++ exp ++ ")")
      | None => Ok (PASS, "Setting '" ++ key ++ "' is present: " ++ py_str actual_value)
      end
    end
  end.

Section Checker.

(** Python's [re.search]: the regular-expression engine of the standard
    library, taken as given. *)
Variable re_search : string -> bool -> string -> ReResult.

(** [_check_pattern] *)
Definition _check_pattern (check : ConfigCheckRule.t) (config : ParsedConfig)
    : Result (CheckStatus * string) :=
  match ConfigCheckRule.pattern check with
  | None => Ok (ERROR, "No pattern specified")
  | Some pat =>
    if String.eqb pat "" then Ok (ERROR, "No pattern specified") else
    match re_search pat true (raw_content config) with
    | ReErr m => Ok (ERROR, "Invalid regex pattern: " ++ m)
    | ReRaise e => Raise e
    | ReMatch g =>
      if ConfigCheckRule.negate check
      then Ok (FAIL, "Pattern '" ++ pat ++ "' found (should NOT be present)")
      else Ok (PASS, "Pattern '" ++ pat ++ "' found: " ++ g)
    | ReNoMatch =>
      if ConfigCheckRule.negate check
      then Ok (PASS, "Pattern '" ++ pat ++ "' not found (as expected)")
      else Ok (FAIL, "Pattern '" ++ pat ++ "' not found in configuration")
    end
  end.

(** [_check_ssh] *)
Definition _check_ssh (check : ConfigCheckRule.t) (config : ParsedConfig)
    : Result (CheckStatus * string) :=
  let ssh := ssh_config config in
  match ConfigCheckRule.check_key check with
  | None => Ok (ERROR, "No check key specified for SSH check")
  | Some key =>
    if String.eqb key "" then Ok (ERROR, "No check key specified for SSH check")
    else if String.eqb key "enabled" then
      if opt_truthy (dict_get ssh "enabled") || opt_truthy (dict_get ssh "server_enabled")
      then Ok (PASS, "SSH is enabled") else Ok (FAIL, "SSH is not enabled")
    else if String.eqb key "server_enabled" then
      if opt_truthy (dict_get ssh "server_enabled")
      then Ok (PASS, "SSH server is enabled") else Ok (FAIL, "SSH server is not enabled")
    else
      match get_not_none ssh key with
      | None => Ok (FAIL, "SSH setting '" ++ key ++ "' not configured")
      | Some actual =>
        if falsy_str (ConfigCheckRule.expected_value check)
        then Ok (PASS, "SSH " ++ key ++ " is configured: " ++ py_str actual)
        else
          let exp := match ConfigCheckRule.expected_value check with Some e => e | None => "" end in
          if String.eqb (lower (py_str actual)) (lower exp)
          then Ok (PASS, "SSH " ++ key ++ " is '" ++ py_str actual ++ "'")
          else Ok (FAIL, "SSH " ++ key ++ " is '" ++ py_str actual ++ "' (expected: " ++ exp ++ ")")
      end
  end.

(** [_check_ntp] *)
Definition _check_ntp (check : ConfigCheckRule.t) (config : ParsedConfig)
    : Result (CheckStatus * string) :=
  if nonempty (ntp_servers config)
  then Ok (PASS, "NTP configured with servers: " ++ join ", " (ntp_servers config))
  else Ok (FAIL, "No NTP servers configured").

(** [_check_syslog] *)
Definition _check_syslog (check : ConfigCheckRule.t) (config : ParsedConfig)
    : Result (CheckStatus * string) :=
  if nonempty (syslog_servers config)
  then Ok (PASS, "Syslog configured with servers: " ++ join ", " (syslog_servers config))
  else Ok (FAIL, "No syslog servers configured").

(** [_check_snmp] *)
Definition _check_snmp (check : ConfigCheckRule.t) (config : ParsedConfig)
    : Result (CheckStatus * string) :=
  let snmp := snmp_config config in
  if negb (nonempty snmp) then Ok (FAIL, "SNMP is not configured")
  else if opt_str_is (ConfigCheckRule.check_key check) "version"
          && opt_str_is (ConfigCheckRule.expected_value check) "v3" then
    if contains "v3" (lower (dict_str snmp))
       || (match dict_get snmp "version" with Some (PStr "3") => true | _ => false end)
    then Ok (PASS, "SNMPv3 is configured")
    else
      let communities := match dict_get snmp "communities" with Some v => v | None => PList [] end in
      if truthy communities
      then Ok (FAIL, "Using SNMP community strings (v1/v2c): " ++ py_repr communities ++ ". SNMPv3 required.")
      else Ok (FAIL, "SNMPv3 not detected")
  else Ok (PASS, "SNMP is configured: " ++ dict_str snmp).

(** [_check_aaa] *)
Definition _check_aaa (check : ConfigCheckRule.t) (config : ParsedConfig)
    : Result (CheckStatus * string) :=
  let aaa := aaa_config config in
  if opt_truthy (dict_get aaa "enabled") then Ok (PASS, "AAA is enabled: " ++ dict_str aaa)
  else if nonempty aaa then Ok (PASS, "AAA configuration found: " ++ dict_str aaa)
  else Ok (FAIL, "AAA is not configured").

(** [_check_banner] *)
Definition _check_banner (check : ConfigCheckRule.t) (config : ParsedConfig)
    : Result (CheckStatus * string) :=
  match banner config with
  | Some b =>
    if String.eqb b "" then Ok (FAIL, "No login banner configured")
    else Ok (PASS, "Login banner configured: " ++ substring 0 100 b ++ "...")
  | None => Ok (FAIL, "No login banner configured")
  end.

(** [_check_dns] *)
Definition _check_dns (check : ConfigCheckRule.t) (config : ParsedConfig)
    : Result (CheckStatus * string) :=
  if nonempty (dns_servers config)
  then Ok (PASS, "DNS configured with servers: " ++ join ", " (dns_servers config))
  else Ok (FAIL, "No DNS servers configured").

(** The body of the [try] block of [_run_check]: dispatch on
    [check.check_type]. *)
Definition run_check_body (check : ConfigCheckRule.t) (config : ParsedConfig)
    : Result (CheckStatus * string) :=
  let ct := ConfigCheckRule.check_type check in
  if String.eqb ct "setting" then _check_setting check config
  else if String.eqb ct "pattern" then _check_pattern check config
  else if String.eqb ct "ssh" then _check_ssh check config
  else if String.eqb ct "ntp" then _check_ntp check config
  else if String.eqb ct "syslog" then _check_syslog check config
  else if String.eqb ct "snmp" then _check_snmp check config
  else if String.eqb ct "aaa" then _check_aaa check config
  else if String.eqb ct "banner" then _check_banner check config
  else if String.eqb ct "dns" then _check_dns check config
  else Ok (NOT_REVIEWED, "Unknown check type: " ++ ct).

End Checker.

(** [try: ... except Exception as e: status = ERROR; finding_details = prefix + str(e)] *)
Definition try_except (prefix : string) (body : Result (CheckStatus * string))
    : CheckStatus * string :=
  match body with
  | Ok r => r
  | Raise e => (ERROR, prefix ++ exc_str e)
  end.

(** The loop shared by [_evaluate_db_rules], [_evaluate_xccdf_rules] and
    the built-in loop of [analyze_config]: one evaluation per rule, results
    appended in order; an exception escaping one evaluation leaves the
    loop. *)
Fixpoint eval_each {R} (f : R -> Result AuditResultCreate) (rules : list R)
    : Result (list AuditResultCreate) :=
  match rules with
  | [] => Ok []
  | r :: rest =>
    res <- f r ;;
    tail <- eval_each f rest ;;
    Ok (res :: tail)
  end.

(** One rule's evaluation as the evaluators write it: the [try] block
    [body] decides status and details, then the result object is built
    after the [try]. *)
Definition eval_rule_guarded (prefix : string) (body : Result (CheckStatus * string))
    (jid rid ttl : string) (sev : STIGSeverity) : Result AuditResultCreate :=
  let '(st, fd) := try_except prefix body in
  mk_AuditResultCreate jid rid ttl sev st fd.

(** [_run_check] *)
Definition _run_check re_search (check : ConfigCheckRule.t) (config : ParsedConfig)
    (jid : string) : Result AuditResultCreate :=
  eval_rule_guarded "Error during check: " (run_check_body re_search check config)
    jid (ConfigCheckRule.rule_id check) (ConfigCheckRule.title check)
    (ConfigCheckRule.severity check).

(** [for check in checks: results.append(self._run_check(check, config, job_id))] *)
Definition run_builtin_checks re_search (checks : list ConfigCheckRule.t)
    (config : ParsedConfig) (jid : string) : Result (list AuditResultCreate) :=
  eval_each (fun c => _run_check re_search c config jid) checks.

(* ------------------------------------------------------------------ *)
(** ** Heuristic checks for database and XCCDF rules *)

(** [XCCDFRule] ([library/parser.py]) *)
Module XCCDFRule.
Record t := {
  rule_id : string;
  vuln_id : string;
  group_id : string;
  title : string;
  description : string;
  severity : string;
  check_content : string;
  fix_content : string;
  ccis : list string;
  legacy_ids : list string
}.
End XCCDFRule.

(** A database rule: the dict built by [DefinitionRepository.get_rules]. *)
Definition DbRule := dict string.

Definition get_or {V} (d : dict V) (k : string) (default : V) : V :=
  match dict_get d k with Some v => v | None => default end.

(** [severity_map.get(s, STIGSeverity.MEDIUM)] *)
Definition severity_of (s : string) : STIGSeverity :=
  if String.eqb s "high" then HIGH
  else if String.eqb s "medium" then MEDIUM
  else if String.eqb s "low" then LOW
  else MEDIUM.

Fixpoint show_nat_aux (fuel n : nat) (acc : string) : string :=
  match fuel with
  | O => acc
  | S f =>
    let acc' := String (ascii_of_nat (48 + n mod 10)) acc in
    if (n <? 10)%nat then acc' else show_nat_aux f (n / 10) acc'
  end.

(** [str(n)] for a natural number *)
Definition show_nat (n : nat) : string := show_nat_aux (S n) n "".

(** *** [_extract_ssh_checks]

    Each pattern there has the shape [Key\s+(value)], searched with
    [re.IGNORECASE]; the matcher below follows the leftmost-match
    semantics of [re.search] for these shapes. *)

Inductive ValueShape := YesNo | OneDigit | Digits | WordList.

Fixpoint ci_prefix (key text : list ascii) : option (list ascii) :=
  match key, text with
  | [], _ => Some text
  | k :: ks, t :: ts =>
    if Ascii.eqb (lower_ascii k) (lower_ascii t) then ci_prefix ks ts else None
  | _ :: _, [] => None
  end.

Fixpoint skip_spaces (l : list ascii) : list ascii :=
  match l with
  | c :: r => if is_py_space c then skip_spaces r else l
  | [] => []
  end.

(** [\s+] *)
Definition spaces1 (l : list ascii) : option (list ascii) :=
  match l with
  | c :: r => if is_py_space c then Some (skip_spaces r) else None
  | [] => None
  end.

Definition is_digit (c : ascii) : bool :=
  match digit_val c with Some _ => true | None => false end.

(** [[\w,@-]] on ASCII *)
Definition is_word_list_char (c : ascii) : bool :=
  let n := nat_of_ascii c in
  (is_digit c || ((65 <=? n) && (n <=? 90)) || ((97 <=? n) && (n <=? 122))
   || (n =? 95) || (n =? 44) || (n =? 64) || (n =? 45))%nat.

Fixpoint take_while (p : ascii -> bool) (l : list ascii) : list ascii * list ascii :=
  match l with
  | c :: r => if p c then let '(a, b) := take_while p r in (c :: a, b) else ([], l)
  | [] => ([], [])
  end.

Definition match_value (v : ValueShape) (l : list ascii) : option (list ascii) :=
  match v with
  | YesNo =>
    match ci_prefix (list_ascii_of_string "no") l with
    | Some _ => Some (firstn 2 l)
    | None =>
      match ci_prefix (list_ascii_of_string "yes") l with
      | Some _ => Some (firstn 3 l)
      | None => None
      end
    end
  | OneDigit => match l with c :: _ => if is_digit c then Some [c] else None | [] => None end
  | Digits => match take_while is_digit l with ([], _) => None | (d, _) => Some d end
  | WordList => match take_while is_word_list_char l with ([], _) => None | (w, _) => Some w end
  end.

Definition match_setting_at (key : string) (v : ValueShape) (l : list ascii)
    : option (list ascii) :=
  match ci_prefix (list_ascii_of_string key) l with
  | Some r1 => match spaces1 r1 with Some r2 => match_value v r2 | None => None end
  | None => None
  end.

(** [re.search(key + r"\s+(value)", text, re.IGNORECASE).group(1)] *)
Fixpoint search_setting (key : string) (v : ValueShape) (l : list ascii)
    : option string :=
  match match_setting_at key v l with
  | Some g => Some (string_of_list_ascii g)
  | None => match l with [] => None | _ :: r => search_setting key v r end
  end.

Definition ssh_settings : list (string * ValueShape) :=
  [("PermitRootLogin", YesNo); ("Protocol", OneDigit);
   ("PasswordAuthentication", YesNo); ("PermitEmptyPasswords", YesNo);
   ("X11Forwarding", YesNo); ("ClientAliveInterval", Digits);
   ("ClientAliveCountMax", Digits); ("MaxAuthTries", Digits);
   ("Ciphers", WordList); ("MACs", WordList)].

(** [_extract_ssh_checks] *)
Definition _extract_ssh_checks (check_content : string) : list (string * string) :=
  flat_map (fun '(setting, v) =>
              match search_setting setting v (list_ascii_of_string check_content) with
              | Some g => [(setting, g)]
              | None => []
              end) ssh_settings.

(** The SSH branch shared by both heuristics: the first extracted setting
    present in [ssh_config] decides. *)
Fixpoint ssh_heuristic (config : ParsedConfig) (pats : list (string * string))
    : CheckStatus * string :=
  match pats with
  | [] => (NOT_REVIEWED, "")
  | (key, expected) :: rest =>
    match get_not_none (ssh_config config) key with
    | Some actual =>
      if String.eqb (lower (py_str actual)) (lower expected)
      then (PASS, "SSH setting '" ++ key ++ "' is '" ++ py_str actual ++ "' (expected: " ++ expected ++ ")")
      else (FAIL, "SSH setting '" ++ key ++ "' is '" ++ py_str actual ++ "' (expected: " ++ expected ++ ")")
    | None => ssh_heuristic config rest
    end
  end.

(** *** [_extract_config_patterns] *)

(** The double-quote character. *)
Definition dquote : ascii := ascii_of_nat 34.

(** The first [re.findall] of [_extract_config_patterns] (a double
    quote, one or more other characters, a double quote) as a
    left-to-right scan: [inside] holds the characters read since the last
    opening quote. *)
Fixpoint find_quoted (inside : option (list ascii)) (l : list ascii)
    : list string :=
  match l with
  | [] => []
  | c :: r =>
    if Ascii.eqb c dquote then
      match inside with
      | None => find_quoted (Some []) r
      | Some [] => find_quoted (Some []) r
      | Some acc => string_of_list_ascii (rev acc) :: find_quoted None r
      end
    else
      match inside with
      | None => find_quoted None r
      | Some acc => find_quoted (Some (c :: acc)) r
      end
  end.

(** The [grep] pattern of [_extract_config_patterns] ([grep], spaces,
    then a double-quoted non-empty text) tried at the start of [l]. *)
Definition grep_at (l : list ascii) : option (string * list ascii) :=
  match ci_prefix (list_ascii_of_string "grep") l with
  | Some r1 =>
    if match r1 with c :: _ => Ascii.eqb (lower_ascii c) c | [] => true end
       && String.prefix "grep" (string_of_list_ascii l) then
    match spaces1 r1 with
    | Some (q :: r2) =>
      if Ascii.eqb q dquote then
        match take_while (fun c => negb (Ascii.eqb c dquote)) r2 with
        | ([], _) => None
        | (body, q2 :: r3) => if Ascii.eqb q2 dquote then Some (string_of_list_ascii body, r3) else None
        | (_, []) => None
        end
      else None
    | _ => None
    end
    else None
  | None => None
  end.

(** [re.findall] of the [grep] pattern: after a match the scan resumes
    behind it, otherwise one character further. *)
Fixpoint find_grep (fuel : nat) (l : list ascii) : list string :=
  match fuel with
  | O => []
  | S f =>
    match grep_at l with
    | Some (g, rest) => g :: find_grep f rest
    | None => match l with [] => [] | _ :: r => find_grep f r end
    end
  end.

(** [re.escape]: the characters [()[]{}?*+-|^$\.&~# \t\n\r\v\f] get a
    backslash. *)
Definition re_special (c : ascii) : bool :=
  existsb (Ascii.eqb c)
    (list_ascii_of_string "()[]{}?*+-|^$\.&~# "
     ++ map ascii_of_nat [9; 10; 13; 11; 12]%nat).

Fixpoint re_escape (s : string) : string :=
  match s with
  | EmptyString => EmptyString
  | String c r => if re_special c then String "\" (String c (re_escape r)) else String c (re_escape r)
  end.

(** [_extract_config_patterns] *)
Definition _extract_config_patterns (check_content : string) : list string :=
  let l := list_ascii_of_string check_content in
  let quoted := find_quoted None l in
  let pats := flat_map (fun q => if (5 <? py_len q)%nat && negb (String.prefix "http" q)
                                 then [re_escape q] else []) quoted in
  let commands := find_grep (S (length l)) l in
  firstn 5 (pats ++ commands).

Section Heuristics.

Variable re_search : string -> bool -> string -> ReResult.

(** The generic fallback of [_evaluate_single_xccdf_rule]: the first
    extracted pattern found in [raw_content] gives PASS; [re.error] skips
    a pattern; any other exception leaves the loop. *)
Fixpoint generic_search (raw : string) (pats : list string) : Result (option string) :=
  match pats with
  | [] => Ok None
  | p :: rest =>
    match re_search p false raw with
    | ReMatch _ => Ok (Some p)
    | ReNoMatch | ReErr _ => generic_search raw rest
    | ReRaise e => Raise e
    end
  end.

(** The [try] block of [_evaluate_single_xccdf_rule] *)
Definition xccdf_rule_body (rule : XCCDFRule.t) (config : ParsedConfig)
    : Result (CheckStatus * string) :=
  let check_content := lower (XCCDFRule.check_content rule) in
  let ltitle := lower (XCCDFRule.title rule) in
  if contains "sshd" check_content || contains "ssh" ltitle then
    Ok (ssh_heuristic config (_extract_ssh_checks (XCCDFRule.check_content rule)))
  else if contains "ntp" check_content || contains "time" ltitle then
    if nonempty (ntp_servers config)
    then Ok (PASS, "NTP configured: " ++ join ", " (ntp_servers config))
    else Ok (FAIL, "NTP not configured")
  else if contains "syslog" check_content || contains "log" ltitle then
    if nonempty (syslog_servers config)
    then Ok (PASS, "Syslog configured: " ++ join ", " (syslog_servers config))
    else Ok (FAIL, "Remote logging not configured")
  else if contains "snmp" check_content then
    let snmp := snmp_config config in
    if nonempty snmp then
      if contains "v3" (lower check_content) then
        if (match dict_get snmp "version" with Some (PStr "3") => true | _ => false end)
           || contains "v3" (lower (dict_str snmp))
        then Ok (PASS, "SNMPv3 is configured")
        else Ok (FAIL, "SNMPv3 is not configured")
      else Ok (PASS, "SNMP configured: " ++ dict_str snmp)
    else Ok (NOT_REVIEWED, "SNMP configuration not detected")
  else if contains "aaa" check_content || contains "authentication" ltitle then
    if nonempty (aaa_config config)
    then Ok (PASS, "AAA configured: " ++ dict_str (aaa_config config))
    else Ok (FAIL, "AAA not configured")
  else if contains "banner" check_content then
    match banner config with
    | Some b => if String.eqb b "" then Ok (FAIL, "No login banner configured")
                else Ok (PASS, "Banner configured (" ++ show_nat (py_len b) ++ " chars)")
    | None => Ok (FAIL, "No login banner configured")
    end
  else
    found <- generic_search (raw_content config) (_extract_config_patterns (XCCDFRule.check_content rule)) ;;
    match found with
    | Some p => Ok (PASS, "Pattern found: " ++ py_prefix 50 p)
    | None => Ok (NOT_REVIEWED, "Manual review required - unable to automatically check this rule")
    end.

(** [_evaluate_single_xccdf_rule] *)
Definition _evaluate_single_xccdf_rule (rule : XCCDFRule.t) (config : ParsedConfig)
    (jid : string) : Result AuditResultCreate :=
  eval_rule_guarded "Error evaluating rule: " (xccdf_rule_body rule config)
    jid (XCCDFRule.vuln_id rule) (XCCDFRule.title rule)
    (severity_of (lower (XCCDFRule.severity rule))).

(** [_evaluate_xccdf_rules] *)
Definition _evaluate_xccdf_rules (rules : list XCCDFRule.t) (config : ParsedConfig)
    (jid : string) : Result (list AuditResultCreate) :=
  eval_each (fun r => _evaluate_single_xccdf_rule r config jid) rules.

End Heuristics.

(** The [try] block of [_evaluate_single_db_rule] *)
Definition db_rule_body (rule : DbRule) (config : ParsedConfig)
    : Result (CheckStatus * string) :=
  let check_text := lower (get_or rule "check_text" "") in
  if contains "ssh" check_text then
    Ok (ssh_heuristic config (_extract_ssh_checks (get_or rule "check_text" "")))
  else if contains "ntp" check_text then
    if nonempty (ntp_servers config)
    then Ok (PASS, "NTP configured: " ++ join ", " (ntp_servers config))
    else Ok (FAIL, "NTP not configured")
  else if contains "syslog" check_text || contains "log" (lower (get_or rule "title" "")) then
    if nonempty (syslog_servers config)
    then Ok (PASS, "Syslog configured: " ++ join ", " (syslog_servers config))
    else Ok (FAIL, "Remote logging not configured")
  else if contains "snmp" check_text then
    if nonempty (snmp_config config)
    then Ok (PASS, "SNMP configured")
    else Ok (NOT_REVIEWED, "SNMP configuration not detected")
  else if contains "banner" check_text then
    match banner config with
    | Some b => if String.eqb b "" then Ok (FAIL, "No login banner configured")
                else Ok (PASS, "Banner configured (" ++ show_nat (py_len b) ++ " chars)")
    | None => Ok (FAIL, "No login banner configured")
    end
  else Ok (NOT_REVIEWED, "Manual review required").

(** The result id of a database rule: its [vuln_id] entry, else its
    [rule_id] entry, else the empty string. *)
Definition db_result_id (rule : DbRule) : string :=
  get_or rule "vuln_id" (get_or rule "rule_id" "").

(** [_evaluate_single_db_rule] *)
Definition _evaluate_single_db_rule (rule : DbRule) (config : ParsedConfig)
    (jid : string) : Result AuditResultCreate :=
  eval_rule_guarded "Error evaluating rule: " (db_rule_body rule config)
    jid (db_result_id rule) (get_or rule "title" "")
    (severity_of (lower (get_or rule "severity" "medium"))).

(** [_evaluate_db_rules] *)
Definition _evaluate_db_rules (rules : list DbRule) (config : ParsedConfig)
    (jid : string) : Result (list AuditResultCreate) :=
  eval_each (fun r => _evaluate_single_db_rule r config jid) rules.

(* ------------------------------------------------------------------ *)
(** ** The Red Hat parser ([RedHatParser.parse]) *)

(** [s.split(sep)] for a one-character separator *)
Fixpoint split_on (sep : ascii) (s : string) : list string :=
  match s with
  | EmptyString => [""]
  | String c r =>
    if Ascii.eqb c sep then "" :: split_on sep r
    else match split_on sep r with
         | w :: ws => String c w :: ws
         | [] => [String c ""]
         end
  end.

(** [s.strip(ch)] for one character *)
Fixpoint lstrip_char (ch : ascii) (s : string) : string :=
  match s with
  | String c r => if Ascii.eqb c ch then lstrip_char ch r else s
  | EmptyString => EmptyString
  end.

Definition rev_str (s : string) : string :=
  string_of_list_ascii (rev (list_ascii_of_string s)).

Definition strip_char (ch : ascii) (s : string) : string :=
  rev_str (lstrip_char ch (rev_str (lstrip_char ch s))).

(** [s.partition("=")] *)
Fixpoint partition_eq (s : string) : string * string :=
  match s with
  | EmptyString => ("", "")
  | String c r =>
    if Ascii.eqb c "=" then ("", r)
    else let '(k, v) := partition_eq r in (String c k, v)
  end.

(** [s.split(None, 1)] on a string without surrounding whitespace *)
Fixpoint split_first_ws (s : string) : string * string :=
  match s with
  | EmptyString => ("", "")
  | String c r =>
    if is_py_space c then ("", lstrip r)
    else let '(k, v) := split_first_ws r in (String c k, v)
  end.

Definition has_space_char (s : string) : bool := contains " " s.

(** [d[k] = v]: in place when [k] is present, appended otherwise. *)
Fixpoint dict_set {V} (d : dict V) (k : string) (v : V) : dict V :=
  match d with
  | [] => [(k, v)]
  | (k', v') :: r => if String.eqb k k' then (k', v) :: r else (k', v') :: dict_set r k v
  end.

Definition with_settings (c : ParsedConfig) (s : dict PyVal) : ParsedConfig :=
  {| platform := platform c; hostname := hostname c; version := version c;
     raw_content := raw_content c; sections := sections c; settings := s;
     interfaces := interfaces c; users := users c; acls := acls c;
     routing := routing c; services := services c; ntp_servers := ntp_servers c;
     dns_servers := dns_servers c; syslog_servers := syslog_servers c;
     snmp_config := snmp_config c; aaa_config := aaa_config c;
     ssh_config := ssh_config c; banner := banner c |}.

Definition with_hostname (c : ParsedConfig) (h : option string) : ParsedConfig :=
  {| platform := platform c; hostname := h; version := version c;
     raw_content := raw_content c; sections := sections c; settings := settings c;
     interfaces := interfaces c; users := users c; acls := acls c;
     routing := routing c; services := services c; ntp_servers := ntp_servers c;
     dns_servers := dns_servers c; syslog_servers := syslog_servers c;
     snmp_config := snmp_config c; aaa_config := aaa_config c;
     ssh_config := ssh_config c; banner := banner c |}.

Definition with_services (c : ParsedConfig) (s : dict PyVal) : ParsedConfig :=
  {| platform := platform c; hostname := hostname c; version := version c;
     raw_content := raw_content c; sections := sections c; settings := settings c;
     interfaces := interfaces c; users := users c; acls := acls c;
     routing := routing c; services := s; ntp_servers := ntp_servers c;
     dns_servers := dns_servers c; syslog_servers := syslog_servers c;
     snmp_config := snmp_config c; aaa_config := aaa_config c;
     ssh_config := ssh_config c; banner := banner c |}.

Definition with_ssh_config (c : ParsedConfig) (s : dict PyVal) : ParsedConfig :=
  {| platform := platform c; hostname := hostname c; version := version c;
     raw_content := raw_content c; sections := sections c; settings := settings c;
     interfaces := interfaces c; users := users c; acls := acls c;
     routing := routing c; services := services c; ntp_servers := ntp_servers c;
     dns_servers := dns_servers c; syslog_servers := syslog_servers c;
     snmp_config := snmp_config c; aaa_config := aaa_config c;
     ssh_config := s; banner := banner c |}.

Definition single_quote : ascii := ascii_of_nat 39.

(** The body of the [for line in lines] loop of [RedHatParser.parse]. *)
Definition redhat_line (config : ParsedConfig) (line : string) : ParsedConfig :=
  let stripped := strip line in
  if String.eqb stripped "" || String.prefix "#" stripped then config
  else if contains "=" stripped then
    let '(k, v) := partition_eq stripped in
    let key := strip k in
    let value := strip_char single_quote (strip_char dquote (strip v)) in
    let config := with_settings config (dict_set (settings config) key (PStr value)) in
    if String.eqb (lower key) "hostname" then with_hostname config (Some value)
    else if String.eqb key "SELINUX" then
      with_services config (dict_set (services config) "selinux" (PStr value))
    else if String.eqb key "PASS_MAX_DAYS" then
      with_settings config (dict_set (settings config) "pass_max_days" (PStr value))
    else if String.eqb key "PASS_MIN_DAYS" then
      with_settings config (dict_set (settings config) "pass_min_days" (PStr value))
    else if String.eqb key "PASS_MIN_LEN" then
      with_settings config (dict_set (settings config) "pass_min_len" (PStr value))
    else config
  else if has_space_char stripped then
    let '(key, value) := split_first_ws stripped in
    let config := with_settings config (dict_set (settings config) key (PStr (strip value))) in
    if existsb (String.eqb key) ["PermitRootLogin"; "PasswordAuthentication"; "Protocol"]
    then with_ssh_config config (dict_set (ssh_config config) key (PStr value))
    else config
  else config.

(** [RedHatParser.parse] (the parser of both [REDHAT] and [LINUX]; its
    [platform] is [REDHAT]) *)
Definition redhat_parse (content : string) : ParsedConfig :=
  fold_left redhat_line (split_on (ascii_of_nat 10) content) (new_config REDHAT content).

(* ------------------------------------------------------------------ *)
(** ** Rule-source resolution ([analyze_config], [_analyze_juniper_config]) *)

(** [ConfigComplianceChecker._xccdf_rules_cache] *)
Definition XccdfCache := dict (list XCCDFRule.t).

Definition is_juniper (p : Platform) : bool :=
  match p with JUNIPER_JUNOS | JUNIPER_SRX => true | _ => false end.

Definition severity_value (s : STIGSeverity) : string :=
  match s with HIGH => "high" | MEDIUM => "medium" | LOW => "low" end.

Definition platform_value (p : Platform) : string :=
  match p with
  | ARISTA_EOS => "arista_eos" | HPE_ARUBA_CX => "hpe_aruba_cx"
  | JUNIPER_JUNOS => "juniper_junos" | JUNIPER_SRX => "juniper_srx"
  | PFSENSE => "pfsense" | MELLANOX => "mellanox" | REDHAT => "redhat"
  | LINUX => "linux" | OTHER_PLATFORM v => v
  end.

(** A truthy [str | None] *)
Definition some_nonempty (o : option string) : option string :=
  match o with Some s => if String.eqb s "" then None else Some s | None => None end.

(** The dict an XCCDF rule becomes for the Juniper analyzer. *)
Definition xccdf_to_dict (r : XCCDFRule.t) : DbRule :=
  [("vuln_id", XCCDFRule.vuln_id r); ("rule_id", XCCDFRule.rule_id r);
   ("title", XCCDFRule.title r); ("severity", XCCDFRule.severity r);
   ("check_text", XCCDFRule.check_content r); ("fix_text", XCCDFRule.fix_content r)].

(** The dict a built-in check becomes for the Juniper analyzer. *)
Definition builtin_to_dict (c : ConfigCheckRule.t) : DbRule :=
  [("vuln_id", ConfigCheckRule.vuln_id c); ("rule_id", ConfigCheckRule.rule_id c);
   ("title", ConfigCheckRule.title c);
   ("severity", severity_value (ConfigCheckRule.severity c));
   ("check_text", ConfigCheckRule.description c); ("fix_text", "")].

Section Analyze.

Variable re_search : string -> bool -> string -> ReResult.

(** [indexer.get_rules(benchmark_id)] of the STIG library indexer, or
    [None] when [get_library_indexer()] returns no indexer. *)
Variable indexer : option (string -> list XCCDFRule.t).

(** [parser.parse(content)] of the registered parser of a platform other
    than Red Hat / Linux. *)
Variable other_parse : Platform -> string -> Result ParsedConfig.

(** [analyze_juniper_config(content, rules, job_id)] of
    [collectors/juniper_stig_checker.py], a module that is not part of the
    sources at hand. *)
Variable analyze_juniper_config : string -> list DbRule -> string -> Result (list AuditResultCreate).

(** [_get_xccdf_rules]: cache first, then the indexer; non-empty answers
    are cached. *)
Definition _get_xccdf_rules (cache : XccdfCache) (benchmark_id : string)
    : list XCCDFRule.t * XccdfCache :=
  match dict_get cache benchmark_id with
  | Some rules => (rules, cache)
  | None =>
    match indexer with
    | None => ([], cache)
    | Some get_rules =>
      let rules := get_rules benchmark_id in
      if nonempty rules then (rules, dict_set cache benchmark_id rules) else (rules, cache)
    end
  end.

(** The XCCDF fallback: [benchmark_id] if given, else the definition's
    [stig_id]. *)
Definition xccdf_fallback (cache : XccdfCache) (benchmark_id stig_id : option string)
    : list XCCDFRule.t * XccdfCache :=
  match some_nonempty benchmark_id with
  | Some b => _get_xccdf_rules cache b
  | None =>
    match some_nonempty stig_id with
    | Some s => _get_xccdf_rules cache s
    | None => ([], cache)
    end
  end.

(** [get_parser(platform)] followed by [parser.parse]: [None] for a
    platform without a registered parser. *)
Definition get_parser (p : Platform) : option (string -> Result ParsedConfig) :=
  match p with
  | REDHAT | LINUX => Some (fun c => Ok (redhat_parse c))
  | OTHER_PLATFORM _ => None
  | _ => Some (other_parse p)
  end.

Definition error_result (jid rid ttl fd : string) : Result (list AuditResultCreate) :=
  r <- mk_AuditResultCreate jid rid ttl HIGH ERROR fd ;; Ok [r].

(** The rule list [_analyze_juniper_config] hands to the Juniper analyzer. *)
Definition juniper_rules_to_check (platform : Platform) (cache : XccdfCache)
    (benchmark_id stig_id : option string) (db_rules : option (list DbRule))
    : list DbRule * XccdfCache :=
  let db := match db_rules with Some l => l | None => [] end in
  if nonempty db then (db, cache)
  else
    let '(xccdf_rules, cache) := xccdf_fallback cache benchmark_id stig_id in
    if nonempty xccdf_rules then (map xccdf_to_dict xccdf_rules, cache)
    else (map builtin_to_dict (platform_checks_or platform JUNIPER_CHECKS), cache).

(** [_analyze_juniper_config] *)
Definition _analyze_juniper_config (content : string) (platform : Platform)
    (stig_id : option string) (jid : string) (benchmark_id : option string)
    (db_rules : option (list DbRule)) (cache : XccdfCache)
    : Result (list AuditResultCreate) * XccdfCache :=
  let '(rules_to_check, cache) := juniper_rules_to_check platform cache benchmark_id stig_id db_rules in
  match analyze_juniper_config content rules_to_check jid with
  | Ok results => (Ok results, cache)
  | Raise e =>
    (error_result jid "CONFIG-ANALYSIS-ERROR" "Juniper configuration analysis failed"
       ("Error during analysis: " ++ exc_str e), cache)
  end.

(** [analyze_config]; [stig_id] is [definition.stig_id] ([None] without a
    definition), and the checker's XCCDF cache is threaded through. *)
Definition analyze_config (content : string) (platform : Platform)
    (stig_id : option string) (jid : string) (benchmark_id : option string)
    (db_rules : option (list DbRule)) (cache : XccdfCache)
    : Result (list AuditResultCreate) * XccdfCache :=
  if is_juniper platform then
    _analyze_juniper_config content platform stig_id jid benchmark_id db_rules cache
  else
  match get_parser platform with
  | None =>
    (error_result jid "CONFIG-PARSE-ERROR"
       ("No parser available for platform: " ++ platform_value platform)
       ("Configuration analysis is not supported for " ++ platform_value platform), cache)
  | Some parse =>
    match parse content with
    | Raise e =>
      (error_result jid "CONFIG-PARSE-ERROR" "Configuration parsing failed"
         ("Failed to parse configuration: " ++ exc_str e), cache)
    | Ok config =>
      let checks := platform_checks_or platform [] in
      match run_builtin_checks re_search checks config jid with
      | Raise e => (Raise e, cache)
      | Ok builtin =>
        let db := match db_rules with Some l => l | None => [] end in
        if nonempty db then
          (d <- _evaluate_db_rules db config jid ;; Ok (builtin ++ d)%list, cache)
        else
          let '(xccdf_rules, cache) := xccdf_fallback cache benchmark_id stig_id in
          if nonempty xccdf_rules then
            (x <- _evaluate_xccdf_rules re_search xccdf_rules config jid ;; Ok (builtin ++ x)%list, cache)
          else (Ok builtin, cache)
      end
    end
  end.

End Analyze.

(* ------------------------------------------------------------------ *)
(** ** XML documents *)

(** An [xml.etree.ElementTree.Element]: tag (with [{namespace}] prefix
    when namespaced), attributes, [text], [tail] and children. *)
Inductive Element :=
| El (tag : string) (attrib : dict string) (text : option string)
     (tail : option string) (children : list Element).

Definition el_tag (e : Element) : string := match e with El t _ _ _ _ => t end.
Definition el_text (e : Element) : option string := match e with El _ _ x _ _ => x end.
Definition el_tail (e : Element) : option string := match e with El _ _ _ x _ => x end.
Definition el_children (e : Element) : list Element := match e with El _ _ _ _ c => c end.

(** [e.get(k, default)] *)
Definition el_get (e : Element) (k default : string) : string :=
  match e with El _ a _ _ _ => get_or a k default end.

(** [e.iter()]: the element and all its descendants in document order. *)
Fixpoint el_iter (e : Element) : list Element :=
  match e with
  | El _ _ _ _ ch =>
    e :: (fix go (l : list Element) : list Element :=
            match l with [] => [] | c :: r => app (el_iter c) (go r) end) ch
  end.

(** [e.findall(".//tag")]: descendants of [e] (not [e]) with that tag. *)
Definition findall_desc (tag : string) (e : Element) : list Element :=
  filter (fun x => String.eqb (el_tag x) tag) (tl (el_iter e)).

(** [e.findall("tag")]: children with that tag. *)
Definition findall_child (tag : string) (e : Element) : list Element :=
  filter (fun x => String.eqb (el_tag x) tag) (el_children e).

(** [e.find(path)]: the first element [findall] would give. *)
Definition find_desc (tag : string) (e : Element) : option Element := hd_error (findall_desc tag e).
Definition find_child (tag : string) (e : Element) : option Element := hd_error (findall_child tag e).

(** [e.text if e is not None and e.text else ""] *)
Definition text_or_empty (o : option Element) : string :=
  match o with
  | Some e => match el_text e with Some t => t | None => "" end
  | None => ""
  end.

(** What expat, driven by [defusedxml.ElementTree.fromstring], makes of a
    text: the tree it builds; a syntax error ([ParseError]); or an
    exception raised by one of defusedxml's handlers, such as
    [EntitiesForbidden] from the entity-declaration handler
    ([forbid_entities=True]) when the document declares an entity. *)
Inductive ExpatOutcome :=
| XTree (root : Element)
| XSyntaxError (msg : string)
| XForbidden (e : PyExc).

Definition safe_fromstring (expat : string -> ExpatOutcome) (s : string) : Result Element :=
  match expat s with
  | XTree root => Ok root
  | XSyntaxError m => Raise (ParseError m)
  | XForbidden e => Raise e
  end.

(** The size limits of [core/config.py] *)
Record Settings := {
  max_xml_size : N;
  max_zip_entry_size : N;
  max_zip_entries : N
}.

Definition default_settings : Settings :=
  {| max_xml_size := 50 * 1024 * 1024; max_zip_entry_size := 100 * 1024 * 1024;
     max_zip_entries := 500 |}%N.

(* ------------------------------------------------------------------ *)
(** ** XCCDF rule extraction ([XCCDFParser._extract_rules]) *)

Definition XCCDF_NS : string := "http://checklists.nist.gov/xccdf/1.1".

(** [xccdf:name] *)
Definition xccdf (name : string) : string := "{" ++ XCCDF_NS ++ "}" ++ name.

(** [_extract_text] *)
Definition _extract_text (o : option Element) : string :=
  match o with
  | None => ""
  | Some e =>
    let own := match el_text e with Some t => if String.eqb t "" then [] else [t] | None => [] end in
    let kids := flat_map (fun c =>
                  app (match el_text c with Some t => if String.eqb t "" then [] else [t] | None => [] end)
                      (match el_tail c with Some t => if String.eqb t "" then [] else [t] | None => [] end))
                  (el_children e) in
    strip (join " " (app own kids))
  end.

Definition ident_texts (rule_elem : Element) : list string :=
  map (fun i => match el_text i with Some t => t | None => "" end)
      (findall_child (xccdf "ident") rule_elem).

(** The rule a [Group] with a [Rule] child yields. *)
Definition rule_of_group (vuln_id : string) (rule_elem : Element) : XCCDFRule.t :=
  let ids := ident_texts rule_elem in
  {| XCCDFRule.rule_id := el_get rule_elem "id" "";
     XCCDFRule.vuln_id := vuln_id;
     XCCDFRule.group_id := match filter (String.prefix "SRG-") ids with g :: _ => g | [] => "" end;
     XCCDFRule.title := text_or_empty (find_child (xccdf "title") rule_elem);
     XCCDFRule.description := _extract_text (find_child (xccdf "description") rule_elem);
     XCCDFRule.severity := el_get rule_elem "severity" "medium";
     XCCDFRule.check_content := _extract_text (find_desc (xccdf "check-content") rule_elem);
     XCCDFRule.fix_content := _extract_text (find_child (xccdf "fixtext") rule_elem);
     XCCDFRule.ccis := filter (String.prefix "CCI-") ids;
     XCCDFRule.legacy_ids :=
       filter (fun t => (String.prefix "SV-" t || String.prefix "V-" t)
                        && negb (String.eqb t vuln_id)) ids |}.

(** [_extract_rules] *)
Definition _extract_rules (root : Element) : list XCCDFRule.t :=
  flat_map (fun group =>
              let vuln_id := el_get group "id" "" in
              match find_child (xccdf "Rule") group with
              | None => []
              | Some rule_elem => [rule_of_group vuln_id rule_elem]
              end)
           (findall_desc (xccdf "Group") root).

(* ------------------------------------------------------------------ *)
(** ** XCCDF archives ([XCCDFParser.parse_zip], [_parse_xccdf_content]) *)

(** An entry of a ZIP archive: its name, the uncompressed size its
    central-directory record declares, and its stored data. *)
Record ZipEntry := { zname : string; file_size : N; data : string }.

(** What the extraction does to untrusted input, in order. *)
Inductive IngestEvent :=
| ReadEntry (name : string)     (* [zf.open(name).read()] *)
| XmlParse.                     (* a [SafeET.fromstring] call *)

(** [s.endswith(suffix)] *)
Definition endswith (suffix s : string) : bool :=
  String.prefix (rev_str suffix) (rev_str s).

(** [_find_xccdf_file] *)
Definition _find_xccdf_file (names : list string) : option string :=
  find (fun name =>
          let l := lower name in
          endswith "-xccdf.xml" l || endswith "_xccdf.xml" l
          || (contains "xccdf" l && endswith ".xml" name))
       names.

(** [zf.getinfo(name)]: the last entry of that name. *)
Definition getinfo (entries : list ZipEntry) (name : string) : option ZipEntry :=
  hd_error (rev (filter (fun e => String.eqb (zname e) name) entries)).

Section Xccdf.

Variable expat : string -> ExpatOutcome.

(** [STIGEntry] and [_extract_metadata] with the rule-count, CCI and
    platform updates that follow it in [_parse_xccdf_content]; the
    metadata is opaque here. *)
Variable STIGEntry : Type.
Variable extract_metadata : Element -> list XCCDFRule.t -> option STIGEntry.

Variable cfg : Settings.

Definition empty_parse : option STIGEntry * list XCCDFRule.t := (None, []).

(** [_parse_xccdf_content], with the events it produces and the
    exceptions that escape it. Above the size limit, [logger.error] of the
    standard [logging] module is called with keyword arguments; with the
    level [ERROR] enabled, as it is by default, [Logger._log] raises
    [TypeError]. *)
Definition _parse_xccdf_content (content : string)
    : Result (option STIGEntry * list XCCDFRule.t) * list IngestEvent :=
  if (max_xml_size cfg <? N.of_nat (String.length content))%N
  then (Raise (OtherError "Logger._log() got an unexpected keyword argument 'file'"), [])
  else
    match safe_fromstring expat content with
    | Raise (ParseError _) => (Ok empty_parse, [XmlParse])
    | Raise e => (Raise e, [XmlParse])
    | Ok root =>
      match extract_metadata root (_extract_rules root) with
      | None => (Ok empty_parse, [XmlParse])
      | Some entry => (Ok (Some entry, _extract_rules root), [XmlParse])
      end
    end.

(** [parse_zip]; [None] is a file that is not a ZIP archive. Reading an
    entry yields at most its declared size. *)
Definition parse_zip (zip : option (list ZipEntry))
    : (option STIGEntry * list XCCDFRule.t) * list IngestEvent :=
  match zip with
  | None => (empty_parse, [])
  | Some entries =>
    let names := map zname entries in
    if (max_zip_entries cfg <? N.of_nat (length names))%N then (empty_parse, [])
    else
      match _find_xccdf_file names with
      | None => (empty_parse, [])
      | Some xccdf_file =>
        match getinfo entries xccdf_file with
        | None => (empty_parse, [])
        | Some info =>
          if (max_zip_entry_size cfg <? file_size info)%N then (empty_parse, [])
          else
            let content := substring 0 (N.to_nat (file_size info)) (data info) in
            match _parse_xccdf_content content with
            | (Ok r, ev) => (r, ReadEntry xccdf_file :: ev)
            | (Raise _, ev) => (empty_parse, ReadEntry xccdf_file :: ev)
            end
        end
      end
  end.

End Xccdf.

(* ------------------------------------------------------------------ *)
(** ** The pfSense parser ([PfSenseParser.parse]) *)

(** [s.split()] *)
Fixpoint split_ws_aux (s : string) (cur : string) : list string :=
  match s with
  | EmptyString => if String.eqb cur "" then [] else [rev_str cur]
  | String c r =>
    if is_py_space c
    then (if String.eqb cur "" then [] else [rev_str cur]) ++ split_ws_aux r ""
    else split_ws_aux r (String c cur)
  end%list.

Definition split_ws (s : string) : list string := split_ws_aux s "".

(** [str | None] as a dict value *)
Definition pystr_opt (o : option string) : PyVal :=
  match o with Some s => PStr s | None => PNone end.

(** f-string rendering of [str | None] *)
Definition fmt_opt (o : option string) : string :=
  match o with Some s => s | None => "None" end.

Definition truthy_text (o : option string) : option string :=
  match o with Some s => if String.eqb s "" then None else Some s | None => None end.

(** One child of [<interfaces>] *)
Definition pfsense_iface (iface : Element) : dict PyVal :=
  let kids := el_children iface in
  let cfgs := map (fun child => PStr (el_tag child ++ ": " ++ fmt_opt (el_text child))) kids in
  let extra := fold_left (fun d child =>
                 let d := if String.eqb (el_tag child) "ipaddr"
                          then dict_set d "ip" (pystr_opt (el_text child)) else d in
                 if String.eqb (el_tag child) "descr"
                 then dict_set d "description" (pystr_opt (el_text child)) else d) kids [] in
  (("name", PStr (el_tag iface)) :: ("config", PList cfgs) :: extra)%list.

(** One [<rule>] of [<filter>] *)
Definition pfsense_rule (rule : Element) : dict PyVal :=
  fold_left (fun d child => dict_set d (el_tag child) (pystr_opt (el_text child)))
            (el_children rule) [].

(** One [<user>] *)
Definition pfsense_user (user : Element) : dict PyVal :=
  let name := match find_child "name" user with
              | Some n => pystr_opt (el_text n)
              | None => PStr ""
              end in
  [("name", name); ("config", PStr "")].

(** The configuration [PfSenseParser.parse] reads from a parsed tree. *)
Definition pfsense_from_tree (content : string) (root : Element) : ParsedConfig :=
  let system := find_child "system" root in
  let sys_child tag := match system with Some s => find_child tag s | None => None end in
  let hostname := match sys_child "hostname" with Some h => el_text h | None => None end in
  let dns := match sys_child "dnsserver" with
             | Some d => match truthy_text (el_text d) with Some t => [t] | None => [] end
             | None => [] end in
  let ntp := match sys_child "timeservers" with
             | Some t => match truthy_text (el_text t) with Some x => split_ws x | None => [] end
             | None => [] end in
  let ssh := match sys_child "ssh" with
             | Some s =>
               ("enabled", PBool true) ::
               match find_child "port" s with
               | Some p => [("port", pystr_opt (el_text p))]
               | None => []
               end
             | None => [] end in
  let ifaces := match find_child "interfaces" root with
                | Some i => map pfsense_iface (el_children i)
                | None => [] end in
  let acls := match find_child "filter" root with
              | Some f => map pfsense_rule (findall_child "rule" f)
              | None => [] end in
  let users := map pfsense_user (findall_desc "user" root) in
  let syslog := match find_desc "syslog" root with
                | Some s =>
                  flat_map (fun tag =>
                              flat_map (fun srv => match truthy_text (el_text srv) with
                                                   | Some t => [t] | None => [] end)
                                       (findall_child tag s))
                           ["remoteserver"; "remoteserver2"; "remoteserver3"]
                | None => [] end in
  let snmp := match find_desc "snmpd" root with
              | Some s =>
                ("enabled", PBool true) ::
                match find_child "rocommunity" s with
                | Some c => [("communities", PList [pystr_opt (el_text c)])]
                | None => []
                end
              | None => [] end in
  {| platform := PFSENSE; hostname := hostname; version := None; raw_content := content;
     sections := []; settings := []; interfaces := ifaces; users := users; acls := acls;
     routing := []; services := []; ntp_servers := ntp; dns_servers := dns;
     syslog_servers := syslog; snmp_config := snmp; aaa_config := [];
     ssh_config := ssh; banner := None |}.

(** [PfSenseParser.parse]: the size limit, then [defusedxml]; only
    [ParseError] is caught. *)
Definition pfsense_parse (expat : string -> ExpatOutcome) (cfg : Settings)
    (content : string) : Result ParsedConfig :=
  let config := new_config PFSENSE content in
  if (max_xml_size cfg <? N.of_nat (String.length content))%N then Ok config
  else
    match safe_fromstring expat content with
    | Raise (ParseError _) => Ok config
    | Raise e => Raise e
    | Ok root => Ok (pfsense_from_tree content root)
    end.

(** An outcome of expat under defusedxml on the document of the example
    for [PfSenseParser.parse] below: it meets the declaration
    [<!ENTITY h 'fw'>] and the entity-declaration handler raises. *)
Definition expat_entity_example (s : string) : ExpatOutcome :=
  if contains "<!ENTITY h 'fw'>" s
  then XForbidden (EntitiesForbidden "EntitiesForbidden(name='h', system_id=None, public_id=None)")
  else XSyntaxError "syntax error: line 1, column 0".

(* ------------------------------------------------------------------ *)
(** ** Compliance score ([AuditService.get_compliance_summary],
    [analyze_config_standalone])

    A Python [float] is an IEEE 754 double, held as the rational it
    denotes. Division of two [int]s and multiplication of floats are
    correctly rounded (to nearest, ties to even); [round(x, 2)] rounds the
    exact value of [x] to two decimals, half to even, and returns the
    double nearest that decimal. *)

Open Scope Q_scope.

Definition round_half_even (q : Q) : Z :=
  let f := Qfloor q in
  let d := q - inject_Z f in
  if Qlt_le_dec d (1 # 2) then f
  else if Qlt_le_dec (1 # 2) d then (f + 1)%Z
  else if Z.even f then f else (f + 1)%Z.

Definition pow2 (k : Z) : Q := Qpower 2 k.

(** The exponent [e] with [2^e <= q < 2^(e+1)], for [q > 0]. *)
Definition flt_exp (q : Q) : Z :=
  let k := (Z.log2 (Qnum q) - Z.log2 (Zpos (Qden q)))%Z in
  if Qle_bool (pow2 k) q then k else (k - 1)%Z.

(** The double nearest a nonnegative rational: a 53-bit significand, and
    subnormals below [2^-1022]. The values here stay far below the
    overflow threshold. *)
Definition round_double (q : Q) : Q :=
  if Qle_bool q 0 then 0 else
  let u := Z.max (flt_exp q - 52) (-1074) in
  Qred (inject_Z (round_half_even (q / pow2 u)) * pow2 u).

(** [a / b] on two [int]s *)
Definition int_truediv (a b : Z) : Q := round_double (inject_Z a / inject_Z b).

(** [x * y] on two floats *)
Definition float_mul (x y : Q) : Q := round_double (x * y).

(** [round(x, 2)] *)
Definition round2 (x : Q) : Q := round_double (inject_Z (round_half_even (x * 100)) / 100).

(** The score expression both places share:
    [score = (passed / applicable * 100) if applicable > 0 else 0] with
    [applicable = passed + failed], then [round(score, 2)]. *)
Definition score_of (passed failed : nat) : Q :=
  let applicable := (passed + failed)%nat in
  let score := if (0 <? applicable)%nat
               then float_mul (int_truediv (Z.of_nat passed) (Z.of_nat applicable)) 100
               else 0 in
  round2 score.

(** [compliance_score] of [get_compliance_summary], from the per-status
    counts [AuditResultRepository.get_summary] returns. *)
Definition summary_compliance_score (status_counts : dict nat) : Q :=
  score_of (get_or status_counts "pass" 0%nat) (get_or status_counts "fail" 0%nat).

Definition count_status (st : CheckStatus) (results : list AuditResultCreate) : nat :=
  length (filter (fun r => CheckStatus_eqb (status r) st) results).

(** [compliance_score] of [analyze_config_standalone] *)
Definition standalone_compliance_score (results : list AuditResultCreate) : Q :=
  score_of (count_status PASS results) (count_status FAIL results).

Close Scope Q_scope.

(* ------------------------------------------------------------------ *)
(** ** Audit-job status ([AuditJobRepository.update_status],
    [AuditService.cancel_audit]) *)

(** A row of [stig.audit_jobs]; timestamps are instants of an abstract
    clock. *)
Record JobRow := {
  jstatus : AuditStatus;
  started_at : option nat;
  completed_at : option nat;
  error_message : option string
}.

Definition JobStore := dict JobRow.

Definition is_terminal (s : AuditStatus) : bool :=
  match s with COMPLETED | FAILED | CANCELLED => true | _ => false end.

(** The row an [UPDATE] of [update_status] writes. *)
Definition updated_row (row : JobRow) (st : AuditStatus) (err : option string)
    (now : nat) : JobRow :=
  match st with
  | RUNNING => {| jstatus := st; started_at := Some now;
                  completed_at := completed_at row; error_message := error_message row |}
  | COMPLETED | FAILED | CANCELLED =>
    {| jstatus := st; started_at := started_at row;
       completed_at := Some now; error_message := err |}
  | PENDING => {| jstatus := st; started_at := started_at row;
                  completed_at := completed_at row; error_message := error_message row |}
  end.

(** [update_status]: [UPDATE ... WHERE id = $1], no condition on the
    current status. *)
Fixpoint update_status (store : JobStore) (jid : string) (st : AuditStatus)
    (err : option string) (now : nat) : JobStore :=
  match store with
  | [] => []
  | (k, row) :: rest =>
    if String.eqb k jid then (k, updated_row row st err now) :: rest
    else (k, row) :: update_status rest jid st err now
  end.

(** [cancel_audit] *)
Definition cancel_audit (store : JobStore) (jid : string) (now : nat) : bool * JobStore :=
  match dict_get store jid with
  | None => (false, store)
  | Some job =>
    match jstatus job with
    | PENDING | RUNNING => (true, update_status store jid CANCELLED None now)
    | _ => (false, store)
    end
  end.

(** The status writes of the service and the API layer, as they may
    interleave on one store. *)
Inductive JobOp :=
| SetStatus (jid : string) (st : AuditStatus) (err : option string)
| Cancel (jid : string).

Fixpoint run_ops (store : JobStore) (ops : list JobOp) (now : nat) : JobStore :=
  match ops with
  | [] => store
  | SetStatus j st err :: rest => run_ops (update_status store j st err now) rest (S now)
  | Cancel j :: rest => run_ops (snd (cancel_audit store j now)) rest (S now)
  end.

Definition job_status (store : JobStore) (jid : string) : option AuditStatus :=
  option_map jstatus (dict_get store jid).

(* ------------------------------------------------------------------ *)
(** ** Platform detection ([detect_platform_from_content]) *)

(** [detect_platform_from_content] *)
Definition detect_platform_from_content (content : string) : option Platform :=
  let content_lower := lower content in
  if String.prefix "<?xml" (strip content) || contains "<pfsense>" content then Some PFSENSE
  else if contains "arista" content_lower || contains "eos" content_lower then Some ARISTA_EOS
  else if contains "juniper" content_lower || contains "junos" content_lower then Some JUNIPER_JUNOS
  else if contains "mellanox" content_lower || contains "mlnx" content_lower then Some MELLANOX
  else if contains "aruba" content_lower || contains "arubaos-cx" content_lower then Some HPE_ARUBA_CX
  else if contains "selinux" content_lower || contains "pass_max_days" content_lower then Some REDHAT
  else None.

(* ------------------------------------------------------------------ *)
(** ** The Arista EOS parser ([AristaEOSParser.parse]) *)

(** [s.split(prefix, 1)[1]] for an [s] that starts with [prefix] *)
Fixpoint drop_prefix (pre s : string) : string :=
  match pre, s with
  | String _ p, String _ r => drop_prefix p r
  | _, _ => s
  end.

(** [s.split(c, 1)[1]] for an [s] that contains [c] *)
Fixpoint after_char (ch : ascii) (s : string) : string :=
  match s with
  | EmptyString => EmptyString
  | String c r => if Ascii.eqb c ch then r else after_char ch r
  end.

(** [s[n:]] *)
Definition slice_from (n : nat) (s : string) : string :=
  substring n (String.length s - n) s.

Definition IndexError : PyExc := OtherError "list index out of range".

(** [s.split()[0]] *)
Definition first_word (s : string) : Result string :=
  match split_ws s with w :: _ => Ok w | [] => Raise IndexError end.

(** [d.setdefault(k, []).append(v)] *)
Definition setdefault_append (d : dict PyVal) (k : string) (v : PyVal) : Result (dict PyVal) :=
  match dict_get d k with
  | None => Ok (dict_set d k (PList [v]))
  | Some (PList l) => Ok (dict_set d k (PList (l ++ [v])%list))
  | Some _ => Raise (OtherError "object has no attribute 'append'")
  end.

Definition with_version (c : ParsedConfig) (v : option string) : ParsedConfig :=
  {| platform := platform c; hostname := hostname c; version := v;
     raw_content := raw_content c; sections := sections c; settings := settings c;
     interfaces := interfaces c; users := users c; acls := acls c;
     routing := routing c; services := services c; ntp_servers := ntp_servers c;
     dns_servers := dns_servers c; syslog_servers := syslog_servers c;
     snmp_config := snmp_config c; aaa_config := aaa_config c;
     ssh_config := ssh_config c; banner := banner c |}.

Definition with_interfaces (c : ParsedConfig) (l : list (dict PyVal)) : ParsedConfig :=
  {| platform := platform c; hostname := hostname c; version := version c;
     raw_content := raw_content c; sections := sections c; settings := settings c;
     interfaces := l; users := users c; acls := acls c;
     routing := routing c; services := services c; ntp_servers := ntp_servers c;
     dns_servers := dns_servers c; syslog_servers := syslog_servers c;
     snmp_config := snmp_config c; aaa_config := aaa_config c;
     ssh_config := ssh_config c; banner := banner c |}.

Definition with_users (c : ParsedConfig) (l : list (dict PyVal)) : ParsedConfig :=
  {| platform := platform c; hostname := hostname c; version := version c;
     raw_content := raw_content c; sections := sections c; settings := settings c;
     interfaces := interfaces c; users := l; acls := acls c;
     routing := routing c; services := services c; ntp_servers := ntp_servers c;
     dns_servers := dns_servers c; syslog_servers := syslog_servers c;
     snmp_config := snmp_config c; aaa_config := aaa_config c;
     ssh_config := ssh_config c; banner := banner c |}.

Definition with_ntp_servers (c : ParsedConfig) (l : list string) : ParsedConfig :=
  {| platform := platform c; hostname := hostname c; version := version c;
     raw_content := raw_content c; sections := sections c; settings := settings c;
     interfaces := interfaces c; users := users c; acls := acls c;
     routing := routing c; services := services c; ntp_servers := l;
     dns_servers := dns_servers c; syslog_servers := syslog_servers c;
     snmp_config := snmp_config c; aaa_config := aaa_config c;
     ssh_config := ssh_config c; banner := banner c |}.

Definition with_dns_servers (c : ParsedConfig) (l : list string) : ParsedConfig :=
  {| platform := platform c; hostname := hostname c; version := version c;
     raw_content := raw_content c; sections := sections c; settings := settings c;
     interfaces := interfaces c; users := users c; acls := acls c;
     routing := routing c; services := services c; ntp_servers := ntp_servers c;
     dns_servers := l; syslog_servers := syslog_servers c;
     snmp_config := snmp_config c; aaa_config := aaa_config c;
     ssh_config := ssh_config c; banner := banner c |}.

Definition with_syslog_servers (c : ParsedConfig) (l : list string) : ParsedConfig :=
  {| platform := platform c; hostname := hostname c; version := version c;
     raw_content := raw_content c; sections := sections c; settings := settings c;
     interfaces := interfaces c; users := users c; acls := acls c;
     routing := routing c; services := services c; ntp_servers := ntp_servers c;
     dns_servers := dns_servers c; syslog_servers := l;
     snmp_config := snmp_config c; aaa_config := aaa_config c;
     ssh_config := ssh_config c; banner := banner c |}.

Definition with_snmp_config (c : ParsedConfig) (d : dict PyVal) : ParsedConfig :=
  {| platform := platform c; hostname := hostname c; version := version c;
     raw_content := raw_content c; sections := sections c; settings := settings c;
     interfaces := interfaces c; users := users c; acls := acls c;
     routing := routing c; services := services c; ntp_servers := ntp_servers c;
     dns_servers := dns_servers c; syslog_servers := syslog_servers c;
     snmp_config := d; aaa_config := aaa_config c;
     ssh_config := ssh_config c; banner := banner c |}.

Definition with_aaa_config (c : ParsedConfig) (d : dict PyVal) : ParsedConfig :=
  {| platform := platform c; hostname := hostname c; version := version c;
     raw_content := raw_content c; sections := sections c; settings := settings c;
     interfaces := interfaces c; users := users c; acls := acls c;
     routing := routing c; services := services c; ntp_servers := ntp_servers c;
     dns_servers := dns_servers c; syslog_servers := syslog_servers c;
     snmp_config := snmp_config c; aaa_config := d;
     ssh_config := ssh_config c; banner := banner c |}.

Definition with_banner (c : ParsedConfig) (b : option string) : ParsedConfig :=
  {| platform := platform c; hostname := hostname c; version := version c;
     raw_content := raw_content c; sections := sections c; settings := settings c;
     interfaces := interfaces c; users := users c; acls := acls c;
     routing := routing c; services := services c; ntp_servers := ntp_servers c;
     dns_servers := dns_servers c; syslog_servers := syslog_servers c;
     snmp_config := snmp_config c; aaa_config := aaa_config c;
     ssh_config := ssh_config c; banner := b |}.

(** [{"name": name, "config": lines}] *)
Definition iface_dict (name : string) (lines : list string) : dict PyVal :=
  [("name", PStr name); ("config", PList (map PStr lines))].

(** The loop variables of [AristaEOSParser.parse]: the config, then
    [current_section] and [current_interface]. *)
Definition AristaState : Type :=
  ParsedConfig * option string * option (string * list string).

Definition tab : ascii := ascii_of_nat 9.

(** The body of the [for line in lines] loop of [AristaEOSParser.parse] *)
Definition arista_line (st : AristaState) (line : string) : Result AristaState :=
  let '(config, current_section, current_interface) := st in
  let stripped := strip line in
  if String.eqb stripped "" || String.prefix "!" stripped then Ok st else
  let config := if String.prefix "hostname " stripped
                then with_hostname config (Some (drop_prefix "hostname " stripped))
                else config in
  let config := if contains "Software image version:" stripped
                then with_version config (Some (strip (after_char ":" stripped)))
                else config in
  if String.prefix "interface " stripped
  then Ok (config, Some "interface", Some (drop_prefix "interface " stripped, []))
  else
  let '(config, current_section, current_interface) :=
    match current_interface with
    | Some (name, lines) =>
      if opt_str_is current_section "interface" then
        if negb (String.prefix " " stripped) && negb (String.prefix (String tab "") stripped)
        then (with_interfaces config (interfaces config ++ [iface_dict name lines])%list, None, None)
        else (config, current_section, Some (name, lines ++ [stripped])%list)
      else (config, current_section, current_interface)
    | None => (config, current_section, current_interface)
    end in
  let low := lower stripped in
  let config :=
    if contains "ssh" low then
      let config := if contains "management ssh" low
                    then with_ssh_config config (dict_set (ssh_config config) "enabled" (PBool true))
                    else config in
      if contains "ssh server" low
      then with_ssh_config config (dict_set (ssh_config config) "server_enabled" (PBool true))
      else config
    else config in
  let config :=
    if String.prefix "aaa " stripped then
      let config := with_aaa_config config (dict_set (aaa_config config) "enabled" (PBool true)) in
      if contains "authentication" stripped
      then with_aaa_config config (dict_set (aaa_config config) "authentication" (PStr stripped))
      else config
    else config in
  config <- (if String.prefix "ntp server " stripped then
               server <- first_word (drop_prefix "ntp server " stripped) ;;
               Ok (with_ntp_servers config (ntp_servers config ++ [server])%list)
             else Ok config) ;;
  let config := if String.prefix "ip name-server " stripped
                then with_dns_servers config
                       (dns_servers config ++ split_ws (drop_prefix "ip name-server " stripped))%list
                else config in
  config <- (if String.prefix "logging host " stripped then
               server <- first_word (drop_prefix "logging host " stripped) ;;
               Ok (with_syslog_servers config (syslog_servers config ++ [server])%list)
             else Ok config) ;;
  config <- (if String.prefix "snmp-server " stripped then
               config <- (if contains "community" stripped then
                            match split_ws stripped with
                            | _ :: _ :: p2 :: _ =>
                              snmp <- setdefault_append (snmp_config config) "communities" (PStr p2) ;;
                              Ok (with_snmp_config config snmp)
                            | _ => Ok config
                            end
                          else Ok config) ;;
               if contains "host" stripped then
                 snmp <- setdefault_append (snmp_config config) "hosts" (PStr stripped) ;;
                 Ok (with_snmp_config config snmp)
               else Ok config
             else Ok config) ;;
  let config := if String.prefix "banner" stripped then with_banner config (Some stripped) else config in
  let config := if String.prefix "username " stripped then
                  match split_ws stripped with
                  | _ :: p1 :: _ =>
                    with_users config (users config ++ [[("name", PStr p1); ("config", PStr stripped)]])%list
                  | _ => config
                  end
                else config in
  config <- (if String.prefix "no " stripped then
               service <- (if (3 <? String.length stripped)%nat
                           then first_word (slice_from 3 stripped) else Ok "") ;;
               Ok (with_services config (dict_set (services config) service (PBool false)))
             else if String.prefix "service " stripped then
               service <- first_word (drop_prefix "service " stripped) ;;
               Ok (with_services config (dict_set (services config) service (PBool true)))
             else Ok config) ;;
  Ok (config, current_section, current_interface).

Fixpoint arista_lines (st : AristaState) (lines : list string) : Result AristaState :=
  match lines with
  | [] => Ok st
  | line :: rest => st' <- arista_line st line ;; arista_lines st' rest
  end.

(** [AristaEOSParser.parse] *)
Definition arista_parse (content : string) : Result ParsedConfig :=
  st <- arista_lines (new_config ARISTA_EOS content, None, None)
                     (split_on (ascii_of_nat 10) content) ;;
  let '(config, _, current_interface) := st in
  match current_interface with
  | Some (name, lines) => Ok (with_interfaces config (interfaces config ++ [iface_dict name lines])%list)
  | None => Ok config
  end.

Definition sample_xccdf_rule : XCCDFRule.t :=
  {| XCCDFRule.rule_id := "SV-1r1_rule"; XCCDFRule.vuln_id := "V-1"; XCCDFRule.group_id := "";
     XCCDFRule.title := "t"; XCCDFRule.description := ""; XCCDFRule.severity := "medium";
     XCCDFRule.check_content := ""; XCCDFRule.fix_content := ""; XCCDFRule.ccis := [];
     XCCDFRule.legacy_ids := [] |}.

Definition is_pstr (v : PyVal) : Prop := exists s, v = PStr s.

(** Strings ending in a character that [str.strip] keeps. *)
Definition ends_nonspace (s : string) : Prop :=
  exists p d, s = p ++ String d "" /\ is_py_space d = false.

Definition starts_nonspace (s : string) : Prop :=
  exists c r, s = String c r /\ is_py_space c = false.

Definition snmp_lists (d : dict PyVal) : Prop :=
  Forall (fun kv => exists l, snd kv = PList l) d.

Definition arista_inv (st : AristaState) : Prop :=
  let '(c, _, cur) := st in
  snmp_lists (snmp_config c) /\
  Forall (fun i => dict_get i "config" = Some (PList [])) (interfaces c) /\
  (forall n l, cur = Some (n, l) -> l = []).

(** Interface names as the Arista parser can keep them whole. *)
(** An ASCII character that is not white space for [str.split] and
    [str.strip]. *)
Definition ascii_nonspace (c : ascii) : bool :=
  negb (is_py_space c) && (nat_of_ascii c <? 128)%nat.

Definition clean_name (x : string) : Prop :=
  x <> "" /\ Forall (fun c => ascii_nonspace c = true) (list_ascii_of_string x).

Definition chars_ok (P : ascii -> bool) (s : string) : Prop :=
  Forall (fun c => P c = true) (list_ascii_of_string s).

(** A character of a setting name the Red Hat parser keeps as written:
    ASCII, not white space, not [=] and not [#]. *)
Definition redhat_key_char (c : ascii) : bool :=
  negb (is_py_space c) && negb (Ascii.eqb c "=") && negb (Ascii.eqb c "#")
  && (nat_of_ascii c <? 128)%nat.

(** A character of a setting value the Red Hat parser keeps as written:
    ASCII, not white space and not a quote. *)
Definition redhat_value_char (c : ascii) : bool :=
  negb (is_py_space c) && negb (Ascii.eqb c single_quote) && negb (Ascii.eqb c dquote)
  && (nat_of_ascii c <? 128)%nat.

(* ================================================================== *)
(** * Properties *)

(** ** The per-rule evaluation loop *)

Lemma valid_rule_id_nonempty (rid : string) :
  valid_rule_id rid = true -> rid <> "".
Proof. destruct rid; [discriminate | discriminate]. Qed.

Lemma eval_rule_guarded_valid (prefix : string) (body : Result (CheckStatus * string))
    (jid rid ttl : string) (sev : STIGSeverity) :
  valid_rule_id rid = true ->
  eval_rule_guarded prefix body jid rid ttl sev =
  Ok {| job_id := jid; rule_id := rid; title := Some ttl; severity := Some sev;
        status := fst (try_except prefix body);
        finding_details := Some (snd (try_except prefix body)); comments := None |}.
Proof.
  unfold eval_rule_guarded, mk_AuditResultCreate, valid_rule_id. intros H.
  destruct (try_except prefix body) as [st fd]. rewrite H. reflexivity.
Qed.

Lemma eval_rule_guarded_invalid (prefix : string) (body : Result (CheckStatus * string))
    (jid rid ttl : string) (sev : STIGSeverity) :
  valid_rule_id rid = false ->
  exists msg, eval_rule_guarded prefix body jid rid ttl sev = Raise (ValidationError msg).
Proof.
  unfold eval_rule_guarded, mk_AuditResultCreate, valid_rule_id. intros H.
  destruct (try_except prefix body) as [st fd]. rewrite H. eexists. reflexivity.
Qed.

Lemma eval_each_all_ok {R} (f : R -> Result AuditResultCreate)
    (P : R -> AuditResultCreate -> Prop) (rules : list R) :
  (forall r, In r rules -> exists x, f r = Ok x /\ P r x) ->
  exists rs, eval_each f rules = Ok rs /\ Forall2 P rules rs.
Proof.
  induction rules as [|r rest IH]; intros H.
  - exists []. split; [reflexivity | constructor].
  - destruct (H r (or_introl eq_refl)) as [x [Hx Px]].
    destruct IH as [rs [Hrs Prs]].
    { intros r' Hin. apply H. now right. }
    exists (x :: rs). simpl. rewrite Hx, Hrs. split; [reflexivity | now constructor].
Qed.

Lemma eval_each_some_raise {R} (f : R -> Result AuditResultCreate) (rules : list R) (r : R) e :
  In r rules -> f r = Raise e -> exists e', eval_each f rules = Raise e'.
Proof.
  induction rules as [|a rest IH]; simpl; intros Hin Hr; [contradiction|].
  destruct (f a) as [x|e1] eqn:Ha.
  - destruct Hin as [<-|Hin]; [congruence|].
    destruct (IH Hin Hr) as [e' He']. rewrite He'. now exists e'.
  - now exists e1.
Qed.

Lemma Forall2_length' {A B} (P : A -> B -> Prop) l1 l2 :
  Forall2 P l1 l2 -> length l1 = length l2.
Proof. induction 1; simpl; congruence. Qed.

(** A batch of guarded evaluations whose result ids are all valid runs to
    the end, one result per rule, each carrying the outcome of its [try]
    block. *)
Lemma eval_each_guarded_ok {R} (prefix jid : string)
    (body : R -> Result (CheckStatus * string)) (rid ttl : R -> string)
    (sev : R -> STIGSeverity) (rules : list R) :
  Forall (fun r => valid_rule_id (rid r) = true) rules ->
  exists rs,
    eval_each (fun r => eval_rule_guarded prefix (body r) jid (rid r) (ttl r) (sev r)) rules = Ok rs /\
    Forall2 (fun r x => rule_id x = rid r /\
                        status x = fst (try_except prefix (body r)) /\
                        finding_details x = Some (snd (try_except prefix (body r)))) rules rs.
Proof.
  intros Hv. apply eval_each_all_ok. intros r Hin.
  rewrite Forall_forall in Hv. specialize (Hv r Hin).
  rewrite (eval_rule_guarded_valid prefix (body r) jid (rid r) (ttl r) (sev r) Hv).
  eexists. split; [reflexivity|]. simpl. auto.
Qed.

Lemma Forall2_weaken {A B} (P Q : A -> B -> Prop) l1 l2 :
  (forall a b, P a b -> Q a b) -> Forall2 P l1 l2 -> Forall2 Q l1 l2.
Proof. intros H. induction 1; constructor; auto. Qed.

Lemma eval_each_ok_inv {R} (f : R -> Result AuditResultCreate) (rules : list R) rs :
  eval_each f rules = Ok rs -> Forall2 (fun r x => f r = Ok x) rules rs.
Proof.
  revert rs. induction rules as [|r rest IH]; simpl; intros rs H.
  - injection H as <-. constructor.
  - destruct (f r) as [x|e] eqn:Hr; [|discriminate].
    destruct (eval_each f rest) as [tl|e] eqn:Ht; [|discriminate].
    injection H as <-. constructor; auto.
Qed.

Lemma eval_rule_guarded_ok_inv (prefix : string) (body : Result (CheckStatus * string))
    (jid rid ttl : string) (sev : STIGSeverity) x :
  eval_rule_guarded prefix body jid rid ttl sev = Ok x ->
  valid_rule_id rid = true /\ rule_id x = rid.
Proof.
  unfold eval_rule_guarded, mk_AuditResultCreate, valid_rule_id.
  destruct (try_except prefix body) as [st fd].
  destruct ((1 <=? py_len rid)%nat && (py_len rid <=? 100)%nat); intros H.
  - injection H as <-. auto.
  - discriminate.
Qed.

(** The shape every evaluator shares: the batch returns iff every result
    id is valid, and then one result per rule, in order, with that id. *)
Lemma guarded_batch_spec {R} (prefix jid : string)
    (body : R -> Result (CheckStatus * string)) (rid ttl : R -> string)
    (sev : R -> STIGSeverity) (rules : list R) :
  (Forall (fun r => valid_rule_id (rid r) = true) rules <->
   exists rs, eval_each (fun r => eval_rule_guarded prefix (body r) jid (rid r) (ttl r) (sev r)) rules = Ok rs) /\
  (forall rs, eval_each (fun r => eval_rule_guarded prefix (body r) jid (rid r) (ttl r) (sev r)) rules = Ok rs ->
   length rs = length rules /\
   Forall2 (fun r x => rule_id x = rid r /\ rule_id x <> "") rules rs).
Proof.
  split; [split|].
  - intros Hv. destruct (eval_each_guarded_ok prefix jid body rid ttl sev rules Hv) as [rs [H _]].
    now exists rs.
  - intros [rs H]. apply eval_each_ok_inv in H.
    induction H as [|r x rest rs' Hx _ IH]; constructor; [|exact IH].
    now apply eval_rule_guarded_ok_inv in Hx.
  - intros rs H. apply eval_each_ok_inv in H. split.
    + symmetry. eapply Forall2_length'. exact H.
    + eapply Forall2_weaken; [|exact H]. intros r x Hx.
      apply eval_rule_guarded_ok_inv in Hx. destruct Hx as [Hv Hid].
      split; [exact Hid|]. rewrite Hid. now apply valid_rule_id_nonempty.
Qed.

(** ** Claim C1: one result per rule *)

(** Claim C1 (amended). For the database evaluator [_evaluate_db_rules],
    the XCCDF evaluator [_evaluate_xccdf_rules] and the built-in loop of
    [analyze_config]: evaluation returns a result list exactly when every
    rule's result id (the [vuln_id] entry, else the [rule_id] entry, of a
    database rule; the [vuln_id] of an XCCDF rule; the [rule_id] of a
    built-in rule) has 1 to 100 characters, and that list has one result
    per rule, in rule order, whose [rule_id] is that non-empty id (the
    status is a [CheckStatus], the five-element enum). When some result id
    is empty or longer than 100 characters, building its
    [AuditResultCreate] raises a pydantic [ValidationError] and the whole
    evaluation raises instead of returning results. *)
Theorem evaluators_one_result_per_rule re_search (config : ParsedConfig) (jid : string)
    (db : list DbRule) (xs : list XCCDFRule.t) (bs : list ConfigCheckRule.t) :
  ((Forall (fun r => valid_rule_id (db_result_id r) = true) db <->
    exists rs, _evaluate_db_rules db config jid = Ok rs) /\
   (forall rs, _evaluate_db_rules db config jid = Ok rs ->
    length rs = length db /\
    Forall2 (fun r x => rule_id x = db_result_id r /\ rule_id x <> "") db rs)) /\
  ((Forall (fun r => valid_rule_id (XCCDFRule.vuln_id r) = true) xs <->
    exists rs, _evaluate_xccdf_rules re_search xs config jid = Ok rs) /\
   (forall rs, _evaluate_xccdf_rules re_search xs config jid = Ok rs ->
    length rs = length xs /\
    Forall2 (fun r x => rule_id x = XCCDFRule.vuln_id r /\ rule_id x <> "") xs rs)) /\
  ((Forall (fun c => valid_rule_id (ConfigCheckRule.rule_id c) = true) bs <->
    exists rs, run_builtin_checks re_search bs config jid = Ok rs) /\
   (forall rs, run_builtin_checks re_search bs config jid = Ok rs ->
    length rs = length bs /\
    Forall2 (fun c x => rule_id x = ConfigCheckRule.rule_id c /\ rule_id x <> "") bs rs)).
Proof.
  split; [|split].
  - exact (guarded_batch_spec "Error evaluating rule: " jid
             (fun r => db_rule_body r config) db_result_id
             (fun r => get_or r "title" "")
             (fun r => severity_of (lower (get_or r "severity" "medium"))) db).
  - exact (guarded_batch_spec "Error evaluating rule: " jid
             (fun r => xccdf_rule_body re_search r config) XCCDFRule.vuln_id
             XCCDFRule.title
             (fun r => severity_of (lower (XCCDFRule.severity r))) xs).
  - exact (guarded_batch_spec "Error during check: " jid
             (fun c => run_check_body re_search c config) ConfigCheckRule.rule_id
             ConfigCheckRule.title ConfigCheckRule.severity bs).
Qed.

(** Witness for C1: the eight built-in Red Hat rules on a parsed
    [login.defs] give eight results, with the ids of the rules. *)
Lemma evaluators_one_result_per_rule_witness :
  exists rs,
    run_builtin_checks (fun _ _ _ => ReNoMatch) REDHAT_CHECKS
      (redhat_parse "PASS_MAX_DAYS 60") "job-1" = Ok rs /\
    length rs = 8%nat.
Proof.
  destruct (evaluators_one_result_per_rule (fun _ _ _ => ReNoMatch)
              (redhat_parse "PASS_MAX_DAYS 60") "job-1" [] [] REDHAT_CHECKS)
    as [_ [_ [[Hok _] Hlen]]].
  destruct Hok as [rs Hrs].
  - repeat constructor.
  - exists rs. split; [exact Hrs|]. destruct (Hlen rs Hrs) as [Hl _]. exact Hl.
Defined.

(** Claim C1, counterexample: a database rule whose id is empty makes
    [_evaluate_db_rules] raise a [ValidationError]; no result list, let
    alone one result per rule, is produced. *)
Lemma db_rule_with_empty_id_aborts_batch :
  exists msg,
    _evaluate_db_rules
      [[("vuln_id", ""); ("rule_id", ""); ("title", "Rule without id");
        ("severity", "medium"); ("check_text", "Verify the NTP servers.")]]
      (new_config REDHAT "") "job-1" = Raise (ValidationError msg).
Proof. eexists. reflexivity. Qed.

(** ** Claim C2: per-rule error isolation *)

(** Claim C2 (amended). Inside each evaluator the rule's check logic runs
    in a [try] block: when it raises an exception [e], the rule's result
    has status [ERROR] and finding_details equal to the evaluator's prefix
    ([Error evaluating rule: ] for database and XCCDF rules, [Error during
    check: ] for built-in rules) followed by [str(e)], and every other rule
    of the batch is still evaluated. This holds for every batch whose
    result ids all have 1 to 100 characters: the [AuditResultCreate] is
    built after the [try] block, so a rule with an invalid id raises a
    [ValidationError] that escapes and aborts the batch. *)
Theorem rule_exception_yields_error_result re_search (config : ParsedConfig) (jid : string)
    (db : list DbRule) (xs : list XCCDFRule.t) (bs : list ConfigCheckRule.t) :
  Forall (fun r => valid_rule_id (db_result_id r) = true) db ->
  Forall (fun r => valid_rule_id (XCCDFRule.vuln_id r) = true) xs ->
  Forall (fun c => valid_rule_id (ConfigCheckRule.rule_id c) = true) bs ->
  (exists rs, _evaluate_db_rules db config jid = Ok rs /\
     Forall2 (fun r x => rule_id x = db_result_id r /\
       forall e, db_rule_body r config = Raise e ->
         status x = ERROR /\ finding_details x = Some ("Error evaluating rule: " ++ exc_str e)) db rs) /\
  (exists rs, _evaluate_xccdf_rules re_search xs config jid = Ok rs /\
     Forall2 (fun r x => rule_id x = XCCDFRule.vuln_id r /\
       forall e, xccdf_rule_body re_search r config = Raise e ->
         status x = ERROR /\ finding_details x = Some ("Error evaluating rule: " ++ exc_str e)) xs rs) /\
  (exists rs, run_builtin_checks re_search bs config jid = Ok rs /\
     Forall2 (fun c x => rule_id x = ConfigCheckRule.rule_id c /\
       forall e, run_check_body re_search c config = Raise e ->
         status x = ERROR /\ finding_details x = Some ("Error during check: " ++ exc_str e)) bs rs).
Proof.
  intros Hdb Hxs Hbs.
  assert (Hgen : forall {R} prefix (body : R -> Result (CheckStatus * string)) rid ttl sev rules,
    Forall (fun r => valid_rule_id (rid r) = true) rules ->
    exists rs,
      eval_each (fun r => eval_rule_guarded prefix (body r) jid (rid r) (ttl r) (sev r)) rules = Ok rs /\
      Forall2 (fun r x => rule_id x = rid r /\
        forall e, body r = Raise e ->
          status x = ERROR /\ finding_details x = Some (prefix ++ exc_str e)) rules rs).
  { intros R prefix body rid ttl sev rules Hv.
    destruct (eval_each_guarded_ok prefix jid body rid ttl sev rules Hv) as [rs [Hrs HF]].
    exists rs. split; [exact Hrs|].
    eapply Forall2_weaken; [|exact HF]. intros r x [Hid [Hst Hfd]].
    split; [exact Hid|]. intros e He. rewrite Hst, Hfd, He. split; reflexivity. }
  split; [|split].
  - exact (Hgen _ "Error evaluating rule: " (fun r => db_rule_body r config) db_result_id
             (fun r => get_or r "title" "")
             (fun r => severity_of (lower (get_or r "severity" "medium"))) db Hdb).
  - exact (Hgen _ "Error evaluating rule: " (fun r => xccdf_rule_body re_search r config)
             XCCDFRule.vuln_id XCCDFRule.title
             (fun r => severity_of (lower (XCCDFRule.severity r))) xs Hxs).
  - exact (Hgen _ "Error during check: " (fun c => run_check_body re_search c config)
             ConfigCheckRule.rule_id ConfigCheckRule.title ConfigCheckRule.severity bs Hbs).
Qed.

(** Witness for C2: a Red Hat configuration whose [PASS_MAX_DAYS] setting
    holds a list makes [int()] raise a [TypeError] in the check of
    RHEL-09-411010; that rule yields [ERROR] with the message and all
    eight built-in rules still produce results. *)
Lemma rule_exception_yields_error_result_witness :
  exists rs,
    run_builtin_checks (fun _ _ _ => ReNoMatch) REDHAT_CHECKS
      (with_settings (new_config REDHAT "") [("PASS_MAX_DAYS", PList [])]) "job-1" = Ok rs /\
    length rs = 8%nat /\
    Exists (fun x => rule_id x = "RHEL-09-411010" /\ status x = ERROR /\
      finding_details x = Some ("Error during check: " ++
        "int() argument must be a string, a bytes-like object or a real number, not 'list'")) rs.
Proof.
  destruct (rule_exception_yields_error_result (fun _ _ _ => ReNoMatch)
              (with_settings (new_config REDHAT "") [("PASS_MAX_DAYS", PList [])])
              "job-1" [] [] REDHAT_CHECKS) as [_ [_ [rs [Hrs HF]]]].
  - constructor.
  - constructor.
  - repeat constructor.
  - exists rs. split; [exact Hrs|]. vm_compute in Hrs. injection Hrs as <-.
    split; [reflexivity|]. repeat (first [apply Exists_cons_hd; split; [reflexivity|split; reflexivity]
                                        | apply Exists_cons_tl]).
Defined.

(** Claim C2, counterexample: a database rule with an empty id, evaluated
    before a well-formed rule, raises out of [_evaluate_db_rules]; the
    second rule's result is never produced. *)
Lemma invalid_id_rule_aborts_remaining_rules :
  exists msg,
    _evaluate_db_rules
      [[("vuln_id", ""); ("title", "Rule without id"); ("check_text", "")];
       [("vuln_id", "V-2"); ("title", "NTP"); ("check_text", "Verify ntp servers.")]]
      (new_config REDHAT "") "job-1" = Raise (ValidationError msg).
Proof. eexists. reflexivity. Qed.

(** ** Claim C3: rule-source priority *)

(** Claim C3 (amended). XCCDF library rules are consulted only when no
    database rules are supplied. For a Juniper platform the rules handed to
    the Juniper analyzer are the database rules when there are any, else
    the rules of the XCCDF benchmark, else the built-in Juniper table. For
    every other platform whose parser succeeds, the built-in rules of the
    platform table are always evaluated first; the results of the database
    rules, or when there are none those of the XCCDF rules, are appended
    after them. *)
Theorem rule_source_priority re_search indexer other_parse analyze_juniper_config
    (content : string) (platform : Platform) (stig_id : option string) (jid : string)
    (benchmark_id : option string) (cache : XccdfCache) :
  (forall db, db <> [] -> is_juniper platform = true ->
     analyze_config re_search indexer other_parse analyze_juniper_config content platform
       stig_id jid benchmark_id (Some db) cache =
     _analyze_juniper_config indexer analyze_juniper_config content platform stig_id jid
       benchmark_id (Some db) cache /\
     juniper_rules_to_check indexer platform cache benchmark_id stig_id (Some db) = (db, cache)) /\
  (forall db_rules xs cache', (db_rules = None \/ db_rules = Some []) ->
     xccdf_fallback indexer cache benchmark_id stig_id = (xs, cache') ->
     juniper_rules_to_check indexer platform cache benchmark_id stig_id db_rules =
     (if nonempty xs then map xccdf_to_dict xs
      else map builtin_to_dict (platform_checks_or platform JUNIPER_CHECKS), cache')) /\
  (forall parse config builtin, is_juniper platform = false ->
     get_parser other_parse platform = Some parse -> parse content = Ok config ->
     run_builtin_checks re_search (platform_checks_or platform []) config jid = Ok builtin ->
     (forall db, db <> [] ->
        analyze_config re_search indexer other_parse analyze_juniper_config content platform
          stig_id jid benchmark_id (Some db) cache =
        (d <- _evaluate_db_rules db config jid ;; Ok (builtin ++ d)%list, cache)) /\
     (forall db_rules xs cache', (db_rules = None \/ db_rules = Some []) ->
        xccdf_fallback indexer cache benchmark_id stig_id = (xs, cache') ->
        analyze_config re_search indexer other_parse analyze_juniper_config content platform
          stig_id jid benchmark_id db_rules cache =
        (if nonempty xs
         then (x <- _evaluate_xccdf_rules re_search xs config jid ;; Ok (builtin ++ x)%list, cache')
         else (Ok builtin, cache')))).
Proof.
  split; [|split].
  - intros db Hdb Hj. unfold analyze_config. rewrite Hj. split; [reflexivity|].
    unfold juniper_rules_to_check. destruct db; [congruence|reflexivity].
  - intros db_rules xs cache' Hnone Hx. unfold juniper_rules_to_check.
    destruct Hnone as [-> | ->]; simpl; rewrite Hx; destruct (nonempty xs); reflexivity.
  - intros parse config builtin Hj Hp Hc Hb. split.
    + intros db Hdb. unfold analyze_config. rewrite Hj, Hp, Hc, Hb.
      destruct db; [congruence|reflexivity].
    + intros db_rules xs cache' Hnone Hx. unfold analyze_config. rewrite Hj, Hp, Hc, Hb.
      destruct Hnone as [-> | ->]; simpl; rewrite Hx; reflexivity.
Qed.

(** Witness for C3: for a Junos device with one database rule, the
    Juniper analyzer receives exactly that rule. *)
Lemma rule_source_priority_witness :
  juniper_rules_to_check None JUNIPER_JUNOS [] None (Some "Juniper_SRX_STIG")
    (Some [[("vuln_id", "V-66003"); ("title", "Session timeout")]]) =
  ([[("vuln_id", "V-66003"); ("title", "Session timeout")]], []).
Proof.
  destruct (rule_source_priority (fun _ _ _ => ReNoMatch) None (fun _ _ => Ok (new_config JUNIPER_JUNOS ""))
              (fun _ _ _ => Ok []) "" JUNIPER_JUNOS (Some "Juniper_SRX_STIG") "job-1" None [])
    as [Hj _].
  destruct (Hj [[("vuln_id", "V-66003"); ("title", "Session timeout")]]) as [_ H].
  - discriminate.
  - reflexivity.
  - exact H.
Defined.

(** Claim C3, counterexample: a Red Hat analysis with one database rule
    returns nine results: the eight built-in Red Hat rules (for example
    RHEL-09-411010, which is not a database rule) followed by the database
    rule's result. The result set is not derived from the database rules
    alone, although they are non-empty. *)
Lemma db_rules_do_not_replace_builtin_rules :
  exists rs,
    fst (analyze_config (fun _ _ _ => ReNoMatch) None (fun _ _ => Raise (OtherError "no parser"))
           (fun _ _ _ => Ok []) "PASS_MAX_DAYS 60" REDHAT (Some "RHEL_9_STIG") "job-1" None
           (Some [[("vuln_id", "V-257000"); ("title", "NTP servers");
                   ("severity", "medium"); ("check_text", "Verify ntp is configured.")]]) []) = Ok rs /\
    length rs = 9%nat /\
    In "RHEL-09-411010" (map rule_id rs) /\
    map rule_id (skipn 8 rs) = ["V-257000"].
Proof.
  eexists. split; [vm_compute; reflexivity|].
  split; [reflexivity|]. split; [simpl; tauto | reflexivity].
Qed.

(** ** Claim C4: keyword order of the heuristic checks *)

(** Claim C4 (code bug). The keyword chain is not the same on the two
    heuristic paths: [_evaluate_single_db_rule], although commented as
    similar logic to [_evaluate_single_xccdf_rule], has no [aaa] branch
    and no generic pattern fallback. A rule whose check text asks for AAA
    authentication is checked against [aaa_config] when it comes from
    XCCDF (PASS on any configuration with AAA settings) but yields
    NOT_REVIEWED with [Manual review required] when it comes from the
    database. *)
Theorem db_rule_path_skips_aaa_check re_search (config : ParsedConfig) :
  nonempty (aaa_config config) = true ->
  (exists x,
     _evaluate_single_db_rule
       [("vuln_id", "V-101"); ("title", "The device must use centralized AAA");
        ("severity", "high"); ("check_text", "Verify aaa authentication is configured.")]
       config "job-1" = Ok x /\
     status x = NOT_REVIEWED /\ finding_details x = Some "Manual review required") /\
  (exists y,
     _evaluate_single_xccdf_rule re_search
       {| XCCDFRule.rule_id := "SV-101r1_rule"; XCCDFRule.vuln_id := "V-101";
          XCCDFRule.group_id := "V-101"; XCCDFRule.title := "The device must use centralized AAA";
          XCCDFRule.description := ""; XCCDFRule.severity := "high";
          XCCDFRule.check_content := "Verify aaa authentication is configured.";
          XCCDFRule.fix_content := ""; XCCDFRule.ccis := []; XCCDFRule.legacy_ids := [] |}
       config "job-1" = Ok y /\
     status y = PASS).
Proof.
  intros Haaa. split.
  - eexists. split; [reflexivity|]. split; reflexivity.
  - unfold _evaluate_single_xccdf_rule.
    rewrite eval_rule_guarded_valid by reflexivity.
    eexists. split; [reflexivity|]. simpl.
    unfold xccdf_rule_body. simpl. rewrite Haaa. reflexivity.
Qed.

(** Witness for C4: an Arista configuration whose AAA section is set;
    the XCCDF copy of the rule passes, the database copy is left for
    manual review. *)
Lemma db_rule_path_skips_aaa_check_witness :
  let config :=
    {| platform := ARISTA_EOS; hostname := None; version := None;
       raw_content := "aaa authentication login default group tacacs+";
       sections := []; settings := []; interfaces := []; users := []; acls := [];
       routing := []; services := []; ntp_servers := []; dns_servers := [];
       syslog_servers := []; snmp_config := [];
       aaa_config := [("authentication", PList [PStr "login default group tacacs+"])];
       ssh_config := []; banner := None |} in
  ((exists x,
     _evaluate_single_db_rule
       [("vuln_id", "V-101"); ("title", "The device must use centralized AAA");
        ("severity", "high"); ("check_text", "Verify aaa authentication is configured.")]
       config "job-1" = Ok x /\ status x = NOT_REVIEWED) /\
  (exists y,
     _evaluate_single_xccdf_rule (fun _ _ _ => ReNoMatch)
       {| XCCDFRule.rule_id := "SV-101r1_rule"; XCCDFRule.vuln_id := "V-101";
          XCCDFRule.group_id := "V-101"; XCCDFRule.title := "The device must use centralized AAA";
          XCCDFRule.description := ""; XCCDFRule.severity := "high";
          XCCDFRule.check_content := "Verify aaa authentication is configured.";
          XCCDFRule.fix_content := ""; XCCDFRule.ccis := []; XCCDFRule.legacy_ids := [] |}
       config "job-1" = Ok y /\ status y = PASS)).
Proof.
  intros config.
  destruct (db_rule_path_skips_aaa_check (fun _ _ _ => ReNoMatch) config)
    as [[x [Hx [Hs _]]] Hy].
  - reflexivity.
  - split; [exists x; split; [exact Hx | exact Hs] | exact Hy].
Defined.

(** ** Claim C5: rules with a missing id *)

(** Claim C5 (amended). [_extract_rules] skips only the Groups that have
    no Rule child: every other Group yields exactly one rule, in document
    order, whose rule id is the Rule's [id] attribute, or the empty string
    when the attribute is missing, and whose vuln id is the Group's [id]
    attribute, or the empty string. *)
Theorem extract_rules_defaults_missing_ids (root : Element) :
  map (fun r => (XCCDFRule.vuln_id r, XCCDFRule.rule_id r)) (_extract_rules root) =
  flat_map (fun group =>
              match find_child (xccdf "Rule") group with
              | None => []
              | Some rule_elem => [(el_get group "id" "", el_get rule_elem "id" "")]
              end)
           (findall_desc (xccdf "Group") root).
Proof.
  unfold _extract_rules.
  induction (findall_desc (xccdf "Group") root) as [|g gs IH]; simpl; [reflexivity|].
  rewrite map_app, IH. destruct (find_child (xccdf "Rule") g); reflexivity.
Qed.

(** Claim C5, counterexample: a benchmark whose Group V-1 holds a Rule
    without an [id] attribute; the rule is extracted with an empty rule
    id instead of being dropped. *)
Lemma rule_without_id_is_kept_with_empty_id :
  map (fun r => (XCCDFRule.vuln_id r, XCCDFRule.rule_id r))
    (_extract_rules
       (El (xccdf "Benchmark") [("id", "Test_STIG")] None None
          [El (xccdf "Group") [("id", "V-1")] None None
             [El (xccdf "Rule") [("severity", "high")] None None
                [El (xccdf "title") [] (Some "Rule without id") None []]]])) =
  [("V-1", "")].
Proof. vm_compute. reflexivity. Qed.

(** ** Claim C6: the pfSense parser on hostile input *)

(** Claim C6 (code bug). [PfSenseParser.parse] catches only
    [ET.ParseError] around [SafeET.fromstring]. When expat reaches an
    entity declaration, defusedxml's handler raises [EntitiesForbidden], a
    [ValueError]; it escapes [parse] instead of giving the best-effort
    [ParsedConfig] the parser returns for other unparseable input. For
    every document within the size limit on which the XML parser raises
    [EntitiesForbidden], [parse] raises that exception. *)
Theorem pfsense_parse_raises_on_entity_declaration
    (expat : string -> ExpatOutcome) (cfg : Settings) (content msg : string) :
  expat content = XForbidden (EntitiesForbidden msg) ->
  (N.of_nat (String.length content) <= max_xml_size cfg)%N ->
  pfsense_parse expat cfg content = Raise (EntitiesForbidden msg).
Proof.
  intros Hent Hsize. unfold pfsense_parse, safe_fromstring.
  rewrite Hent.
  destruct (max_xml_size cfg <? N.of_nat (String.length content))%N eqn:Hlt.
  - apply N.ltb_lt in Hlt. lia.
  - reflexivity.
Qed.

(** Witness for C6: a one-line pfSense document with an internal DTD that
    declares the entity [h], under the default settings; the XML parser
    is [expat_entity_example]. *)
Lemma pfsense_parse_raises_on_entity_declaration_witness :
  pfsense_parse expat_entity_example default_settings
    "<?xml version='1.0'?><!DOCTYPE pfsense [<!ENTITY h 'fw'>]><pfsense><system><hostname>&h;</hostname></system></pfsense>"
  = Raise (EntitiesForbidden "EntitiesForbidden(name='h', system_id=None, public_id=None)").
Proof.
  apply pfsense_parse_raises_on_entity_declaration.
  - vm_compute. reflexivity.
  - vm_compute. discriminate.
Defined.

(** ** Claim C7: resource limits on untrusted XML and ZIP input *)

(** Claim C7 (amended). [parse_zip] checks the entry count and the
    declared size of the XCCDF entry before reading anything, and gives an
    empty result when either is over its limit. The raw XML size is
    checked by [_parse_xccdf_content] only after the entry has been read:
    an oversized entry is read, but is never parsed, and the result is
    empty. No XML parse call happens unless all three limits hold. The
    pfSense parser checks the document size before parsing, and an
    oversized document gives the empty [ParsedConfig] of the platform
    without any parse. *)
Theorem ingestion_limits_precede_parsing (expat : string -> ExpatOutcome)
    (STIGEntry : Type) (extract_metadata : Element -> list XCCDFRule.t -> option STIGEntry)
    (cfg : Settings) :
  (forall entries, (max_zip_entries cfg < N.of_nat (length entries))%N ->
     parse_zip expat STIGEntry extract_metadata cfg (Some entries) = (empty_parse STIGEntry, [])) /\
  (forall entries name info,
     (N.of_nat (length entries) <= max_zip_entries cfg)%N ->
     _find_xccdf_file (map zname entries) = Some name ->
     getinfo entries name = Some info ->
     (max_zip_entry_size cfg < file_size info)%N ->
     parse_zip expat STIGEntry extract_metadata cfg (Some entries) = (empty_parse STIGEntry, [])) /\
  (forall entries name info,
     (N.of_nat (length entries) <= max_zip_entries cfg)%N ->
     _find_xccdf_file (map zname entries) = Some name ->
     getinfo entries name = Some info ->
     (file_size info <= max_zip_entry_size cfg)%N ->
     (max_xml_size cfg <
        N.of_nat (String.length (substring 0 (N.to_nat (file_size info)) (data info))))%N ->
     parse_zip expat STIGEntry extract_metadata cfg (Some entries) =
     (empty_parse STIGEntry, [ReadEntry name])) /\
  (forall zip, In XmlParse (snd (parse_zip expat STIGEntry extract_metadata cfg zip)) ->
     exists entries name info,
       zip = Some entries /\
       (N.of_nat (length entries) <= max_zip_entries cfg)%N /\
       _find_xccdf_file (map zname entries) = Some name /\
       getinfo entries name = Some info /\
       (file_size info <= max_zip_entry_size cfg)%N /\
       (N.of_nat (String.length (substring 0 (N.to_nat (file_size info)) (data info)))
          <= max_xml_size cfg)%N) /\
  (forall content, (max_xml_size cfg < N.of_nat (String.length content))%N ->
     pfsense_parse expat cfg content = Ok (new_config PFSENSE content)).
Proof.
  split; [|split; [|split; [|split]]].
  - intros entries Hn. unfold parse_zip. rewrite length_map.
    apply N.ltb_lt in Hn. now rewrite Hn.
  - intros entries name info Hn Hf Hg Hs. unfold parse_zip. rewrite length_map.
    apply N.ltb_ge in Hn. apply N.ltb_lt in Hs. now rewrite Hn, Hf, Hg, Hs.
  - intros entries name info Hn Hf Hg Hs Hx. unfold parse_zip. rewrite length_map.
    apply N.ltb_ge in Hn. apply N.ltb_ge in Hs. rewrite Hn, Hf, Hg, Hs.
    unfold _parse_xccdf_content. apply N.ltb_lt in Hx. now rewrite Hx.
  - intros [entries|] Hin; [|simpl in Hin; contradiction].
    unfold parse_zip in Hin. rewrite length_map in Hin.
    destruct (max_zip_entries cfg <? N.of_nat (length entries))%N eqn:Hn;
      [simpl in Hin; contradiction|].
    destruct (_find_xccdf_file (map zname entries)) as [name|] eqn:Hf;
      [|simpl in Hin; contradiction].
    destruct (getinfo entries name) as [info|] eqn:Hg; [|simpl in Hin; contradiction].
    destruct (max_zip_entry_size cfg <? file_size info)%N eqn:Hs;
      [simpl in Hin; contradiction|].
    exists entries, name, info.
    apply N.ltb_ge in Hn. apply N.ltb_ge in Hs.
    repeat split; auto.
    unfold _parse_xccdf_content in Hin.
    destruct (max_xml_size cfg <? N.of_nat (String.length
               (substring 0 (N.to_nat (file_size info)) (data info))))%N eqn:Hx.
    + simpl in Hin. destruct Hin as [Hin|Hin]; [discriminate|contradiction].
    + now apply N.ltb_ge in Hx.
  - intros content Hx. unfold pfsense_parse. apply N.ltb_lt in Hx. now rewrite Hx.
Qed.

(** Witness for C7: with at most one entry allowed, a two-entry archive is
    rejected before any entry is read. *)
Lemma ingestion_limits_precede_parsing_witness :
  parse_zip (fun _ => XSyntaxError "syntax error") unit (fun _ _ => None)
    {| max_xml_size := 1000; max_zip_entry_size := 1000; max_zip_entries := 1 |}%N
    (Some [{| zname := "README.txt"; file_size := 5; data := "hello" |};
           {| zname := "U_Test_STIG_V1R1_Manual-xccdf.xml"; file_size := 11; data := "<Benchmark/>" |}])
  = (empty_parse unit, []).
Proof.
  destruct (ingestion_limits_precede_parsing (fun _ => XSyntaxError "syntax error") unit (fun _ _ => None)
              {| max_xml_size := 1000; max_zip_entry_size := 1000; max_zip_entries := 1 |}%N)
    as [Hcount _].
  apply Hcount. vm_compute. reflexivity.
Defined.

(** Claim C7, counterexample: with a 10-byte XML limit and a 1000-byte
    entry limit, an archive whose XCCDF entry holds 40 bytes has that
    entry read before the XML size check rejects it; the result is empty
    and no parse happens, but the read precedes the check. *)
Lemma xml_size_checked_after_entry_read :
  parse_zip (fun _ => XSyntaxError "syntax error") unit (fun _ _ => None)
    {| max_xml_size := 10; max_zip_entry_size := 1000; max_zip_entries := 500 |}%N
    (Some [{| zname := "U_Test_STIG_V1R1_Manual-xccdf.xml"; file_size := 40;
              data := "<Benchmark id='Test'>0123456789</Benchmark>" |}])
  = (empty_parse unit, [ReadEntry "U_Test_STIG_V1R1_Manual-xccdf.xml"]).
Proof. vm_compute. reflexivity. Qed.

(** ** Claim C8: the compliance score *)

Open Scope Q_scope.

Lemma round_half_even_close (q : Q) :
  (Qabs (inject_Z (round_half_even q) - q) <= 1 # 2)%Q.
Proof.
  unfold round_half_even.
  pose proof (Qfloor_le q) as H1. pose proof (Qlt_floor q) as H2.
  rewrite inject_Z_plus in H2. change (inject_Z 1) with 1%Q in H2.
  apply Qabs_Qle_condition.
  destruct (Qlt_le_dec (q - inject_Z (Qfloor q)) (1 # 2)) as [Ha|Ha].
  - split; lra.
  - destruct (Qlt_le_dec (1 # 2) (q - inject_Z (Qfloor q))) as [Hb|Hb].
    + rewrite inject_Z_plus. change (inject_Z 1) with 1%Q. split; lra.
    + destruct (Z.even (Qfloor q)).
      * split; lra.
      * rewrite inject_Z_plus. change (inject_Z 1) with 1%Q. split; lra.
Qed.

Lemma round_half_even_bounds (q : Q) (a b : Z) :
  (inject_Z a <= q)%Q -> (q <= inject_Z b)%Q -> (a <= round_half_even q <= b)%Z.
Proof.
  intros Ha Hb.
  pose proof (Qfloor_le q) as F1. pose proof (Qlt_floor q) as F2.
  assert (Hfa : (a <= Qfloor q)%Z).
  { rewrite <- (Qfloor_Z a). apply Qfloor_resp_le; exact Ha. }
  assert (Hfb : (Qfloor q <= b)%Z).
  { rewrite Zle_Qle. eapply Qle_trans; eassumption. }
  unfold round_half_even.
  destruct (Qlt_le_dec (q - inject_Z (Qfloor q)) (1 # 2)) as [H1|H1]; [lia|].
  assert (Hlt : (Qfloor q < b)%Z).
  { destruct (Z.eq_dec (Qfloor q) b) as [E|E]; [|lia].
    exfalso. rewrite E in H1. lra. }
  destruct (Qlt_le_dec (1 # 2) (q - inject_Z (Qfloor q))); [lia|].
  destruct (Z.even (Qfloor q)); lia.
Qed.

Lemma pow2_pos (k : Z) : 0 < pow2 k.
Proof. apply Qpower_0_lt. lra. Qed.

Lemma pow2_plus (a b : Z) : pow2 (a + b) == pow2 a * pow2 b.
Proof. unfold pow2. apply Qpower_plus. discriminate. Qed.

Lemma pow2_le_mono (a b : Z) : (a <= b)%Z -> pow2 a <= pow2 b.
Proof. intros H. apply Qpower_le_compat_l; [exact H|lra]. Qed.

Lemma pow2_le_inv (a b : Z) : pow2 a <= pow2 b -> (a <= b)%Z.
Proof. intros H. apply (Qpower_le_compat_l_inv 2); [exact H|lra]. Qed.

Lemma pow2_Z (k : Z) : (0 <= k)%Z -> pow2 k == inject_Z (2 ^ k).
Proof. intros H. unfold pow2. rewrite Zpower_Qpower by exact H. reflexivity. Qed.

Lemma pow2_opp (k : Z) : pow2 (- k) == / pow2 k.
Proof. unfold pow2. apply Qpower_opp. Qed.

Lemma flt_exp_low (q : Q) : 0 < q -> pow2 (flt_exp q) <= q.
Proof.
  intros Hq. unfold flt_exp.
  set (k := (Z.log2 (Qnum q) - Z.log2 (Zpos (Qden q)))%Z).
  destruct (Qle_bool (pow2 k) q) eqn:E; [apply Qle_bool_iff; exact E|].
  destruct q as [n d]. cbn [Qnum Qden] in k |- *.
  assert (Hn : (0 < n)%Z).
  { unfold Qlt in Hq. simpl in Hq. lia. }
  destruct (Z.log2_spec n Hn) as [Hn1 _].
  destruct (Z.log2_spec (Zpos d) eq_refl) as [_ Hd2].
  pose proof (Z.log2_nonneg n). pose proof (Z.log2_nonneg (Zpos d)).
  set (ln := Z.log2 n) in *. set (ld := Z.log2 (Zpos d)) in *.
  assert (Ek : (k - 1 = ln + - Z.succ ld)%Z). { unfold k. lia. }
  rewrite Ek, pow2_plus, pow2_opp, !pow2_Z by lia.
  rewrite Qmake_Qdiv.
  assert (H1 : inject_Z (2 ^ ln) <= inject_Z n) by (rewrite <- Zle_Qle; exact Hn1).
  assert (H2 : inject_Z (Zpos d) <= inject_Z (2 ^ Z.succ ld))
    by (rewrite <- Zle_Qle; lia).
  assert (H3 : 0 < inject_Z (Zpos d)) by (change 0 with (inject_Z 0); rewrite <- Zlt_Qlt; lia).
  assert (H4' : (0 < 2 ^ ln)%Z) by (apply Z.pow_pos_nonneg; lia).
  assert (H4 : 0 < inject_Z (2 ^ ln)) by (change 0 with (inject_Z 0); rewrite <- Zlt_Qlt; lia).
  change (inject_Z (2 ^ ln) * / inject_Z (2 ^ Z.succ ld) <= inject_Z n / inject_Z (Zpos d)).
  apply Qle_shift_div_l; [exact H3|].
  apply (Qle_trans _ (inject_Z (2 ^ ln) * / inject_Z (2 ^ Z.succ ld) * inject_Z (2 ^ Z.succ ld))).
  - apply Qmult_le_l; [|exact H2].
    apply Qlt_shift_div_l; [lra|]. lra.
  - assert (E2 : inject_Z (2 ^ ln) * / inject_Z (2 ^ Z.succ ld) * inject_Z (2 ^ Z.succ ld) == inject_Z (2 ^ ln)).
    { field. intros Hz. lra. }
    rewrite E2. exact H1.
Qed.

Lemma round_half_even_nonneg (q : Q) : 0 <= q -> (0 <= round_half_even q)%Z.
Proof.
  intros H. apply (round_half_even_bounds q 0 (Qceiling q)); [exact H|apply Qle_ceiling].
Qed.

Lemma round_double_nonpos (q : Q) : q <= 0 -> round_double q = 0.
Proof.
  intros H. unfold round_double. apply Qle_bool_iff in H. rewrite H. reflexivity.
Qed.

Lemma round_double_pos_unfold (q : Q) : 0 < q ->
  round_double q ==
    inject_Z (round_half_even (q / pow2 (Z.max (flt_exp q - 52) (-1074))))
    * pow2 (Z.max (flt_exp q - 52) (-1074)).
Proof.
  intros H. unfold round_double.
  destruct (Qle_bool q 0) eqn:E.
  - apply Qle_bool_iff in E. lra.
  - apply Qred_correct.
Qed.

Lemma round_double_nonneg (q : Q) : 0 <= round_double q.
Proof.
  destruct (Qlt_le_dec 0 q) as [H|H].
  - rewrite round_double_pos_unfold by exact H.
    set (u := Z.max (flt_exp q - 52) (-1074)).
    pose proof (pow2_pos u) as Hp.
    assert (Hm : (0 <= round_half_even (q / pow2 u))%Z).
    { apply round_half_even_nonneg. apply Qle_shift_div_l; [exact Hp|]. lra. }
    apply Qmult_le_0_compat; [|lra].
    change 0 with (inject_Z 0). rewrite <- Zle_Qle. exact Hm.
  - rewrite round_double_nonpos by exact H. lra.
Qed.

(** Relative error of the rounding in the normal range: at most 2^-53. *)
Lemma round_double_error (q : Q) : pow2 (-1022) <= q ->
  Qabs (round_double q - q) <= q * (1 # 9007199254740992).
Proof.
  intros Hlo.
  assert (Hq : 0 < q) by (pose proof (pow2_pos (-1022)); lra).
  rewrite round_double_pos_unfold by exact Hq.
  set (e := flt_exp q). set (u := Z.max (e - 52) (-1074)).
  pose proof (pow2_pos u) as Hp.
  assert (Hu : pow2 (u + 52) <= q).
  { subst u. destruct (Z.max_spec (e - 52) (-1074)) as [[_ Hm]|[_ Hm]]; rewrite Hm.
    - exact Hlo.
    - replace (e - 52 + 52)%Z with e by lia. apply flt_exp_low. exact Hq. }
  rewrite pow2_plus in Hu.
  assert (E52 : pow2 52 == 4503599627370496) by reflexivity.
  rewrite E52 in Hu.
  pose proof (round_half_even_close (q / pow2 u)) as Hc.
  set (m := inject_Z (round_half_even (q / pow2 u))) in *.
  assert (E : m * pow2 u - q == (m - q / pow2 u) * pow2 u) by (field; lra).
  rewrite E, Qabs_Qmult, (Qabs_pos (pow2 u)) by lra.
  apply (Qmult_le_compat_r _ _ (pow2 u)) in Hc; [|lra].
  lra.
Qed.

(** A nonnegative value at most an integer [B < 2^53] rounds to at most [B]. *)
Lemma round_double_le_int (q : Q) (B : Z) :
  0 <= q -> q <= inject_Z B -> (B < 2 ^ 53)%Z -> round_double q <= inject_Z B.
Proof.
  intros H0 HB HB53.
  destruct (Qlt_le_dec 0 q) as [Hq|Hq]; [|rewrite round_double_nonpos by exact Hq; lra].
  rewrite round_double_pos_unfold by exact Hq.
  set (e := flt_exp q). set (u := Z.max (e - 52) (-1074)).
  assert (He : (e < 53)%Z).
  { destruct (Z.lt_ge_cases e 53) as [|Hge]; [assumption|].
    exfalso. pose proof (pow2_le_mono _ _ Hge) as Hm.
    pose proof (flt_exp_low q Hq) as Hl. fold e in Hl.
    assert (E53 : pow2 53 == inject_Z (2 ^ 53)) by reflexivity.
    rewrite E53 in Hm.
    assert (inject_Z B < inject_Z (2 ^ 53)) by (rewrite <- Zlt_Qlt; exact HB53).
    lra. }
  assert (Hu0 : (u <= 0)%Z) by (subst u; lia).
  pose proof (pow2_pos u) as Hp.
  assert (Einv : pow2 u * pow2 (- u) == 1).
  { rewrite <- pow2_plus. replace (u + - u)%Z with 0%Z by lia. reflexivity. }
  assert (Ediv : q / pow2 u == q * pow2 (- u)).
  { rewrite pow2_opp. reflexivity. }
  rewrite (pow2_Z (- u)) in Einv, Ediv by lia.
  assert (Hle : (round_half_even (q / pow2 u) <= B * 2 ^ (- u))%Z).
  { apply (round_half_even_bounds _ 0 (B * 2 ^ (- u))).
    - rewrite Ediv. change (inject_Z 0) with 0.
      apply Qmult_le_0_compat; [exact H0|]. change 0 with (inject_Z 0).
      rewrite <- Zle_Qle. apply Z.pow_nonneg. lia.
    - rewrite Ediv, inject_Z_mult. apply Qmult_le_compat_r; [exact HB|].
      change 0 with (inject_Z 0). rewrite <- Zle_Qle. apply Z.pow_nonneg. lia. }
  rewrite Zle_Qle, inject_Z_mult in Hle.
  apply (Qmult_le_compat_r _ _ (pow2 u)) in Hle; [|lra].
  setoid_replace (inject_Z B * inject_Z (2 ^ (- u)) * pow2 u) with (inject_Z B) in Hle.
  - exact Hle.
  - rewrite <- Qmult_assoc, (Qmult_comm (inject_Z (2 ^ (- u)))), Einv. ring.
Qed.

Lemma round_half_even_near (y : Q) (n : Z) :
  Qabs (y - inject_Z n) < 1 # 2 -> round_half_even y = n.
Proof.
  intros H. apply Qabs_Qlt_condition in H. destruct H as [H1 H2].
  pose proof (Qfloor_le y) as F1. pose proof (Qlt_floor y) as F2.
  rewrite inject_Z_plus in F2. change (inject_Z 1) with 1 in F2.
  assert (Ha : (Qfloor y <= n)%Z).
  { assert (inject_Z (Qfloor y) < inject_Z (n + 1)) as Hx.
    { rewrite inject_Z_plus. change (inject_Z 1) with 1. lra. }
    rewrite <- Zlt_Qlt in Hx. lia. }
  assert (Hb : (n - 1 <= Qfloor y)%Z).
  { assert (inject_Z (n - 1) < inject_Z (Qfloor y + 1)) as Hx.
    { unfold Z.sub. rewrite !inject_Z_plus, inject_Z_opp. change (inject_Z 1) with 1. lra. }
    rewrite <- Zlt_Qlt in Hx. lia. }
  unfold round_half_even.
  destruct (Z.eq_dec (Qfloor y) n) as [E|E].
  - rewrite E in *. destruct (Qlt_le_dec (y - inject_Z n) (1 # 2)); [reflexivity|lra].
  - assert (E' : Qfloor y = (n - 1)%Z) by lia. rewrite E' in *.
    assert (HQ : inject_Z (n - 1) == inject_Z n - 1).
    { unfold Z.sub. rewrite inject_Z_plus, inject_Z_opp. reflexivity. }
    destruct (Qlt_le_dec (y - inject_Z (n - 1)) (1 # 2)) as [H3|H3]; [rewrite HQ in H3; lra|].
    destruct (Qlt_le_dec (1 # 2) (y - inject_Z (n - 1))) as [H4|H4]; [lia|].
    rewrite HQ in H4. lra.
Qed.

Lemma round2_bounds (x : Q) : 0 <= x -> x <= 100 -> 0 <= round2 x <= 100.
Proof.
  intros H0 H1. unfold round2.
  assert (Hn : (0 <= round_half_even (x * 100) <= 10000)%Z).
  { apply round_half_even_bounds; change (inject_Z 0) with 0; change (inject_Z 10000) with 10000; lra. }
  set (n := round_half_even (x * 100)) in *.
  assert (Hq0 : 0 <= inject_Z n / 100).
  { apply Qle_shift_div_l; [lra|]. rewrite Qmult_0_l. change 0 with (inject_Z 0). rewrite <- Zle_Qle. lia. }
  split; [apply round_double_nonneg|].
  apply (round_double_le_int _ 100); [exact Hq0| |reflexivity].
  apply Qle_shift_div_r; [lra|]. change (inject_Z 100 * 100) with (inject_Z 10000).
  rewrite <- Zle_Qle. lia.
Qed.

Lemma Q_of_nat_pos (n : nat) : (0 < n)%nat -> 0 < inject_Z (Z.of_nat n).
Proof. intros H. change 0 with (inject_Z 0). rewrite <- Zlt_Qlt. lia. Qed.

Lemma Q_of_nat_nonneg (n : nat) : 0 <= inject_Z (Z.of_nat n).
Proof. change 0 with (inject_Z 0). rewrite <- Zle_Qle. lia. Qed.

Lemma div_lt_inv (a b c : Q) : 0 < b -> a / b < c -> a < c * b.
Proof.
  intros Hb H. apply (Qmult_lt_r _ _ b) in H; [|exact Hb].
  setoid_replace (a / b * b) with a in H by (field; lra). exact H.
Qed.

Lemma div_gt_inv (a b c : Q) : 0 < b -> c < a / b -> c * b < a.
Proof.
  intros Hb H. apply (Qmult_lt_r _ _ b) in H; [|exact Hb].
  setoid_replace (a / b * b) with a in H by (field; lra). exact H.
Qed.

(** The score computed in floating point, when [p + f <= 10^10] and the
    exact [10000 * p / (p + f)] is less than 1/2 away from the integer [n]:
    the double nearest [n / 100]. *)
Lemma score_near (p f : nat) (n : Z) :
  (0 < p + f)%nat -> (Z.of_nat (p + f) <= 10000000000)%Z ->
  Qabs (inject_Z (10000 * Z.of_nat p) / inject_Z (Z.of_nat (p + f)) - inject_Z n) < 1 # 2 ->
  round2 (float_mul (int_truediv (Z.of_nat p) (Z.of_nat (p + f))) 100)
  = round_double (inject_Z n / 100).
Proof.
  intros Hpos Hbnd Hn.
  unfold round2. f_equal. f_equal. f_equal. apply round_half_even_near.
  unfold float_mul, int_truediv.
  set (t := Z.of_nat (p + f)) in *.
  set (T := inject_Z t) in *.
  set (P := inject_Z (Z.of_nat p)) in *.
  assert (HT : 0 < T) by (apply Q_of_nat_pos; exact Hpos).
  assert (HTb : T <= 10000000000) by (subst T; change 10000000000 with (inject_Z 10000000000); rewrite <- Zle_Qle; exact Hbnd).
  assert (HP : 0 <= P) by apply Q_of_nat_nonneg.
  assert (HPT : P <= T) by (subst P T t; rewrite <- Zle_Qle; lia).
  set (r := P / T).
  assert (Hr : 0 <= r <= 1).
  { split; [apply Qle_shift_div_l; lra|apply Qle_shift_div_r; lra]. }
  (* the margin to the nearest halfway point *)
  assert (Hgap : Qabs (10000 * r - inject_Z n) <= (1 # 2) - (1 # 20000000000)).
  { set (k := (10000 * Z.of_nat p - n * t)%Z).
    assert (Ek : 10000 * r - inject_Z n == inject_Z k / T).
    { subst r k T P. unfold Z.sub. rewrite inject_Z_plus, inject_Z_opp, !inject_Z_mult.
      field. lra. }
    assert (Ek' : inject_Z (10000 * Z.of_nat p) / T - inject_Z n == inject_Z k / T).
    { rewrite <- Ek. subst r P. rewrite inject_Z_mult. field. lra. }
    rewrite Ek' in Hn. rewrite Ek.
    apply Qabs_Qlt_condition in Hn. destruct Hn as [Hn1 Hn2].
    assert (Hk1 : inject_Z (2 * k) < T).
    { rewrite inject_Z_mult. apply div_lt_inv in Hn2; [|exact HT].
      change (inject_Z 2) with 2. lra. }
    assert (Hk2 : - T < inject_Z (2 * k)).
    { rewrite inject_Z_mult. apply div_gt_inv in Hn1; [|exact HT].
      change (inject_Z 2) with 2. lra. }
    subst T. rewrite <- Zlt_Qlt in Hk1.
    rewrite <- inject_Z_opp, <- Zlt_Qlt in Hk2.
    assert (Hk3 : inject_Z (2 * k) <= inject_Z (t + -1)) by (rewrite <- Zle_Qle; lia).
    assert (Hk4 : inject_Z (- t + 1) <= inject_Z (2 * k)) by (rewrite <- Zle_Qle; lia).
    rewrite inject_Z_plus in Hk3, Hk4. rewrite inject_Z_opp in Hk4.
    change (inject_Z (-1)) with (-1) in Hk3. change (inject_Z 1) with 1 in Hk4.
    rewrite inject_Z_mult in Hk3, Hk4. change (inject_Z 2) with 2 in Hk3, Hk4.
    apply Qabs_Qle_condition. split.
    - apply Qle_shift_div_l; [exact HT|]. nra.
    - apply Qle_shift_div_r; [exact HT|]. nra. }
  (* the computed value is within 30000 * 2^-53 of 10000 * r *)
  assert (Herr : Qabs (round_double (round_double r * 100) * 100 - 10000 * r)
                 <= 30000 * (1 # 9007199254740992)).
  { destruct (Qeq_dec P 0) as [HP0|HP0].
    - assert (Hr0 : r <= 0) by (subst r; rewrite HP0; unfold Qdiv; rewrite Qmult_0_l; lra).
      rewrite (round_double_nonpos r Hr0).
      rewrite (round_double_nonpos (0 * 100)) by lra.
      assert (r == 0) by lra.
      apply Qabs_Qle_condition. split; lra.
    - assert (HP1 : 1 <= P).
      { subst P. change 1 with (inject_Z 1). rewrite <- Zle_Qle.
        assert (Z.of_nat p <> 0%Z); [|lia].
        intros E. apply HP0. rewrite E. reflexivity. }
      assert (Hsmall : pow2 (-1022) <= 1 # 10000000000)
        by (apply Qle_bool_iff; vm_compute; reflexivity).
      assert (Hr1 : 1 # 10000000000 <= r).
      { subst r. apply Qle_shift_div_l; [exact HT|]. lra. }
      pose proof (round_double_error r ltac:(lra)) as E1.
      set (x1 := round_double r) in *.
      apply Qabs_Qle_condition in E1. destruct E1 as [E1a E1b].
      pose proof (round_double_error (x1 * 100) ltac:(lra)) as E2.
      set (x2 := round_double (x1 * 100)) in *.
      apply Qabs_Qle_condition in E2. destruct E2 as [E2a E2b].
      apply Qabs_Qle_condition. split; lra. }
  apply Qabs_Qle_condition in Hgap. apply Qabs_Qle_condition in Herr.
  apply Qabs_Qlt_condition. destruct Hgap, Herr. split; lra.
Qed.

Lemma score_of_zero (p f : nat) : (p + f = 0)%nat -> score_of p f = 0.
Proof. intros H. unfold score_of. rewrite H. vm_compute. reflexivity. Qed.

Lemma score_of_near (p f : nat) (n : Z) :
  (0 < p + f)%nat -> (Z.of_nat (p + f) <= 10000000000)%Z ->
  Qabs (inject_Z (10000 * Z.of_nat p) / inject_Z (Z.of_nat (p + f)) - inject_Z n) < 1 # 2 ->
  score_of p f = round_double (inject_Z n / 100).
Proof.
  intros Hpos Hbnd Hn. unfold score_of.
  apply Nat.ltb_lt in Hpos as Hlt. rewrite Hlt.
  apply score_near; assumption.
Qed.

(** Claim C8 (amended). Both places that compute a compliance score
    ([get_compliance_summary] from the per-status counts, and
    [analyze_config_standalone] from the result list) give 0 when
    passed + failed = 0. Otherwise, when passed + failed is at most 10^10
    and the exact value of passed / (passed + failed) * 10000 is less than
    1/2 away from an integer [n] (so that the exact ratio times 100 has a
    unique nearest two-decimal value [n / 100]), the score is the double
    nearest [n / 100], whatever the rounding errors of the division and
    the multiplication. In particular the score of 0 passed and 0 failed
    is 0 and that of 8 passed and 2 failed is 80. *)
Theorem compliance_score_formula :
  (forall (status_counts : dict nat) (n : Z),
     let p := get_or status_counts "pass" 0%nat in
     let f := get_or status_counts "fail" 0%nat in
     (0 < p + f)%nat -> (Z.of_nat (p + f) <= 10000000000)%Z ->
     Qabs (inject_Z (10000 * Z.of_nat p) / inject_Z (Z.of_nat (p + f)) - inject_Z n) < 1 # 2 ->
     summary_compliance_score status_counts = round_double (inject_Z n / 100)) /\
  (forall (results : list AuditResultCreate) (n : Z),
     let p := count_status PASS results in
     let f := count_status FAIL results in
     (0 < p + f)%nat -> (Z.of_nat (p + f) <= 10000000000)%Z ->
     Qabs (inject_Z (10000 * Z.of_nat p) / inject_Z (Z.of_nat (p + f)) - inject_Z n) < 1 # 2 ->
     standalone_compliance_score results = round_double (inject_Z n / 100)) /\
  (forall status_counts : dict nat,
     (get_or status_counts "pass" 0 + get_or status_counts "fail" 0 = 0)%nat ->
     summary_compliance_score status_counts = 0) /\
  (forall results : list AuditResultCreate,
     (count_status PASS results + count_status FAIL results = 0)%nat ->
     standalone_compliance_score results = 0) /\
  summary_compliance_score [("pass", 0%nat); ("fail", 0%nat)] = 0 /\
  summary_compliance_score [("pass", 8%nat); ("fail", 2%nat)] = 80.
Proof.
  split; [|split; [|split; [|split; [|split]]]].
  - intros sc n p f. apply score_of_near.
  - intros rs n p f. apply score_of_near.
  - intros sc. apply score_of_zero.
  - intros rs. apply score_of_zero.
  - vm_compute. reflexivity.
  - vm_compute. reflexivity.
Qed.

(** Witness for C8: 3 passed and 1 failed give the double nearest 75.00,
    which is 75. *)
Lemma compliance_score_formula_witness :
  summary_compliance_score [("pass", 3%nat); ("fail", 1%nat)] = round_double (inject_Z 7500 / 100)
  /\ round_double (inject_Z 7500 / 100) = 75.
Proof.
  split; [|vm_compute; reflexivity].
  destruct compliance_score_formula as [Hsum _].
  apply (Hsum [("pass", 3%nat); ("fail", 1%nat)] 7500%Z).
  - apply Nat.ltb_lt. vm_compute. reflexivity.
  - vm_compute. discriminate.
  - vm_compute. reflexivity.
Defined.

(** Claim C8, counterexample. When the exact score lies halfway between
    two two-decimal values, the rounding errors of the division and the
    multiplication decide the result, and no fixed tie rule on the exact
    value gives it: 1 passed of 20000 is exactly 0.005 and gives 0.01
    (rounded up, to an odd last digit), while 1 passed of 32 is exactly
    3.125 and gives 3.12 (rounded down, to an even last digit). *)
Lemma compliance_score_halfway_cases :
  inject_Z (10000 * 1) / inject_Z 20000 == 1 # 2 /\
  summary_compliance_score [("pass", 1%nat); ("fail", Z.to_nat 19999)] = round_double (1 # 100) /\
  inject_Z (10000 * 1) / inject_Z 32 == 625 # 2 /\
  summary_compliance_score [("pass", 1%nat); ("fail", 31%nat)] = round_double (312 # 100).
Proof. vm_compute. repeat split; reflexivity. Qed.

Close Scope Q_scope.

(** ** Claim C9: the numeric setting policies *)

Lemma eqb_neq_empty (s : string) : s <> "" -> String.eqb s "" = false.
Proof. intros H. apply String.eqb_neq. exact H. Qed.

Lemma py_int_parse_raise (s : string) e : py_int_parse s = Raise e -> exists m, e = ValueError m.
Proof.
  unfold py_int_parse.
  match goal with |- context [let '(_, _) := ?m in _] => destruct m as [sign l2] end.
  destruct (scan_digits l2 0 0 true) as [[[v nd] rest]|]; [|intros H; inversion H; eauto].
  destruct (int_max_str_digits <? nd)%Z; [intros H; inversion H; eauto|].
  destruct (skip_isspace rest); intros H; inversion H; eauto.
Qed.

(** Claim C9 (amended). A built-in setting check on [PASS_MAX_DAYS] with
    a non-empty expected value, on a configuration where the setting holds
    the string [a], evaluates to PASS when [int(a)] is at most [int] of the
    expected value, to FAIL when it is greater, and to ERROR when [int]
    rejects either string (no integer literal, or more than 4300 digits);
    a check on [PASS_MIN_DAYS] likewise with at least. *)
Theorem setting_check_numeric_policies re_search (check : ConfigCheckRule.t)
    (config : ParsedConfig) (jid a e : string) :
  valid_rule_id (ConfigCheckRule.rule_id check) = true ->
  ConfigCheckRule.check_type check = "setting" ->
  ConfigCheckRule.expected_value check = Some e -> e <> "" ->
  (ConfigCheckRule.check_key check = Some "PASS_MAX_DAYS" ->
   get_not_none (settings config) "PASS_MAX_DAYS" = Some (PStr a) ->
   exists x, _run_check re_search check config jid = Ok x /\
     status x = match py_int_str a, py_int_str e with
                | Some n, Some m => if (n <=? m)%Z then PASS else FAIL
                | _, _ => ERROR
                end) /\
  (ConfigCheckRule.check_key check = Some "PASS_MIN_DAYS" ->
   get_not_none (settings config) "PASS_MIN_DAYS" = Some (PStr a) ->
   exists x, _run_check re_search check config jid = Ok x /\
     status x = match py_int_str a, py_int_str e with
                | Some n, Some m => if (m <=? n)%Z then PASS else FAIL
                | _, _ => ERROR
                end).
Proof.
  intros Hv Hct He Hne.
  unfold _run_check. rewrite (eval_rule_guarded_valid _ _ _ _ _ _ Hv).
  split; intros Hk Hs; eexists; (split; [reflexivity|]); simpl;
    unfold try_except, run_check_body; rewrite Hct; simpl;
    unfold _check_setting; rewrite Hk; simpl; rewrite Hs, He, (eqb_neq_empty e Hne);
    cbn [py_int]; unfold py_int_str;
    destruct (py_int_parse a) as [n|ea] eqn:Ea;
    destruct (py_int_parse e) as [m|ee] eqn:Ee;
    try (destruct (py_int_parse_raise _ _ Ea) as [? ->]);
    try (destruct (py_int_parse_raise _ _ Ee) as [? ->]);
    try reflexivity;
    simpl; first [destruct (n <=? m)%Z; reflexivity | destruct (m <=? n)%Z; reflexivity].
Qed.

(** Witness for C9: the built-in Red Hat rule RHEL-09-411010 (at most 60
    days) passes on [PASS_MAX_DAYS 60] and fails on [PASS_MAX_DAYS 90]. *)
Lemma setting_check_numeric_policies_witness :
  let rule := {| ConfigCheckRule.rule_id := "RHEL-09-411010";
                 ConfigCheckRule.vuln_id := "V-257780";
                 ConfigCheckRule.title := "RHEL 9 must set password maximum lifetime";
                 ConfigCheckRule.severity := MEDIUM;
                 ConfigCheckRule.check_type := "setting";
                 ConfigCheckRule.check_key := Some "PASS_MAX_DAYS";
                 ConfigCheckRule.expected_value := Some "60";
                 ConfigCheckRule.pattern := None;
                 ConfigCheckRule.negate := false;
                 ConfigCheckRule.description := "PASS_MAX_DAYS must be 60 or less" |} in
  In rule REDHAT_CHECKS /\
  (exists x, _run_check (fun _ _ _ => ReNoMatch) rule (redhat_parse "PASS_MAX_DAYS   60") "job-1" = Ok x /\
             status x = PASS) /\
  (exists x, _run_check (fun _ _ _ => ReNoMatch) rule (redhat_parse "PASS_MAX_DAYS   90") "job-1" = Ok x /\
             status x = FAIL).
Proof.
  intros rule. split; [simpl; tauto|]. split.
  - destruct (setting_check_numeric_policies (fun _ _ _ => ReNoMatch) rule
                (redhat_parse "PASS_MAX_DAYS   60") "job-1" "60" "60") as [Hmax _].
    + reflexivity.
    + reflexivity.
    + reflexivity.
    + discriminate.
    + exact (Hmax eq_refl eq_refl).
  - destruct (setting_check_numeric_policies (fun _ _ _ => ReNoMatch) rule
                (redhat_parse "PASS_MAX_DAYS   90") "job-1" "90" "60") as [Hmax _].
    + reflexivity.
    + reflexivity.
    + reflexivity.
    + discriminate.
    + exact (Hmax eq_refl eq_refl).
Defined.

(** Claim C9, counterexample: [PASS_MAX_DAYS] set to 10^4300, a number
    of 4301 digits, is not compared with the expected 60; [int] refuses
    it ([sys.get_int_max_str_digits()] is 4300) and the check gives ERROR
    rather than FAIL. *)
Lemma setting_check_rejects_long_numbers :
  let rule := {| ConfigCheckRule.rule_id := "RHEL-09-411010";
                 ConfigCheckRule.vuln_id := "V-257780";
                 ConfigCheckRule.title := "RHEL 9 must set password maximum lifetime";
                 ConfigCheckRule.severity := MEDIUM;
                 ConfigCheckRule.check_type := "setting";
                 ConfigCheckRule.check_key := Some "PASS_MAX_DAYS";
                 ConfigCheckRule.expected_value := Some "60";
                 ConfigCheckRule.pattern := None;
                 ConfigCheckRule.negate := false;
                 ConfigCheckRule.description := "PASS_MAX_DAYS must be 60 or less" |} in
  let value := "1" ++ String.concat "" (repeat "0" 4300) in
  get_not_none (settings (redhat_parse ("PASS_MAX_DAYS   " ++ value))) "PASS_MAX_DAYS"
    = Some (PStr value) /\
  exists x, _run_check (fun _ _ _ => ReNoMatch) rule
              (redhat_parse ("PASS_MAX_DAYS   " ++ value)) "job-1" = Ok x /\
            status x = ERROR.
Proof.
  intros rule value. split; [vm_compute; reflexivity|].
  eexists. split; [vm_compute; reflexivity|]. vm_compute. reflexivity.
Qed.

(** ** Claim C10: audit-job status transitions *)

Lemma dict_get_update_status (store : JobStore) (jid : string) st err now :
  dict_get (update_status store jid st err now) jid =
  option_map (fun row => updated_row row st err now) (dict_get store jid).
Proof.
  induction store as [|[k row] rest IH]; simpl; [reflexivity|].
  destruct (String.eqb_spec k jid) as [->|Hne]; simpl.
  - now rewrite String.eqb_refl.
  - rewrite (proj2 (String.eqb_neq jid k) (fun H => Hne (eq_sym H))). exact IH.
Qed.

Lemma jstatus_updated_row row st err now : jstatus (updated_row row st err now) = st.
Proof. destruct st; reflexivity. Qed.

(** [cancel_audit] reports success exactly for an existing job in PENDING
    or RUNNING, which it moves to CANCELLED; for a missing job or one in a
    terminal state it returns False and changes nothing. [update_status]
    has no guard: it moves an existing job to any requested status. *)
Lemma job_status_transitions (store : JobStore) (jid : string) (now : nat) :
  (forall row, dict_get store jid = Some row ->
     (jstatus row = PENDING \/ jstatus row = RUNNING) ->
     fst (cancel_audit store jid now) = true /\
     job_status (snd (cancel_audit store jid now)) jid = Some CANCELLED) /\
  ((dict_get store jid = None \/
    exists row, dict_get store jid = Some row /\ is_terminal (jstatus row) = true) ->
     cancel_audit store jid now = (false, store)) /\
  (forall row st err, dict_get store jid = Some row ->
     job_status (update_status store jid st err now) jid = Some st).
Proof.
  split; [|split].
  - intros row Hg Hs. unfold cancel_audit. rewrite Hg.
    destruct Hs as [-> | ->]; simpl; unfold job_status;
      rewrite dict_get_update_status, Hg; simpl; split; reflexivity.
  - intros [Hg | [row [Hg Ht]]]; unfold cancel_audit; rewrite Hg; [reflexivity|].
    destruct (jstatus row); simpl in Ht; congruence.
  - intros row st err Hg. unfold job_status.
    rewrite dict_get_update_status, Hg. simpl. now rewrite jstatus_updated_row.
Qed.

(** Claim C10 (code bug). Cancellation itself follows the state machine:
    a job in a terminal state is refused without a change. But the status
    writes of the audit runner are not guarded: when a RUNNING job is
    cancelled (which [cancel_audit] accepts and reports as done) and the
    runner then records COMPLETED through [update_status], the job leaves
    the terminal state CANCELLED for COMPLETED. The same holds for the
    runner's FAILED and RUNNING writes. *)
Theorem cancelled_job_overwritten_by_runner (store : JobStore) (jid : string)
    (row : JobRow) (now : nat) (st : AuditStatus) :
  dict_get store jid = Some row -> jstatus row = RUNNING ->
  fst (cancel_audit store jid now) = true /\
  job_status (run_ops store [Cancel jid] now) jid = Some CANCELLED /\
  job_status (run_ops store [Cancel jid; SetStatus jid st None] now) jid = Some st.
Proof.
  intros Hg Hr.
  destruct (job_status_transitions store jid now) as [Hc _].
  destruct (Hc row Hg (or_intror Hr)) as [Ht Hs].
  split; [exact Ht|]. split; [exact Hs|].
  simpl. unfold job_status in Hs |- *.
  destruct (dict_get (snd (cancel_audit store jid now)) jid) as [row'|] eqn:Hg';
    [|discriminate].
  destruct (job_status_transitions (snd (cancel_audit store jid now)) jid (S now))
    as [_ [_ Hu]].
  exact (Hu row' st None Hg').
Qed.

(** Witness for C10: the audit runner marks job-1 RUNNING, the user
    cancels it, and the runner then records COMPLETED. *)
Lemma cancelled_job_overwritten_by_runner_witness :
  let store := update_status
                 [("job-1", {| jstatus := PENDING; started_at := None;
                               completed_at := None; error_message := None |})]
                 "job-1" RUNNING None 0 in
  fst (cancel_audit store "job-1" 1) = true /\
  job_status (run_ops store [Cancel "job-1"] 1) "job-1" = Some CANCELLED /\
  job_status (run_ops store [Cancel "job-1"; SetStatus "job-1" COMPLETED None] 1) "job-1"
    = Some COMPLETED.
Proof.
  intros store.
  apply (cancelled_job_overwritten_by_runner store "job-1"
           {| jstatus := RUNNING; started_at := Some 0%nat;
              completed_at := None; error_message := None |} 1 COMPLETED).
  - reflexivity.
  - reflexivity.
Defined.

(* ================================================================== *)
(** * Further properties of the code *)

Open Scope Q_scope.

(** The compliance score is always between 0 and 100, for any counts of passed and failed results. *)
Theorem compliance_score_bounds (p f : nat) :
  (0 <= score_of p f <= 100)%Q.
Proof.
  unfold score_of. destruct (Nat.ltb_spec 0 (p + f)) as [H|H]; [|apply round2_bounds; lra].
  apply round2_bounds.
  - apply round_double_nonneg.
  - unfold float_mul, int_truediv.
    set (r := inject_Z (Z.of_nat p) / inject_Z (Z.of_nat (p + f))).
    assert (Hr : 0 <= r <= 1).
    { assert (HT : 0 < inject_Z (Z.of_nat (p + f))) by (change 0 with (inject_Z 0); rewrite <- Zlt_Qlt; lia).
      subst r. split.
      - apply Qle_shift_div_l; [exact HT|]. rewrite Qmult_0_l. change 0 with (inject_Z 0).
        rewrite <- Zle_Qle. lia.
      - apply Qle_shift_div_r; [exact HT|]. rewrite Qmult_1_l. rewrite <- Zle_Qle. lia. }
    assert (H1 : round_double r <= 1).
    { change 1 with (inject_Z 1). apply round_double_le_int; [lra|exact (proj2 Hr)|reflexivity]. }
    pose proof (round_double_nonneg r).
    change 100 with (inject_Z 100) at 2. apply round_double_le_int; [|change (inject_Z 100) with 100; nra|reflexivity].
    apply Qmult_le_0_compat; lra.
Qed.

Close Scope Q_scope.

Lemma eqb_sym_neq (a b : string) : a <> b -> String.eqb b a = false.
Proof. intros H. apply String.eqb_neq. intros E. apply H. symmetry; exact E. Qed.

(** [update_status] keeps the set and order of job ids, leaves every other job untouched, and changes nothing when the job id is unknown. *)
Theorem update_status_frame (store : JobStore) (jid : string) st err now :
  map fst (update_status store jid st err now) = map fst store /\
  (forall j, j <> jid -> dict_get (update_status store jid st err now) j = dict_get store j) /\
  (dict_get store jid = None -> update_status store jid st err now = store).
Proof.
  induction store as [|[k row] rest IH]; simpl; [repeat split; auto|].
  destruct IH as (IH1 & IH2 & IH3).
  destruct (String.eqb_spec k jid) as [->|Hne]; simpl.
  - repeat split.
    + intros j Hj. rewrite (eqb_sym_neq _ _ (fun E => Hj (eq_sym E))). reflexivity.
    + rewrite String.eqb_refl. discriminate.
  - repeat split.
    + rewrite IH1. reflexivity.
    + intros j Hj. destruct (String.eqb j k); [reflexivity|]. apply IH2; exact Hj.
    + rewrite (eqb_sym_neq _ _ Hne). intros H. rewrite IH3 by exact H. reflexivity.
Qed.

Lemma update_status_frame_witness :
  let store := [("job-1", {| jstatus := RUNNING; started_at := Some 0%nat; completed_at := None; error_message := None |});
                ("job-2", {| jstatus := PENDING; started_at := None; completed_at := None; error_message := None |})] in
  "job-2" <> "job-1" /\
  dict_get (update_status store "job-1" COMPLETED None 5%nat) "job-2" = dict_get store "job-2".
Proof.
  intros store. split; [discriminate|].
  apply (proj1 (proj2 (update_status_frame store "job-1" COMPLETED None 5%nat)) "job-2"). discriminate.
Defined.

(** A refused cancellation changes nothing; an accepted one leaves the job CANCELLED, and cancelling it again is refused without any change. *)
Theorem cancel_audit_once (store : JobStore) (jid : string) (now now' : nat) :
  (fst (cancel_audit store jid now) = false -> snd (cancel_audit store jid now) = store) /\
  (fst (cancel_audit store jid now) = true ->
     job_status (snd (cancel_audit store jid now)) jid = Some CANCELLED /\
     cancel_audit (snd (cancel_audit store jid now)) jid now' = (false, snd (cancel_audit store jid now))).
Proof.
  unfold cancel_audit, job_status.
  destruct (dict_get store jid) as [row|] eqn:Hg; simpl; [|split; [reflexivity|discriminate]].
  destruct (jstatus row) eqn:Hs; simpl; try (split; [reflexivity|discriminate]);
    rewrite ?dict_get_update_status, ?Hg; simpl; (split; [discriminate|]); auto.
Qed.

Lemma cancel_audit_once_witness :
  let store := [("job-1", {| jstatus := RUNNING; started_at := Some 0%nat; completed_at := None; error_message := None |})] in
  fst (cancel_audit store "job-1" 3%nat) = true /\
  cancel_audit (snd (cancel_audit store "job-1" 3%nat)) "job-1" 4%nat
  = (false, snd (cancel_audit store "job-1" 3%nat)).
Proof.
  intros store. split; [reflexivity|].
  apply (proj2 (cancel_audit_once store "job-1" 3%nat 4%nat)). reflexivity.
Defined.

Lemma dict_get_dict_set_same {V} (d : dict V) (k : string) (v : V) :
  dict_get (dict_set d k v) k = Some v.
Proof.
  induction d as [|[k' v'] r IH]; simpl.
  - rewrite String.eqb_refl. reflexivity.
  - destruct (String.eqb_spec k k') as [->|Hne]; simpl.
    + rewrite String.eqb_refl. reflexivity.
    + rewrite (proj2 (String.eqb_neq k k') Hne). exact IH.
Qed.

Lemma dict_get_dict_set_other {V} (d : dict V) (k j : string) (v : V) :
  j <> k -> dict_get (dict_set d k v) j = dict_get d j.
Proof.
  intros Hjk.
  induction d as [|[k' v'] r IH]; simpl.
  - rewrite (proj2 (String.eqb_neq j k) Hjk). reflexivity.
  - destruct (String.eqb_spec k k') as [->|Hne]; simpl.
    + rewrite (proj2 (String.eqb_neq j k') Hjk). reflexivity.
    + destruct (String.eqb j k'); [reflexivity|exact IH].
Qed.

(** [_get_xccdf_rules] caches only non-empty rule lists, touches no other benchmark entry, and once a benchmark is cached answers from the cache whatever indexer is given. *)
Theorem xccdf_rules_cache_stable indexer indexer' (cache : XccdfCache) (bid : string) :
  let '(rules, cache') := _get_xccdf_rules indexer cache bid in
  (nonempty rules = false -> cache' = cache) /\
  (forall b, b <> bid -> dict_get cache' b = dict_get cache b) /\
  (nonempty rules = true -> _get_xccdf_rules indexer' cache' bid = (rules, cache')).
Proof.
  unfold _get_xccdf_rules.
  destruct (dict_get cache bid) as [rules|] eqn:Hc.
  - repeat split; auto. intros _. rewrite Hc. reflexivity.
  - destruct indexer as [get_rules|]; [|repeat split; auto; intros H; discriminate H].
    destruct (nonempty (get_rules bid)) eqn:Hn.
    + repeat split.
      * intros H; congruence.
      * intros b Hb. apply dict_get_dict_set_other; exact Hb.
      * intros _. rewrite dict_get_dict_set_same. reflexivity.
    + repeat split; auto; intros H; congruence.
Qed.


Lemma xccdf_rules_cache_stable_witness :
  let '(rules, cache') := _get_xccdf_rules (Some (fun _ => [sample_xccdf_rule])) [] "RHEL_9_STIG" in
  _get_xccdf_rules None cache' "RHEL_9_STIG" = (rules, cache').
Proof.
  pose proof (xccdf_rules_cache_stable (Some (fun _ => [sample_xccdf_rule])) None [] "RHEL_9_STIG") as H.
  simpl in H |- *. destruct H as (_ & _ & H). apply H. reflexivity.
Defined.


Lemma py_int_str_raise (s : string) e : py_int (PStr s) = Raise e -> exists m, e = ValueError m.
Proof. simpl. apply py_int_parse_raise. Qed.

Lemma get_not_none_not_PNone (d : dict PyVal) k v : get_not_none d k = Some v -> v <> PNone.
Proof. unfold get_not_none. destruct (dict_get d k) as [[]|]; congruence. Qed.

Lemma py_int_raise_inv v e :
  py_int v = Raise e -> v <> PNone -> (exists m, e = ValueError m) \/ exists l, v = PList l.
Proof.
  intros H Hn. destruct v as [| b | s | l].
  - exfalso; apply Hn; reflexivity.
  - discriminate.
  - left. exact (py_int_str_raise s e H).
  - right. eauto.
Qed.

(** A check body raises only in two places: a setting check whose setting
    holds a list value ([int] of a list), and a pattern check whose
    regular expression raises something other than [re.error]. *)
Lemma run_check_body_raise_inv re_search (check : ConfigCheckRule.t) (config : ParsedConfig) e :
  run_check_body re_search check config = Raise e ->
  (ConfigCheckRule.check_type check = "setting" /\
   exists key l, ConfigCheckRule.check_key check = Some key /\
                 get_not_none (settings config) key = Some (PList l)) \/
  (exists pat, ConfigCheckRule.pattern check = Some pat /\
               re_search pat true (raw_content config) = ReRaise e).
Proof.
  unfold run_check_body. cbv zeta.
  destruct (String.eqb_spec (ConfigCheckRule.check_type check) "setting") as [Hs|Hs].
  - intros H. left. split; [exact Hs|]. revert H. unfold _check_setting.
    destruct (ConfigCheckRule.check_key check) as [key|]; [|discriminate].
    destruct (String.eqb key ""); [discriminate|].
    destruct (get_not_none (settings config) key) as [v|] eqn:Hv; [|discriminate].
    destruct (ConfigCheckRule.expected_value check) as [exp|]; [|discriminate].
    destruct (String.eqb exp ""); [discriminate|].
    intros H.
    repeat match type of H with
    | context [match ?x with _ => _ end] => let E := fresh "E" in destruct x eqn:E
    end; try discriminate;
    match goal with
    | E : py_int (PStr exp) = Raise ?e0 |- _ =>
        destruct (py_int_str_raise _ _ E) as [m Hm]; discriminate Hm
    | E : py_int v = Raise ?e0 |- _ =>
        destruct (py_int_raise_inv _ _ E (get_not_none_not_PNone _ _ _ Hv)) as [[m Hm]|[l ->]];
          [discriminate Hm|eauto]
    end.
  - destruct (String.eqb_spec (ConfigCheckRule.check_type check) "pattern") as [Hp|Hp].
    + intros H. right. revert H. unfold _check_pattern.
      destruct (ConfigCheckRule.pattern check) as [pat|]; [|discriminate].
      destruct (String.eqb pat ""); [discriminate|].
      destruct (re_search pat true (raw_content config)) eqn:Er;
        [destruct (ConfigCheckRule.negate check); discriminate
        |destruct (ConfigCheckRule.negate check); discriminate
        |discriminate
        |intros H; injection H as <-; eauto].
    + repeat match goal with
      | |- context [if String.eqb ?a ?b then _ else _] => destruct (String.eqb a b)
      end; unfold _check_ssh, _check_ntp, _check_syslog, _check_snmp,
           _check_aaa, _check_banner, _check_dns; intros H;
      repeat match type of H with
      | context [match ?x with _ => _ end] => destruct x
      end; discriminate.
Qed.


Lemma dict_set_values {V} (P : V -> Prop) (d : dict V) k v :
  Forall (fun kv => P (snd kv)) d -> P v -> Forall (fun kv => P (snd kv)) (dict_set d k v).
Proof.
  intros Hd Hv. induction Hd as [|[k' v'] r Hkv Hr IH]; simpl.
  - constructor; [exact Hv|constructor].
  - destruct (String.eqb k k'); constructor; auto.
Qed.

Lemma redhat_line_settings_str (config : ParsedConfig) (line : string) :
  Forall (fun kv => is_pstr (snd kv)) (settings config) ->
  Forall (fun kv => is_pstr (snd kv)) (settings (redhat_line config line)).
Proof.
  intros H. unfold redhat_line.
  destruct (String.eqb (strip line) "" || String.prefix "#" (strip line)); [exact H|].
  destruct (contains "=" (strip line)).
  - destruct (partition_eq (strip line)) as [k v]. simpl.
    assert (H1 : Forall (fun kv => is_pstr (snd kv))
                   (dict_set (settings config) (strip k)
                      (PStr (strip_char single_quote (strip_char dquote (strip v))))))
      by (apply dict_set_values; [exact H|eexists; reflexivity]).
    destruct (String.eqb (lower (strip k)) "hostname"); [exact H1|].
    destruct (String.eqb (strip k) "SELINUX"); [exact H1|].
    destruct (String.eqb (strip k) "PASS_MAX_DAYS");
      [simpl; apply dict_set_values; [exact H1|eexists; reflexivity]|].
    destruct (String.eqb (strip k) "PASS_MIN_DAYS");
      [simpl; apply dict_set_values; [exact H1|eexists; reflexivity]|].
    destruct (String.eqb (strip k) "PASS_MIN_LEN");
      [simpl; apply dict_set_values; [exact H1|eexists; reflexivity]|].
    exact H1.
  - destruct (has_space_char (strip line)); [|exact H].
    destruct (split_first_ws (strip line)) as [k v]. simpl.
    assert (H1 : Forall (fun kv => is_pstr (snd kv))
                   (dict_set (settings config) k (PStr (strip v))))
      by (apply dict_set_values; [exact H|eexists; reflexivity]).
    destruct (String.eqb k "PermitRootLogin" || (String.eqb k "PasswordAuthentication"
              || (String.eqb k "Protocol" || false))); exact H1.
Qed.

Lemma redhat_parse_settings_str (content : string) :
  Forall (fun kv => is_pstr (snd kv)) (settings (redhat_parse content)).
Proof.
  unfold redhat_parse.
  assert (Hgen : forall lines c, Forall (fun kv => is_pstr (snd kv)) (settings c) ->
            Forall (fun kv => is_pstr (snd kv)) (settings (fold_left redhat_line lines c))).
  { induction lines as [|l ls IH]; intros c Hc; simpl; [exact Hc|].
    apply IH. apply redhat_line_settings_str. exact Hc. }
  apply Hgen. constructor.
Qed.

Lemma dict_get_In {V} (d : dict V) k v : dict_get d k = Some v -> In (k, v) d.
Proof.
  induction d as [|[k' v'] r IH]; simpl; [discriminate|].
  destruct (String.eqb_spec k k') as [->|_]; intros H.
  - inversion H. left. reflexivity.
  - right. apply IH. exact H.
Qed.

(** No check of a built-in platform table raises on a configuration
    produced by the Red Hat parser, given that the regular-expression
    engine raises nothing but [re.error] on the check's pattern (the
    table patterns are valid expressions without repeat counts). *)
Theorem builtin_checks_never_raise_on_redhat re_search (p : Platform)
    (checks : list ConfigCheckRule.t) (check : ConfigCheckRule.t) (content : string) :
  PLATFORM_CHECKS p = Some checks -> In check checks ->
  (forall pat fl s e, ConfigCheckRule.pattern check = Some pat -> re_search pat fl s <> ReRaise e) ->
  exists r, run_check_body re_search check (redhat_parse content) = Ok r.
Proof.
  intros _ _ Hre.
  destruct (run_check_body re_search check (redhat_parse content)) as [r|e] eqn:H; [eauto|].
  destruct (run_check_body_raise_inv _ _ _ _ H) as [(_ & key & l & _ & Hk)|(pat & Hpat & Hr)].
  - unfold get_not_none in Hk.
    destruct (dict_get (settings (redhat_parse content)) key) as [v|] eqn:Hg; [|discriminate].
    assert (v = PList l) by (destruct v; congruence). subst v.
    apply dict_get_In in Hg.
    pose proof (redhat_parse_settings_str content) as HF.
    rewrite Forall_forall in HF. destruct (HF _ Hg) as [s Hs]. discriminate Hs.
  - exfalso. exact (Hre _ _ _ _ Hpat Hr).
Qed.

Lemma builtin_checks_never_raise_on_redhat_witness :
  exists r, run_check_body (fun _ _ _ => ReNoMatch)
              (ccr "RHEL-09-411010" "V-257780"
                   "RHEL 9 must set password maximum lifetime"
                   MEDIUM "setting" (Some "PASS_MAX_DAYS") (Some "60") None false
                   "PASS_MAX_DAYS must be 60 or less")
              (redhat_parse "PASS_MAX_DAYS   90") = Ok r.
Proof.
  apply (builtin_checks_never_raise_on_redhat (fun _ _ _ => ReNoMatch) REDHAT REDHAT_CHECKS).
  - reflexivity.
  - simpl. tauto.
  - intros pat fl s e _. discriminate.
Defined.

(** For a non-Juniper platform without a parser, or whose parser raises, [analyze_config] returns the single ERROR result CONFIG-PARSE-ERROR of severity high, with the cache unchanged. *)
Theorem analyze_config_parse_failure re_search indexer other_parse analyze_juniper_config
    (content : string) (p : Platform) stig_id (jid : string) benchmark_id db_rules cache :
  is_juniper p = false ->
  (get_parser other_parse p = None \/
   exists parse e, get_parser other_parse p = Some parse /\ parse content = Raise e) ->
  exists r,
    analyze_config re_search indexer other_parse analyze_juniper_config
      content p stig_id jid benchmark_id db_rules cache = (Ok [r], cache) /\
    rule_id r = "CONFIG-PARSE-ERROR" /\ status r = ERROR /\ severity r = Some HIGH /\
    job_id r = jid.
Proof.
  intros Hj Hp. unfold analyze_config. rewrite Hj.
  destruct Hp as [Hn | (parse & e & Hs & He)].
  - rewrite Hn. eexists; split; [reflexivity|repeat split].
  - rewrite Hs, He. eexists; split; [reflexivity|repeat split].
Qed.

Lemma analyze_config_parse_failure_witness :
  is_juniper ARISTA_EOS = false /\
  exists r,
    analyze_config (fun _ _ _ => ReNoMatch) None
      (fun _ _ => Raise (ValueError "unexpected token")) (fun _ _ _ => Ok [])
      "hostname sw1" ARISTA_EOS None "job-1" None None [] = (Ok [r], []) /\
    rule_id r = "CONFIG-PARSE-ERROR" /\ status r = ERROR /\ severity r = Some HIGH /\
    job_id r = "job-1".
Proof.
  split; [reflexivity|].
  apply analyze_config_parse_failure; [reflexivity|].
  right. do 2 eexists. split; reflexivity.
Defined.

(** For a Juniper platform whose analyzer raises, [analyze_config] returns the single ERROR result CONFIG-ANALYSIS-ERROR of severity high. *)
Theorem juniper_analysis_failure re_search indexer other_parse analyze_juniper_config
    (content : string) (p : Platform) stig_id (jid : string) benchmark_id db_rules cache :
  is_juniper p = true ->
  (forall rules, exists e, analyze_juniper_config content rules jid = Raise e) ->
  exists r,
    fst (analyze_config re_search indexer other_parse analyze_juniper_config
           content p stig_id jid benchmark_id db_rules cache) = Ok [r] /\
    rule_id r = "CONFIG-ANALYSIS-ERROR" /\ status r = ERROR /\ severity r = Some HIGH /\
    job_id r = jid.
Proof.
  intros Hj Ha. unfold analyze_config. rewrite Hj. unfold _analyze_juniper_config.
  destruct (juniper_rules_to_check indexer p cache benchmark_id stig_id db_rules) as [rules c'].
  destruct (Ha rules) as [e He]. rewrite He.
  eexists; split; [reflexivity|repeat split].
Qed.

Lemma juniper_analysis_failure_witness :
  is_juniper JUNIPER_SRX = true /\
  exists r,
    fst (analyze_config (fun _ _ _ => ReNoMatch) None (fun _ _ => Raise (ValueError "x"))
           (fun _ _ _ => Raise (OtherError "analyzer crashed"))
           "set system host-name fw1" JUNIPER_SRX None "job-1" None None []) = Ok [r] /\
    rule_id r = "CONFIG-ANALYSIS-ERROR" /\ status r = ERROR /\ severity r = Some HIGH /\
    job_id r = "job-1".
Proof.
  split; [reflexivity|].
  apply juniper_analysis_failure; [reflexivity|].
  intros rules. eexists. reflexivity.
Defined.

(** Every rule from [_extract_rules] has legacy ids that start with SV- or V- and differ from its vuln_id, CCIs that start with CCI-, and an empty or SRG- group id. *)
Theorem extract_rules_ident_invariants (root : Element) :
  Forall (fun r =>
    ~ In (XCCDFRule.vuln_id r) (XCCDFRule.legacy_ids r) /\
    Forall (fun t => String.prefix "SV-" t = true \/ String.prefix "V-" t = true)
           (XCCDFRule.legacy_ids r) /\
    Forall (fun c => String.prefix "CCI-" c = true) (XCCDFRule.ccis r) /\
    (XCCDFRule.group_id r = "" \/ String.prefix "SRG-" (XCCDFRule.group_id r) = true))
  (_extract_rules root).
Proof.
  unfold _extract_rules. rewrite Forall_forall. intros r Hin.
  apply in_flat_map in Hin. destruct Hin as (group & _ & Hr).
  destruct (find_child (xccdf "Rule") group) as [rule_elem|]; [|destruct Hr].
  destruct Hr as [<-|[]]. unfold rule_of_group; simpl.
  set (vid := el_get group "id" ""). set (ids := ident_texts rule_elem).
  split; [|split; [|split]].
  - intros H. apply filter_In in H. destruct H as [_ H].
    rewrite String.eqb_refl in H. rewrite andb_false_r in H. discriminate.
  - rewrite Forall_forall. intros t Ht. apply filter_In in Ht. destruct Ht as [_ Ht].
    apply andb_prop in Ht. destruct Ht as [Ht _]. apply orb_prop in Ht. exact Ht.
  - rewrite Forall_forall. intros t Ht. apply filter_In in Ht. destruct Ht as [_ Ht]. exact Ht.
  - destruct (filter (String.prefix "SRG-") ids) as [|g gs] eqn:Hf; [left; reflexivity|].
    right. assert (Hg : In g (filter (String.prefix "SRG-") ids)) by (rewrite Hf; left; reflexivity).
    apply filter_In in Hg. destruct Hg as [_ Hg]. exact Hg.
Qed.

Lemma prefix_app_iff (a b : string) : String.prefix a b = true <-> exists c, b = a ++ c.
Proof.
  revert b. induction a as [|x xs IH]; intros b; simpl.
  - split; [intros _; exists b; reflexivity|intros _; destruct b; reflexivity].
  - destruct b as [|y ys].
    + split; [discriminate|intros [c Hc]; discriminate Hc].
    + simpl. destruct (ascii_dec x y) as [->|Hne].
      * rewrite IH. split; intros [c Hc]; exists c; [rewrite Hc; reflexivity|inversion Hc; reflexivity].
      * split; [discriminate|intros [c Hc]; inversion Hc; congruence].
Qed.

Lemma list_ascii_of_string_app (a b : string) :
  list_ascii_of_string (a ++ b) = (list_ascii_of_string a ++ list_ascii_of_string b)%list.
Proof. induction a as [|x xs IH]; simpl; [reflexivity|rewrite IH; reflexivity]. Qed.

Lemma string_of_list_ascii_app (l1 l2 : list ascii) :
  string_of_list_ascii (l1 ++ l2) = string_of_list_ascii l1 ++ string_of_list_ascii l2.
Proof. induction l1 as [|x xs IH]; simpl; [reflexivity|rewrite IH; reflexivity]. Qed.

Lemma rev_str_app (a b : string) : rev_str (a ++ b) = rev_str b ++ rev_str a.
Proof.
  unfold rev_str. rewrite list_ascii_of_string_app, rev_app_distr, string_of_list_ascii_app.
  reflexivity.
Qed.

Lemma rev_str_involutive (s : string) : rev_str (rev_str s) = s.
Proof.
  unfold rev_str. rewrite list_ascii_of_string_of_list_ascii, rev_involutive.
  apply string_of_list_ascii_of_string.
Qed.

Lemma endswith_iff (suffix s : string) : endswith suffix s = true <-> exists p, s = p ++ suffix.
Proof.
  unfold endswith. rewrite prefix_app_iff. split; intros [c Hc].
  - exists (rev_str c). rewrite <- (rev_str_involutive s), Hc, rev_str_app, rev_str_involutive.
    reflexivity.
  - exists (rev_str c). rewrite Hc, rev_str_app. reflexivity.
Qed.

Lemma contains_eq (sub s : string) :
  contains sub s = if String.prefix sub s then true
                   else match s with EmptyString => false | String _ r => contains sub r end.
Proof. destruct s; reflexivity. Qed.

Lemma contains_iff (sub s : string) : contains sub s = true <-> exists p q, s = p ++ sub ++ q.
Proof.
  induction s as [|c r IH]; rewrite contains_eq;
    destruct (String.prefix sub _) eqn:Hp.
  - split; [intros _|reflexivity]. apply prefix_app_iff in Hp. destruct Hp as [q Hq].
    exists "", q. exact Hq.
  - split; [discriminate|]. intros (p & q & Hpq).
    destruct p; [|discriminate]. simpl in Hpq.
    rewrite <- Hp. apply prefix_app_iff. exists q. exact Hpq.
  - split; [intros _|reflexivity]. apply prefix_app_iff in Hp. destruct Hp as [q Hq].
    exists "", q. exact Hq.
  - rewrite IH. split.
    + intros (p & q & Hpq). exists (String c p), q. rewrite Hpq. reflexivity.
    + intros (p & q & Hpq). destruct p as [|c' p'].
      * exfalso. simpl in Hpq. assert (String.prefix sub (String c r) = true) as Ht
          by (apply prefix_app_iff; exists q; exact Hpq). congruence.
      * inversion Hpq. exists p', q. reflexivity.
Qed.

Lemma append_nil_r (s : string) : s ++ "" = s.
Proof. induction s as [|x xs IH]; simpl; [reflexivity|rewrite IH; reflexivity]. Qed.

Lemma lower_app (a b : string) : lower (a ++ b) = lower a ++ lower b.
Proof. induction a as [|x xs IH]; simpl; [reflexivity|rewrite IH; reflexivity]. Qed.

Lemma endswith_contains (suffix s : string) : endswith suffix s = true -> contains suffix s = true.
Proof.
  rewrite endswith_iff, contains_iff. intros [p Hp]. exists p, "". rewrite Hp, append_nil_r. reflexivity.
Qed.

Lemma append_assoc (a b c : string) : a ++ b ++ c = (a ++ b) ++ c.
Proof. induction a as [|x xs IH]; simpl; [reflexivity|rewrite IH; reflexivity]. Qed.

Lemma endswith_xccdf_xml (sep : string) (l : string) :
  endswith (sep ++ "xccdf.xml") l = true ->
  contains "xccdf" l = true /\ endswith ".xml" l = true.
Proof.
  rewrite endswith_iff. intros [p Hp]. split.
  - apply contains_iff. exists (p ++ sep), ".xml". rewrite Hp, <- append_assoc. reflexivity.
  - apply endswith_iff. exists (p ++ sep ++ "xccdf"). rewrite Hp, <- !append_assoc. reflexivity.
Qed.

(** A name returned by [_find_xccdf_file] is in the archive, its lower-case form contains xccdf and ends in .xml, and no earlier name both contains xccdf in lower case and ends in .xml as written; None is returned only when no name does. *)
Theorem find_xccdf_file_spec (names : list string) :
  match _find_xccdf_file names with
  | Some n =>
    In n names /\ contains "xccdf" (lower n) = true /\ endswith ".xml" (lower n) = true /\
    exists pre post, names = (pre ++ n :: post)%list /\
      forall m, In m pre -> contains "xccdf" (lower m) && endswith ".xml" m = false
  | None => forall n, In n names -> contains "xccdf" (lower n) && endswith ".xml" n = false
  end.
Proof.
  unfold _find_xccdf_file.
  induction names as [|a l IH]; simpl; [intros n []|].
  destruct (endswith "-xccdf.xml" (lower a) || endswith "_xccdf.xml" (lower a)
            || contains "xccdf" (lower a) && endswith ".xml" a) eqn:Ha.
  - split; [left; reflexivity|].
    split; [|split; [|exists [], l; split; [reflexivity|intros m []]]];
    apply orb_prop in Ha; destruct Ha as [Ha|Ha]; [apply orb_prop in Ha; destruct Ha as [Ha|Ha]| | apply orb_prop in Ha; destruct Ha as [Ha|Ha]|];
    try (apply (endswith_xccdf_xml "-") in Ha; tauto);
    try (apply (endswith_xccdf_xml "_") in Ha; tauto);
    apply andb_prop in Ha; destruct Ha as [Ha1 Ha2]; [exact Ha1|].
    apply endswith_iff in Ha2. destruct Ha2 as [p ->]. rewrite lower_app.
    apply endswith_iff. exists (lower p). reflexivity.
  - apply orb_false_elim in Ha. destruct Ha as [_ Ha].
    destruct (find _ l) as [n|].
    + destruct IH as (H1 & H2 & H3 & pre & post & H4 & H5).
      split; [right; exact H1|]. split; [exact H2|]. split; [exact H3|].
      exists (a :: pre), post. split; [rewrite H4; reflexivity|].
      intros m [<-|Hm]; [exact Ha|exact (H5 m Hm)].
    + intros n [<-|Hn]; [exact Ha|exact (IH n Hn)].
Qed.



Lemma lstrip_starts (s : string) : lstrip s = "" \/ starts_nonspace (lstrip s).
Proof.
  induction s as [|c r IH]; simpl; [left; reflexivity|].
  destruct (is_py_space c) eqn:Hc; [exact IH|right; exists c, r; split; [reflexivity|exact Hc]].
Qed.

Lemma lstrip_app_last (s : string) (d : ascii) :
  is_py_space d = false -> lstrip (s ++ String d "") = lstrip s ++ String d "".
Proof.
  intros Hd. induction s as [|c r IH]; simpl.
  - rewrite Hd. reflexivity.
  - destruct (is_py_space c); [exact IH|reflexivity].
Qed.

Lemma string_of_list_ascii_inj (l1 l2 : list ascii) :
  string_of_list_ascii l1 = string_of_list_ascii l2 -> l1 = l2.
Proof.
  intros H. rewrite <- (list_ascii_of_string_of_list_ascii l1), H.
  apply list_ascii_of_string_of_list_ascii.
Qed.

Lemma strip_shape (s : string) :
  strip s = "" \/ (starts_nonspace (strip s) /\ ends_nonspace (strip s)).
Proof.
  unfold strip, rstrip.
  destruct (lstrip_starts s) as [E|(c & r & E & Hc)]; rewrite E; [left; reflexivity|].
  simpl. rewrite string_of_list_ascii_app. simpl. rewrite lstrip_app_last by exact Hc.
  rewrite list_ascii_of_string_app, rev_app_distr. simpl.
  right. split; [exists c; eexists; split; [reflexivity|exact Hc]|].
  set (u := lstrip (string_of_list_ascii (rev (list_ascii_of_string r)))).
  destruct (lstrip_starts (string_of_list_ascii (rev (list_ascii_of_string r)))) as [Eu|(d & t & Eu & Hd)];
    fold u in Eu.
  - rewrite Eu. simpl. exists "", c. split; [reflexivity|exact Hc].
  - rewrite Eu. simpl. rewrite string_of_list_ascii_app. simpl.
    exists (String c (string_of_list_ascii (rev (list_ascii_of_string t)))), d.
    split; [reflexivity|exact Hd].
Qed.

(** [str.split()] gives no word exactly for a string of whitespace. *)
Lemma split_ws_aux_nil (s cur : string) :
  split_ws_aux s cur = [] -> cur = "" /\ Forall (fun c => is_py_space c = true) (list_ascii_of_string s).
Proof.
  revert cur. induction s as [|c r IH]; intros cur; simpl.
  - destruct (String.eqb_spec cur ""); [intros _; split; [assumption|constructor]|discriminate].
  - destruct (is_py_space c) eqn:Hc.
    + destruct (String.eqb_spec cur ""); [|discriminate].
      simpl. intros H. destruct (IH "" H) as [_ HF]. split; [assumption|constructor; assumption].
    + intros H. destruct (IH _ H) as [E _]. discriminate E.
Qed.

Lemma last_char_of_spaces (pre rest p : string) (d : ascii) :
  (exists q, pre = q ++ " ") ->
  Forall (fun c => is_py_space c = true) (list_ascii_of_string rest) ->
  pre ++ rest = p ++ String d "" -> is_py_space d = true.
Proof.
  intros [q ->] Hr E.
  apply (f_equal list_ascii_of_string) in E.
  rewrite !list_ascii_of_string_app in E. simpl in E.
  destruct (list_ascii_of_string rest) as [|x l] eqn:Hl using rev_ind.
  - rewrite !app_nil_r in E. apply app_inj_tail in E. destruct E as [_ <-]. reflexivity.
  - rewrite app_assoc in E. apply app_inj_tail in E. destruct E as [_ <-].
    rewrite Forall_forall in Hr. apply Hr. apply in_or_app. right. left. reflexivity.
Qed.

Lemma drop_prefix_app (pre rest : string) : drop_prefix pre (pre ++ rest) = rest.
Proof. induction pre as [|c p IH]; [destruct rest; reflexivity|exact IH]. Qed.

(** After a prefix that ends in a space, a stripped line still has a word. *)
Lemma first_word_after_prefix (pre s : string) :
  (exists q, pre = q ++ " ") -> String.prefix pre s = true -> ends_nonspace s ->
  exists w, first_word (drop_prefix pre s) = Ok w.
Proof.
  intros Hq Hp (p & d & Es & Hd).
  apply prefix_app_iff in Hp. destruct Hp as [rest ->]. rewrite drop_prefix_app.
  unfold first_word, split_ws.
  destruct (split_ws_aux rest "") as [|w ws] eqn:E; [|eauto].
  exfalso. apply split_ws_aux_nil in E. destruct E as [_ E].
  pose proof (last_char_of_spaces _ _ _ _ Hq E Es). congruence.
Qed.

Lemma string_length_app (a b : string) :
  String.length (a ++ b) = (String.length a + String.length b)%nat.
Proof. induction a as [|c r IH]; simpl; [reflexivity|rewrite IH; reflexivity]. Qed.

Lemma slice_from_app (pre rest : string) :
  slice_from (String.length pre) (pre ++ rest) = rest.
Proof.
  unfold slice_from. rewrite string_length_app.
  replace (String.length pre + String.length rest - String.length pre)%nat with (String.length rest) by lia.
  induction pre as [|c p IH]; simpl; [|exact IH].
  induction rest as [|c r IH]; simpl; [reflexivity|rewrite IH; reflexivity].
Qed.


Lemma ntp_step (s : string) (C : ParsedConfig) :
  ends_nonspace s ->
  exists C', (if String.prefix "ntp server " s then
                server <- first_word (drop_prefix "ntp server " s) ;;
                Ok (with_ntp_servers C (ntp_servers C ++ [server])%list)
              else Ok C) = Ok C' /\
             snmp_config C' = snmp_config C /\ interfaces C' = interfaces C.
Proof.
  intros He. destruct (String.prefix "ntp server " s) eqn:Hp; [|eauto].
  destruct (first_word_after_prefix "ntp server " s) as [w Hw];
    [exists "ntp server"; reflexivity|exact Hp|exact He|].
  rewrite Hw. eexists; split; [reflexivity|split; reflexivity].
Qed.

Lemma logging_step (s : string) (C : ParsedConfig) :
  ends_nonspace s ->
  exists C', (if String.prefix "logging host " s then
                server <- first_word (drop_prefix "logging host " s) ;;
                Ok (with_syslog_servers C (syslog_servers C ++ [server])%list)
              else Ok C) = Ok C' /\
             snmp_config C' = snmp_config C /\ interfaces C' = interfaces C.
Proof.
  intros He. destruct (String.prefix "logging host " s) eqn:Hp; [|eauto].
  destruct (first_word_after_prefix "logging host " s) as [w Hw];
    [exists "logging host"; reflexivity|exact Hp|exact He|].
  rewrite Hw. eexists; split; [reflexivity|split; reflexivity].
Qed.

Lemma setdefault_append_lists (d : dict PyVal) k v :
  snmp_lists d -> exists d', setdefault_append d k v = Ok d' /\ snmp_lists d'.
Proof.
  intros Hd. unfold setdefault_append.
  destruct (dict_get d k) as [x|] eqn:Hg.
  - assert (Hx : exists l, x = PList l).
    { apply dict_get_In in Hg. unfold snmp_lists in Hd. rewrite Forall_forall in Hd.
      exact (Hd _ Hg). }
    destruct Hx as [l ->]. eexists; split; [reflexivity|].
    apply (dict_set_values (fun v => exists l, v = PList l)); [exact Hd|eauto].
  - eexists; split; [reflexivity|].
    apply (dict_set_values (fun v => exists l, v = PList l)); [exact Hd|eauto].
Qed.

Lemma snmp_step (s : string) (C : ParsedConfig) :
  snmp_lists (snmp_config C) ->
  exists C', (if String.prefix "snmp-server " s then
                config <- (if contains "community" s then
                             match split_ws s with
                             | _ :: _ :: p2 :: _ =>
                               snmp <- setdefault_append (snmp_config C) "communities" (PStr p2) ;;
                               Ok (with_snmp_config C snmp)
                             | _ => Ok C
                             end
                           else Ok C) ;;
                if contains "host" s then
                  snmp <- setdefault_append (snmp_config config) "hosts" (PStr s) ;;
                  Ok (with_snmp_config config snmp)
                else Ok config
              else Ok C) = Ok C' /\
             snmp_lists (snmp_config C') /\ interfaces C' = interfaces C.
Proof.
  intros HC. destruct (String.prefix "snmp-server " s); [|eauto].
  assert (H1 : exists C1, (if contains "community" s then
                             match split_ws s with
                             | _ :: _ :: p2 :: _ =>
                               snmp <- setdefault_append (snmp_config C) "communities" (PStr p2) ;;
                               Ok (with_snmp_config C snmp)
                             | _ => Ok C
                             end
                           else Ok C) = Ok C1 /\ snmp_lists (snmp_config C1) /\ interfaces C1 = interfaces C).
  { destruct (contains "community" s); [|eauto].
    destruct (split_ws s) as [|w0 [|w1 [|p2 ws]]]; eauto.
    destruct (setdefault_append_lists (snmp_config C) "communities" (PStr p2) HC) as (d & Ed & Hd).
    rewrite Ed. eexists; split; [reflexivity|split; [exact Hd|reflexivity]]. }
  destruct H1 as (C1 & E1 & H1 & I1). rewrite E1. simpl.
  destruct (contains "host" s); [|eauto].
  destruct (setdefault_append_lists (snmp_config C1) "hosts" (PStr s) H1) as (d & Ed & Hd).
  rewrite Ed. eexists; split; [reflexivity|split; [exact Hd|exact I1]].
Qed.

Lemma service_step (s : string) (C : ParsedConfig) :
  ends_nonspace s ->
  exists C', (if String.prefix "no " s then
                service <- (if (3 <? String.length s)%nat
                            then first_word (slice_from 3 s) else Ok "") ;;
                Ok (with_services C (dict_set (services C) service (PBool false)))
              else if String.prefix "service " s then
                service <- first_word (drop_prefix "service " s) ;;
                Ok (with_services C (dict_set (services C) service (PBool true)))
              else Ok C) = Ok C' /\
             snmp_config C' = snmp_config C /\ interfaces C' = interfaces C.
Proof.
  intros He. destruct (String.prefix "no " s) eqn:Hno.
  - destruct (3 <? String.length s)%nat; [|eexists; split; [reflexivity|split; reflexivity]].
    destruct (first_word_after_prefix "no " s) as [w Hw];
      [exists "no"; reflexivity|exact Hno|exact He|].
    apply prefix_app_iff in Hno. destruct Hno as [rest Hs].
    rewrite Hs, drop_prefix_app in Hw. rewrite Hs.
    change 3%nat with (String.length "no "). rewrite slice_from_app, Hw.
    eexists; split; [reflexivity|split; reflexivity].
  - destruct (String.prefix "service " s) eqn:Hsv; [|eauto].
    destruct (first_word_after_prefix "service " s) as [w Hw];
      [exists "service"; reflexivity|exact Hsv|exact He|].
    rewrite Hw. eexists; split; [reflexivity|split; reflexivity].
Qed.


Lemma starts_nonspace_prefix (s : string) :
  starts_nonspace s ->
  String.prefix " " s = false /\ String.prefix (String tab "") s = false.
Proof.
  intros (c & r & -> & Hc). cbn -[ascii_dec tab].
  split; match goal with |- context [ascii_dec ?a ?b] =>
    destruct (ascii_dec a b) as [E|_]; [subst; discriminate|reflexivity] end.
Qed.

Lemma bind_Ok {A B} (a : A) (k : A -> Result B) : bind (Ok a) k = k a.
Proof. reflexivity. Qed.

Ltac frame :=
  repeat match goal with
         | |- context [if ?b then _ else _] => destruct b
         | |- context [match split_ws ?x with _ => _ end] => destruct (split_ws x) as [|? [|? ?]]
         end; cbn.

Lemma arista_line_inv (st : AristaState) (line : string) :
  arista_inv st -> exists st', arista_line st line = Ok st' /\ arista_inv st'.
Proof.
  destruct st as [[c sec] cur]. intros (Hs & Hi & Hc).
  unfold arista_line. cbv beta iota zeta.
  destruct (String.eqb (strip line) "" || String.prefix "!" (strip line)) eqn:Hskip.
  { eexists; split; [reflexivity|]. repeat split; assumption. }
  apply orb_false_iff in Hskip. destruct Hskip as [Hne _].
  destruct (strip_shape line) as [He|[Hst Hen]];
    [rewrite He in Hne; discriminate|].
  set (s := strip line) in *.
  destruct (String.prefix "interface " s).
  { eexists; split; [reflexivity|].
    split; [|split]; [..|intros n l E; inversion E; reflexivity];
      repeat match goal with |- context [if ?b then _ else _] => destruct b end;
      assumption. }
  destruct (starts_nonspace_prefix s Hst) as [Hsp1 Hsp2].
  destruct cur as [[n l]|];
    [destruct (opt_str_is sec "interface");
     [rewrite Hsp1, Hsp2; cbn [negb andb]|]|]; cbv beta iota.
  all: try (specialize (Hc _ _ eq_refl); subst l).
  all: lazymatch goal with
       | |- context [bind (if String.prefix "ntp server " ?x then _ else Ok ?C) _] =>
         assert (HA : snmp_lists (snmp_config C) /\
                      Forall (fun i => dict_get i "config" = Some (PList [])) (interfaces C))
           by (frame; (split; [assumption|]);
               first [assumption
                     | apply Forall_app; split; [assumption|constructor; [reflexivity|constructor]]]);
         destruct (ntp_step x C Hen) as (C1 & E1 & S1 & I1); rewrite E1, bind_Ok;
         rewrite <- S1, <- I1 in HA; clear E1 S1 I1
       end.
  all: lazymatch goal with
       | |- context [bind (if String.prefix "logging host " ?x then _ else Ok ?C) _] =>
         assert (HB : snmp_lists (snmp_config C) /\
                      Forall (fun i => dict_get i "config" = Some (PList [])) (interfaces C))
           by (frame; exact HA);
         destruct (logging_step x C Hen) as (C2 & E2 & S2 & I2); rewrite E2, bind_Ok;
         rewrite <- S2, <- I2 in HB; clear E2 S2 I2
       end.
  all: lazymatch goal with
       | |- context [bind (if String.prefix "snmp-server " ?x then _ else Ok ?C) _] =>
         destruct (snmp_step x C (proj1 HB)) as (C3 & E3 & S3 & I3); rewrite E3, bind_Ok;
         rewrite <- I3 in HB; clear E3
       end.
  all: lazymatch goal with
       | |- context [bind (if String.prefix "no " ?x then _ else if String.prefix "service " ?x then _ else Ok ?C) _] =>
         assert (HD : snmp_lists (snmp_config C) /\
                      Forall (fun i => dict_get i "config" = Some (PList [])) (interfaces C))
           by (frame; (split; [exact S3|exact (proj2 HB)]));
         destruct (service_step x C Hen) as (C4 & E4 & S4 & I4); rewrite E4, bind_Ok;
         rewrite <- S4, <- I4 in HD; clear E4 S4 I4
       end.
  all: eexists; split; [reflexivity|]; cbn [arista_inv];
    (split; [exact (proj1 HD)|split; [exact (proj2 HD)|]]);
    intros ? ? E; inversion E; reflexivity.
Qed.

Lemma arista_inv_init (content : string) :
  arista_inv (new_config ARISTA_EOS content, None, None).
Proof. split; [constructor|split; [constructor|discriminate]]. Qed.

Lemma arista_lines_inv (st : AristaState) (lines : list string) :
  arista_inv st -> exists st', arista_lines st lines = Ok st' /\ arista_inv st'.
Proof.
  revert st. induction lines as [|line rest IH]; intros st Hst; simpl; [eauto|].
  destruct (arista_line_inv st line Hst) as (st1 & E1 & H1). rewrite E1, bind_Ok.
  exact (IH st1 H1).
Qed.

Lemma arista_parse_inv (content : string) :
  exists cfg, arista_parse content = Ok cfg /\
    Forall (fun i => dict_get i "config" = Some (PList [])) (interfaces cfg) /\
    snmp_lists (snmp_config cfg).
Proof.
  unfold arista_parse.
  destruct (arista_lines_inv _ (split_on (ascii_of_nat 10) content) (arista_inv_init content))
    as ([[c sec] cur] & E & Hs & Hi & Hc).
  rewrite E, bind_Ok. cbv beta iota.
  destruct cur as [[n l]|]; eexists; (split; [reflexivity|]); cbn; (split; [|exact Hs]);
    [|exact Hi].
  rewrite (Hc n l eq_refl). apply Forall_app. split; [exact Hi|constructor; [reflexivity|constructor]].
Qed.


Lemma split_on_nonnil (sep : ascii) (s : string) : split_on sep s <> [].
Proof.
  induction s as [|c r IH]; simpl; [discriminate|].
  destruct (Ascii.eqb c sep); [discriminate|]. destruct (split_on sep r); discriminate.
Qed.

Lemma split_on_app_nosep (sep : ascii) (a r : string) :
  (forall c, In c (list_ascii_of_string a) -> c <> sep) ->
  split_on sep (a ++ r) =
  match split_on sep r with w :: ws => (a ++ w) :: ws | [] => [a] end.
Proof.
  intros Ha. induction a as [|c a' IH]; simpl.
  - pose proof (split_on_nonnil sep r). destruct (split_on sep r); [congruence|reflexivity].
  - destruct (Ascii.eqb_spec c sep) as [E|_]; [exfalso; exact (Ha c (or_introl eq_refl) E)|].
    rewrite IH by (intros d Hd; apply Ha; right; exact Hd).
    pose proof (split_on_nonnil sep r). destruct (split_on sep r); [congruence|reflexivity].
Qed.

Lemma split_on_join (sep : ascii) (ls : list string) :
  ls <> [] -> Forall (fun x => forall c, In c (list_ascii_of_string x) -> c <> sep) ls ->
  split_on sep (join (String sep "") ls) = ls.
Proof.
  induction ls as [|x [|y rest] IH]; intros Hne Hf; [congruence| |].
  - inversion Hf as [|? ? Hx _]; subst. simpl join.
    rewrite <- (append_nil_r x) at 1. rewrite split_on_app_nosep by exact Hx.
    simpl. rewrite append_nil_r. reflexivity.
  - inversion Hf as [|? ? Hx Hr]; subst.
    change (join (String sep "") (x :: y :: rest))
      with (x ++ String sep "" ++ join (String sep "") (y :: rest)).
    rewrite split_on_app_nosep by exact Hx. cbn [append split_on].
    rewrite Ascii.eqb_refl, IH by (discriminate || exact Hr).
    rewrite append_nil_r. reflexivity.
Qed.

Lemma last_char (s : string) : s <> "" -> exists p d, s = p ++ String d "".
Proof.
  induction s as [|c r IH]; intros H; [congruence|].
  destruct r as [|c' r'].
  - exists "", c. reflexivity.
  - destruct IH as (p & d & E); [discriminate|]. exists (String c p), d. rewrite E. reflexivity.
Qed.

Lemma strip_id (s : string) : starts_nonspace s -> ends_nonspace s -> strip s = s.
Proof.
  intros (c & r & -> & Hc) (p & d & Es & Hd).
  unfold strip. simpl lstrip. rewrite Hc. rewrite Es. unfold rstrip.
  rewrite list_ascii_of_string_app, rev_app_distr. simpl.
  rewrite Hd. simpl. rewrite list_ascii_of_string_of_list_ascii, rev_involutive.
  rewrite string_of_list_ascii_app, string_of_list_ascii_of_string. reflexivity.
Qed.

Lemma prefix_self_app (a b : string) : String.prefix a (a ++ b) = true.
Proof. apply prefix_app_iff. exists b. reflexivity. Qed.

Lemma arista_line_interface (st : AristaState) (x : string) :
  clean_name x ->
  exists c', arista_line st ("interface " ++ x) = Ok (c', Some "interface", Some (x, [])) /\
             interfaces c' = interfaces (fst (fst st)).
Proof.
  intros [Hne Hx]. destruct st as [[c sec] cur].
  assert (Hs : strip ("interface " ++ x) = "interface " ++ x).
  { apply strip_id; [eexists; eexists; split; [reflexivity|reflexivity]|].
    destruct (last_char x Hne) as (p & d & ->). exists ("interface " ++ p), d.
    split; [apply append_assoc|].
    rewrite Forall_forall in Hx.
    assert (Hd : ascii_nonspace d = true).
    { apply Hx. rewrite list_ascii_of_string_app. apply in_or_app. right. left. reflexivity. }
    unfold ascii_nonspace in Hd. destruct (is_py_space d); [discriminate|reflexivity]. }
  unfold arista_line. cbv beta iota zeta. rewrite Hs.
  rewrite prefix_self_app, drop_prefix_app. simpl String.eqb. cbn [orb].
  change (String.prefix "!" ("interface " ++ x)) with false.
  change (String.prefix "hostname " ("interface " ++ x)) with false. cbv iota.
  eexists; split; [reflexivity|].
  destruct (contains "Software image version:" ("interface " ++ x)); reflexivity.
Qed.

Lemma arista_lines_interfaces (st : AristaState) (xs : list string) (x : string) :
  Forall clean_name (xs ++ [x]) ->
  exists c', arista_lines st (map (fun y => "interface " ++ y) (xs ++ [x])) =
             Ok (c', Some "interface", Some (x, [])) /\
             interfaces c' = interfaces (fst (fst st)).
Proof.
  revert st. induction xs as [|y ys IH]; intros st Hf.
  - inversion Hf as [|? ? Hx _]; subst. cbn [map app arista_lines].
    destruct (arista_line_interface st x Hx) as (c' & E & I). rewrite E, bind_Ok.
    cbn [arista_lines]. eauto.
  - inversion Hf as [|? ? Hy Hr]; subst. cbn [map app arista_lines].
    destruct (arista_line_interface st y Hy) as (c1 & E1 & I1). rewrite E1, bind_Ok.
    destruct (IH (c1, Some "interface", Some (y, [])) Hr) as (c' & E & I).
    rewrite E. eexists; split; [reflexivity|]. rewrite I. exact I1.
Qed.

(** [AristaEOSParser.parse] never raises: every content string yields a configuration. *)
Theorem arista_parse_never_raises (content : string) :
  exists cfg, arista_parse content = Ok cfg.
Proof. destruct (arista_parse_inv content) as (cfg & E & _). eauto. Qed.

(** Every interface recorded by [AristaEOSParser.parse] has an empty config list: indented lines are stripped before the indentation test and are never attached. *)
Theorem arista_interfaces_have_empty_config (content : string) (cfg : ParsedConfig) :
  arista_parse content = Ok cfg ->
  Forall (fun i => dict_get i "config" = Some (PList [])) (interfaces cfg).
Proof.
  intros H. destruct (arista_parse_inv content) as (cfg' & E & Hi & _).
  rewrite H in E. inversion E. subst. exact Hi.
Qed.

Lemma arista_interfaces_have_empty_config_witness :
  let content := "interface Ethernet1" ++ String (ascii_of_nat 10) "   description uplink" in
  let cfg := match arista_parse content with Ok c => c | Raise _ => new_config ARISTA_EOS content end in
  arista_parse content = Ok cfg /\
  Forall (fun i => dict_get i "config" = Some (PList [])) (interfaces cfg).
Proof.
  intros content cfg.
  assert (E : arista_parse content = Ok cfg) by (vm_compute; reflexivity).
  split; [exact E|]. apply (arista_interfaces_have_empty_config content cfg E).
Defined.

(** When interface lines follow each other with no other line between, only the last interface is recorded. *)
Theorem arista_consecutive_interfaces_keep_last (xs : list string) (x : string) :
  Forall clean_name (xs ++ [x]) ->
  exists cfg,
    arista_parse (join (String (ascii_of_nat 10) "") (map (fun y => "interface " ++ y) (xs ++ [x])))
      = Ok cfg /\
    interfaces cfg = [iface_dict x []].
Proof.
  intros Hf. unfold arista_parse.
  rewrite split_on_join.
  - destruct (arista_lines_interfaces (new_config ARISTA_EOS
        (join (String (ascii_of_nat 10) "") (map (fun y => "interface " ++ y) (xs ++ [x]))), None, None)
        xs x Hf) as (c' & E & I).
    rewrite E, bind_Ok. cbv beta iota. eexists; split; [reflexivity|]. cbn. rewrite I. reflexivity.
  - destruct xs; discriminate.
  - apply Forall_map. apply (Forall_impl _ (P := clean_name)); [|exact Hf].
    intros y [_ Hy] c Hc E. subst c.
    rewrite list_ascii_of_string_app in Hc. apply in_app_or in Hc. destruct Hc as [Hc|Hc].
    + simpl in Hc. repeat (destruct Hc as [Hc|Hc]; [discriminate Hc|]). exact Hc.
    + rewrite Forall_forall in Hy. specialize (Hy _ Hc). discriminate Hy.
Qed.

Lemma arista_consecutive_interfaces_keep_last_witness :
  Forall clean_name (["Ethernet1"] ++ ["Ethernet2"]) /\
  exists cfg,
    arista_parse (join (String (ascii_of_nat 10) "")
                   (map (fun y => "interface " ++ y) (["Ethernet1"] ++ ["Ethernet2"]))) = Ok cfg /\
    interfaces cfg = [iface_dict "Ethernet2" []].
Proof.
  assert (H : Forall clean_name (["Ethernet1"] ++ ["Ethernet2"])).
  { simpl. constructor; [split; [discriminate|repeat constructor]|].
    constructor; [split; [discriminate|repeat constructor]|constructor]. }
  split; [exact H|]. apply (arista_consecutive_interfaces_keep_last ["Ethernet1"] "Ethernet2" H).
Defined.

(** [detect_platform_from_content] only answers one of six platforms, each with a registered parser. *)
Theorem detect_platform_has_parser (other_parse : Platform -> string -> Result ParsedConfig)
    (content : string) (p : Platform) :
  detect_platform_from_content content = Some p ->
  In p [PFSENSE; ARISTA_EOS; JUNIPER_JUNOS; MELLANOX; HPE_ARUBA_CX; REDHAT] /\
  exists parse, get_parser other_parse p = Some parse.
Proof.
  unfold detect_platform_from_content.
  repeat match goal with |- context [if ?b then _ else _] => destruct b end;
    intros H; inversion H; subst; simpl; (split; [tauto|eauto]).
Qed.

Lemma detect_platform_has_parser_witness :
  let content := "! Arista vEOS" ++ String (ascii_of_nat 10) "hostname leaf1" in
  detect_platform_from_content content = Some ARISTA_EOS /\
  exists parse, get_parser (fun p c => Ok (new_config p c)) ARISTA_EOS = Some parse.
Proof.
  intros content.
  assert (E : detect_platform_from_content content = Some ARISTA_EOS) by (vm_compute; reflexivity).
  split; [exact E|]. apply (proj2 (detect_platform_has_parser _ content ARISTA_EOS E)).
Defined.

(** Content whose lower-case form contains eos is detected as PFSENSE or ARISTA_EOS, whatever Red Hat keywords it has. *)
Theorem detect_platform_eos_precedes_redhat (content : string) :
  contains "eos" (lower content) = true ->
  detect_platform_from_content content = Some PFSENSE \/
  detect_platform_from_content content = Some ARISTA_EOS.
Proof.
  intros H. unfold detect_platform_from_content. rewrite H, orb_true_r.
  destruct (String.prefix "<?xml" (strip content) || contains "<pfsense>" content); auto.
Qed.

Lemma detect_platform_eos_precedes_redhat_witness :
  let content := "SELINUX=enforcing" ++ String (ascii_of_nat 10) "# allow videos" in
  contains "eos" (lower content) = true /\
  detect_platform_from_content content = Some ARISTA_EOS.
Proof.
  intros content.
  assert (H : contains "eos" (lower content) = true) by (vm_compute; reflexivity).
  split; [exact H|].
  destruct (detect_platform_eos_precedes_redhat content H) as [E|E]; [|exact E].
  vm_compute in E. discriminate E.
Defined.

Lemma split_on_app_sep (sep : ascii) (a r : string) :
  split_on sep (a ++ String sep r) = (split_on sep a ++ split_on sep r)%list.
Proof.
  induction a as [|c a' IH]; simpl.
  - rewrite Ascii.eqb_refl. reflexivity.
  - rewrite IH. destruct (Ascii.eqb c sep); [reflexivity|].
    pose proof (split_on_nonnil sep a'). destruct (split_on sep a'); [congruence|reflexivity].
Qed.

Lemma split_on_nosep (sep : ascii) (a : string) :
  (forall c, In c (list_ascii_of_string a) -> c <> sep) -> split_on sep a = [a].
Proof.
  intros H. rewrite <- (append_nil_r a) at 1. rewrite split_on_app_nosep by exact H.
  simpl. rewrite append_nil_r. reflexivity.
Qed.

Lemma partition_eq_app (k v : string) :
  (forall c, In c (list_ascii_of_string k) -> c <> "="%char) ->
  partition_eq (k ++ String "=" v) = (k, v).
Proof.
  intros H. induction k as [|c k' IH]; simpl; [reflexivity|].
  destruct (Ascii.eqb_spec c "=") as [E|_]; [exfalso; exact (H c (or_introl eq_refl) E)|].
  rewrite IH by (intros d Hd; apply H; right; exact Hd). reflexivity.
Qed.

Lemma lstrip_char_id (ch : ascii) (s : string) :
  (forall c, In c (list_ascii_of_string s) -> c <> ch) -> lstrip_char ch s = s.
Proof.
  intros H. destruct s as [|c r]; simpl; [reflexivity|].
  destruct (Ascii.eqb_spec c ch) as [E|_]; [exfalso; exact (H c (or_introl eq_refl) E)|reflexivity].
Qed.

Lemma in_rev_str (c : ascii) (s : string) :
  In c (list_ascii_of_string (rev_str s)) -> In c (list_ascii_of_string s).
Proof.
  unfold rev_str. rewrite list_ascii_of_string_of_list_ascii. apply in_rev.
Qed.

Lemma strip_char_id (ch : ascii) (s : string) :
  (forall c, In c (list_ascii_of_string s) -> c <> ch) -> strip_char ch s = s.
Proof.
  intros H. unfold strip_char. rewrite (lstrip_char_id ch s H).
  rewrite lstrip_char_id; [apply rev_str_involutive|].
  intros c Hc. apply H. apply in_rev_str. exact Hc.
Qed.

Lemma chars_ok_in (P : ascii -> bool) (s : string) (c : ascii) :
  chars_ok P s -> In c (list_ascii_of_string s) -> P c = true.
Proof. intros H Hc. unfold chars_ok in H. rewrite Forall_forall in H. exact (H c Hc). Qed.

Lemma nonspace_shape (s : string) :
  s <> "" -> (forall c, In c (list_ascii_of_string s) -> is_py_space c = false) ->
  starts_nonspace s /\ ends_nonspace s.
Proof.
  intros Hne H. split.
  - destruct s as [|c r]; [congruence|]. exists c, r. split; [reflexivity|].
    apply H. left. reflexivity.
  - destruct (last_char s Hne) as (p & d & E). exists p, d. split; [exact E|].
    apply H. rewrite E, list_ascii_of_string_app. apply in_or_app. right. left. reflexivity.
Qed.

Lemma redhat_line_chars (k v : string) (c : ascii) :
  chars_ok redhat_key_char k -> chars_ok redhat_value_char v ->
  In c (list_ascii_of_string (k ++ String "=" v)) -> is_py_space c = false.
Proof.
  intros Hk Hv Hc. rewrite list_ascii_of_string_app in Hc. apply in_app_or in Hc.
  destruct Hc as [Hc|[<-|Hc]]; [| reflexivity |].
  - pose proof (chars_ok_in _ _ _ Hk Hc) as H. unfold redhat_key_char in H.
    destruct (is_py_space c); [discriminate|reflexivity].
  - pose proof (chars_ok_in _ _ _ Hv Hc) as H. unfold redhat_value_char in H.
    destruct (is_py_space c); [discriminate|reflexivity].
Qed.

Lemma redhat_line_assign (cfg : ParsedConfig) (k v : string) :
  k <> "" -> chars_ok redhat_key_char k -> v <> "" -> chars_ok redhat_value_char v ->
  dict_get (settings (redhat_line cfg (k ++ String "=" v))) k = Some (PStr v).
Proof.
  intros Hkne Hk Hvne Hv.
  assert (Hs : strip (k ++ String "=" v) = k ++ String "=" v).
  { destruct (nonspace_shape (k ++ String "=" v)) as [H1 H2];
      [destruct k; discriminate|intros c Hc; exact (redhat_line_chars k v c Hk Hv Hc)|].
    apply strip_id; assumption. }
  assert (Hsk : strip k = k).
  { destruct (nonspace_shape k Hkne) as [H1 H2]; [|apply strip_id; assumption].
    intros c Hc. pose proof (chars_ok_in _ _ _ Hk Hc) as H. unfold redhat_key_char in H.
    destruct (is_py_space c); [discriminate|reflexivity]. }
  assert (Hsv : strip v = v).
  { destruct (nonspace_shape v Hvne) as [H1 H2]; [|apply strip_id; assumption].
    intros c Hc. pose proof (chars_ok_in _ _ _ Hv Hc) as H. unfold redhat_value_char in H.
    destruct (is_py_space c); [discriminate|reflexivity]. }
  assert (Hq : strip_char single_quote (strip_char dquote v) = v).
  { rewrite (strip_char_id dquote v), (strip_char_id single_quote v); [reflexivity| |];
      intros c Hc E; subst c; pose proof (chars_ok_in _ _ _ Hv Hc) as H;
      unfold redhat_value_char in H; rewrite Ascii.eqb_refl in H;
      rewrite ?andb_false_r in H; discriminate H. }
  assert (Hp : partition_eq (k ++ String "=" v) = (k, v)).
  { apply partition_eq_app. intros c Hc E. subst c.
    pose proof (chars_ok_in _ _ _ Hk Hc) as H. unfold redhat_key_char in H.
    rewrite Ascii.eqb_refl, andb_false_r in H. discriminate H. }
  assert (Hskip : String.eqb (k ++ String "=" v) "" || String.prefix "#" (k ++ String "=" v) = false).
  { destruct k as [|c k']; [congruence|]. cbn -[ascii_dec].
    assert (Hc : c <> "#"%char).
    { intros E. subst c. pose proof (chars_ok_in _ _ _ Hk (or_introl eq_refl)) as H.
      unfold redhat_key_char in H. rewrite Ascii.eqb_refl, andb_false_r in H. discriminate H. }
    destruct (ascii_dec "#" c) as [E|_]; [congruence|reflexivity]. }
  assert (Hc : contains "=" (k ++ String "=" v) = true).
  { apply contains_iff. exists k, v. reflexivity. }
  unfold redhat_line. cbv zeta. rewrite Hs, Hskip, Hc, Hp. cbv iota. rewrite Hsk, Hsv, Hq.
  repeat match goal with
         | |- context [if String.eqb ?a ?b then _ else _] => destruct (String.eqb_spec a b)
         end; cbn [settings with_hostname with_services with_settings];
    try (rewrite dict_get_dict_set_other by congruence); apply dict_get_dict_set_same.
Qed.

(** In a Red Hat configuration, a final line KEY=VALUE with a plain key and value sets the setting KEY to VALUE, overriding earlier assignments. *)
Theorem redhat_last_assignment_wins (content k v : string) :
  k <> "" -> chars_ok redhat_key_char k -> v <> "" -> chars_ok redhat_value_char v ->
  dict_get (settings (redhat_parse (content ++ String (ascii_of_nat 10) (k ++ String "=" v)))) k
    = Some (PStr v).
Proof.
  intros Hkne Hk Hvne Hv. unfold redhat_parse.
  rewrite split_on_app_sep, (split_on_nosep _ (k ++ String "=" v)), fold_left_app.
  - apply redhat_line_assign; assumption.
  - intros c Hc E. subst c. pose proof (redhat_line_chars k v _ Hk Hv Hc) as H. discriminate H.
Qed.

Lemma redhat_last_assignment_wins_witness :
  let content := "PASS_MAX_DAYS=99" ++ String (ascii_of_nat 10) "PASS_MIN_DAYS=1" in
  "PASS_MAX_DAYS" <> "" /\ chars_ok redhat_key_char "PASS_MAX_DAYS" /\
  "60" <> "" /\ chars_ok redhat_value_char "60" /\
  dict_get (settings (redhat_parse (content ++ String (ascii_of_nat 10) ("PASS_MAX_DAYS" ++ String "=" "60"))))
    "PASS_MAX_DAYS" = Some (PStr "60").
Proof.
  intros content.
  assert (Hk : chars_ok redhat_key_char "PASS_MAX_DAYS") by (repeat constructor).
  assert (Hv : chars_ok redhat_value_char "60") by (repeat constructor).
  split; [discriminate|]. split; [exact Hk|]. split; [discriminate|]. split; [exact Hv|].
  apply (redhat_last_assignment_wins content "PASS_MAX_DAYS" "60"); [discriminate|exact Hk|discriminate|exact Hv].
Defined.
